(** * Cloud Monitoring query translation: model and verified properties

    A shallow embedding of the Go package [cloudmonitoring]
    (the query dispatcher, the filter/parameter builder, the alignment
    period resolver, the legend formatter and the histogram helpers),
    together with the properties its specification states about it. *)

From Stdlib Require Import ZArith QArith Qround String Ascii List Bool Lia.
From Stdlib Require Import DecimalString.
From stdpp Require Import base option list gmap strings fin_maps.

Local Open Scope string_scope.
Local Open Scope Z_scope.

(** ** Go values

    A Go [string] is a sequence of bytes: [String.string].  The helper
    [reverse], which the package applies rune-wise, is modelled byte-wise;
    on valid UTF-8 text the compositions the package uses (remove the
    first or the last single-byte pattern) give the same bytes either
    way.  [strings.TrimSpace] decodes the runes at both ends.

    A call either returns or panics. *)

Inductive outcome (A : Type) : Type :=
  | Ret (a : A)
  | Panic (msg : string).
Arguments Ret {A} a.
Arguments Panic {A} msg.

Definition obind {A B} (o : outcome A) (f : A -> outcome B) : outcome B :=
  match o with
  | Ret a => f a
  | Panic m => Panic m
  end.

(** Signed 64-bit wrap-around of [int] and [int64]. *)
Definition wrap64 (z : Z) : Z := (z + 2 ^ 63) mod 2 ^ 64 - 2 ^ 63.

(** ** Package [strings] *)
Module strings.

Definition HasPrefix (s pre : string) : bool := String.prefix pre s.

Definition rev (s : string) : string :=
  string_of_list_ascii (List.rev (list_ascii_of_string s)).

Definition HasSuffix (s suf : string) : bool :=
  String.prefix (rev suf) (rev s).

(** Number of non-overlapping instances of a non-empty [sub]. [skip]
    counts the bytes still covered by the instance found last. *)
Fixpoint countFrom (sub : string) (skip : nat) (s : string) : Z :=
  match s with
  | EmptyString => 0
  | String _ s' =>
      match skip with
      | S k => countFrom sub k s'
      | O =>
          if String.prefix sub s
          then 1 + countFrom sub (String.length sub - 1) s'
          else countFrom sub 0 s'
      end
  end.

Definition Count (s sub : string) : Z := countFrom sub 0 s.

Definition Contains (s sub : string) : bool := 0 <? Count s sub.

(** [Replace s old new n]: the first [n] non-overlapping instances of
    the non-empty [old] replaced by [new]; no limit when [n < 0]. *)
Fixpoint replaceFrom (old new : string) (n : Z) (skip : nat) (s : string)
  : string :=
  match s with
  | EmptyString => EmptyString
  | String a s' =>
      match skip with
      | S k => replaceFrom old new n k s'
      | O =>
          if n =? 0 then s
          else if String.prefix old s
          then new ++ replaceFrom old new (n - 1) (String.length old - 1) s'
          else String a (replaceFrom old new n 0 s')
      end
  end.

Definition Replace (s old new : string) (n : Z) : string :=
  replaceFrom old new n 0 s.

Definition ReplaceAll (s old new : string) : string :=
  Replace s old new (-1).

Fixpoint inCutset (cutset : string) (a : ascii) : bool :=
  match cutset with
  | EmptyString => false
  | String c cs => Ascii.eqb a c || inCutset cs a
  end.

Fixpoint trimLeftFunc (f : ascii -> bool) (s : string) : string :=
  match s with
  | EmptyString => EmptyString
  | String a s' => if f a then trimLeftFunc f s' else s
  end.

Fixpoint trimRightFunc (f : ascii -> bool) (s : string) : string :=
  match s with
  | EmptyString => EmptyString
  | String a s' =>
      match trimRightFunc f s' with
      | EmptyString => if f a then EmptyString else String a EmptyString
      | t => String a t
      end
  end.

Definition Trim (s cutset : string) : string :=
  trimRightFunc (inCutset cutset) (trimLeftFunc (inCutset cutset) s).

(** [unicode.IsSpace] on the runes of one byte: tab, line feed, vertical
    tab, form feed, carriage return, space. *)
Definition isSpace (a : ascii) : bool :=
  let n := nat_of_ascii a in
  ((9 <=? n)%nat && (n <=? 13)%nat) || (n =? 32)%nat.

(** [unicode.IsSpace] on the runes of two bytes, by their UTF-8 encoding:
    U+0085 and U+00A0. *)
Definition isSpace2 (a b : ascii) : bool :=
  let a := nat_of_ascii a in
  let b := nat_of_ascii b in
  ((a =? 194) && ((b =? 133) || (b =? 160)))%nat.

(** [unicode.IsSpace] on the runes of three bytes: U+1680, U+2000 to
    U+200A, U+2028, U+2029, U+202F, U+205F and U+3000.  No rune of four
    bytes is white space. *)
Definition isSpace3 (a b c : ascii) : bool :=
  let a := nat_of_ascii a in
  let b := nat_of_ascii b in
  let c := nat_of_ascii c in
  (((a =? 225) && (b =? 154) && (c =? 128))
   || ((a =? 226) && (b =? 128)
       && (((128 <=? c) && (c <=? 138)) || (c =? 168) || (c =? 169) || (c =? 175)))
   || ((a =? 226) && (b =? 129) && (c =? 159))
   || ((a =? 227) && (b =? 128) && (c =? 128)))%nat.

(** The width in bytes of the white-space rune [s] begins with, 0 when it
    begins with none ([utf8.DecodeRuneInString] and [unicode.IsSpace]). *)
Definition spaceWidth (s : string) : nat :=
  match s with
  | EmptyString => 0
  | String a s1 =>
      if isSpace a then 1
      else
        match s1 with
        | EmptyString => 0
        | String b s2 =>
            if isSpace2 a b then 2
            else
              match s2 with
              | EmptyString => 0
              | String c _ => if isSpace3 a b c then 3 else 0
              end
        end
  end.

(** The width in bytes of the white-space rune a string ends with, read on
    the string turned end for end ([utf8.DecodeLastRuneInString], which
    steps back to the byte that starts the last rune). *)
Definition spaceWidthLast (r : string) : nat :=
  match r with
  | EmptyString => 0
  | String c r1 =>
      if isSpace c then 1
      else
        match r1 with
        | EmptyString => 0
        | String b r2 =>
            if isSpace2 b c then 2
            else
              match r2 with
              | EmptyString => 0
              | String a _ => if isSpace3 a b c then 3 else 0
              end
        end
  end.

(** The runes [width] measures are dropped from the start of [s], one
    after the other; [skip] counts the bytes of the rune found last that
    are still to drop. *)
Fixpoint trimLeftRunes (width : string -> nat) (skip : nat) (s : string)
  : string :=
  match s with
  | EmptyString => EmptyString
  | String _ s' =>
      match skip with
      | S k => trimLeftRunes width k s'
      | O =>
          match width s with
          | O => s
          | S w => trimLeftRunes width w s'
          end
      end
  end.

(** [TrimSpace]: the leading and the trailing white space removed, as
    defined by Unicode. *)
Definition TrimSpace (s : string) : string :=
  rev (trimLeftRunes spaceWidthLast 0 (rev (trimLeftRunes spaceWidth 0 s))).

End strings.

(** ** Package [strconv] *)
Module strconv.

Definition FormatInt (i : Z) : string := NilZero.string_of_int (Z.to_int i).

Definition Itoa (i : Z) : string := FormatInt i.

End strconv.

(** ** Package [regexp]

    Patterns are matched the way the library documents it: the match begins
    as early as possible and, among the matches beginning there, is the one
    a backtracking search finds first.  None of the package's patterns
    matches the empty string. *)
Module regexp.

Inductive regex : Type :=
  | Class (p : ascii -> bool)             (* one byte of a class *)
  | Cat (r1 r2 : regex)                   (* r1 r2 *)
  | Alt (r1 r2 : regex)                   (* r1|r2 *)
  | Star (greedy : bool) (r : regex)      (* r* and r*? *)
  | Group (n : nat) (r : regex).          (* the n-th capturing group *)

Definition Plus (greedy : bool) (r : regex) : regex := Cat r (Star greedy r).

Definition byte (a : ascii) : regex := Class (Ascii.eqb a).

(** A literal of at least one byte. *)
Fixpoint literal (a : ascii) (s : string) : regex :=
  match s with
  | EmptyString => byte a
  | String b s' => Cat (byte a) (literal b s')
  end.

Definition oneOf (set : string) : regex :=
  Class (fun a => strings.inCutset set a).

(** [.]: any byte but the line feed. *)
Definition dot : regex := Class (fun a => negb (Ascii.eqb a "010")).

(** [\s]: tab, line feed, form feed, carriage return, space. *)
Definition space : regex := oneOf (String "009" (String "010" (String "012" (String "013" " ")))).

(** [\w]: letters, digits and the underscore. *)
Definition word : regex :=
  Class (fun a =>
    let n := nat_of_ascii a in
    ((48 <=? n) && (n <=? 57) || (65 <=? n) && (n <=? 90)
     || (97 <=? n) && (n <=? 122) || (n =? 95))%nat).

Definition captures : Type := list (nat * string).

Definition submatch (c : captures) (n : nat) : string :=
  match List.find (fun e => Nat.eqb (fst e) n) c with
  | Some e => snd e
  | None => EmptyString
  end.

(** The text consumed between [s] and its suffix [s']. *)
Definition consumed (s s' : string) : string :=
  String.substring 0 (String.length s - String.length s') s.

Section Backtracking.
Context {R : Type}.

(** Repetition of a pattern matched by [step], continued by [k]: the
    greedy form tries one more instance first, the lazy form tries the
    continuation first.  An instance has to consume something. *)
Definition starLoop (greedy : bool)
  (step : string -> captures -> (string -> captures -> option R) -> option R)
  (k : string -> captures -> option R)
  : nat -> string -> captures -> option R :=
  fix loop (fuel : nat) (s : string) (c : captures) {struct fuel} : option R :=
    match fuel with
    | O => k s c
    | S fuel' =>
        let again (_ : unit) :=
          step s c (fun s' c' =>
            if (String.length s' <? String.length s)%nat
            then loop fuel' s' c' else None) in
        if greedy
        then match again tt with
             | Some x => Some x
             | None => k s c
             end
        else match k s c with
             | Some x => Some x
             | None => again tt
             end
    end.

Fixpoint matchK (r : regex) {struct r}
  : string -> captures -> (string -> captures -> option R) -> option R :=
  match r with
  | Class p => fun s c k =>
      match s with
      | String a s' => if p a then k s' c else None
      | EmptyString => None
      end
  | Cat r1 r2 => fun s c k =>
      matchK r1 s c (fun s' c' => matchK r2 s' c' k)
  | Alt r1 r2 => fun s c k =>
      match matchK r1 s c k with
      | Some x => Some x
      | None => matchK r2 s c k
      end
  | Star greedy r1 => fun s c k =>
      starLoop greedy (matchK r1) k (S (String.length s)) s c
  | Group n r1 => fun s c k =>
      matchK r1 s c (fun s' c' => k s' ((n, consumed s s') :: c'))
  end.

End Backtracking.

(** The match of [r] at the start of [s]: the matched text and the groups. *)
Definition matchPrefix (r : regex) (s : string) : option (string * captures) :=
  matchK r s [] (fun s' c => Some (consumed s s', c)).

(** [FindStringSubmatch] for a pattern of [groups] capturing groups:
    the leftmost match and its groups, or the empty (nil) slice. *)
Fixpoint FindStringSubmatch (r : regex) (groups : nat) (s : string)
  : list string :=
  match matchPrefix r s with
  | Some (m, c) => m :: List.map (submatch c) (List.seq 1 groups)
  | None =>
      match s with
      | EmptyString => []
      | String _ s' => FindStringSubmatch r groups s'
      end
  end.

(** [ReplaceAllFunc]: every match, leftmost first and not overlapping,
    replaced by [repl] of the matched text. *)
Fixpoint replaceAllFrom (r : regex) (repl : string -> string) (skip : nat)
  (s : string) : string :=
  match s with
  | EmptyString => EmptyString
  | String a s' =>
      match skip with
      | S k => replaceAllFrom r repl k s'
      | O =>
          match matchPrefix r s with
          | Some (m, _) =>
              match String.length m with
              | S l => repl m ++ replaceAllFrom r repl l s'
              | O => String a (replaceAllFrom r repl 0 s')
              end
          | None => String a (replaceAllFrom r repl 0 s')
          end
      end
  end.

Definition ReplaceAllFunc (r : regex) (src : string) (repl : string -> string)
  : string :=
  replaceAllFrom r repl 0 src.

End regexp.

(** ** Package [net/url]: [url.Values] *)
Module url.

Definition Add (key value : string) (v : gmap string (list string))
  : gmap string (list string) :=
  <[key := (default [] (v !! key) ++ [value])%list]> v.

End url.

(** ** The package's patterns and tables *)

(** [\{\{\s*(.+?)\s*\}\}] *)
Definition legendKeyFormat : regexp.regex :=
  regexp.Cat (regexp.literal "{" "{")
    (regexp.Cat (regexp.Star true regexp.space)
       (regexp.Cat (regexp.Group 1 (regexp.Plus false regexp.dot))
          (regexp.Cat (regexp.Star true regexp.space)
             (regexp.literal "}" "}")))).

(** [([\w\d_]+)\.(googleapis\.com|io)/(.+)] *)
Definition metricNameFormat : regexp.regex :=
  regexp.Cat (regexp.Group 1 (regexp.Plus true regexp.word))
    (regexp.Cat (regexp.byte ".")
       (regexp.Cat
          (regexp.Group 2
             (regexp.Alt (regexp.literal "g" "oogleapis.com")
                         (regexp.literal "i" "o")))
          (regexp.Cat (regexp.byte "/")
             (regexp.Group 3 (regexp.Plus true regexp.dot))))).

(** [[-\/^$+?.()|[\]{}]] *)
Definition wildcardRegexRe : regexp.regex := regexp.oneOf "-/^$+?.()|[]{}".

Definition cloudMonitoringUnitMappings : gmap string string :=
  list_to_map
    [ ("bit", "bits"); ("By", "bytes"); ("s", "s"); ("min", "m"); ("h", "h");
      ("d", "d");
      ("us", String "194" (String "181" "s"));   (* micro sign, then s *)
      ("ms", "ms"); ("ns", "ns"); ("%", "percent"); ("percent", "percent");
      ("MiBy", "mbytes"); ("By/s", "Bps"); ("GBy", "decgbytes") ].

(** Modelled from the spec: the package's helper [reverse] is declared
    outside the sources at hand; the two call sites use it to remove the
    last occurrence of a one-byte pattern (the trailing asterisk of a
    value, the trailing [~] of an operator), so it turns a string end for
    end. *)
Definition reverse (s : string) : string := strings.rev s.

(** ** Constants of the package *)
Definition metricQueryType : string := "metrics".
Definition sloQueryType : string := "slo".
Definition gceAuthentication : string := "gce".
Definition jwtAuthentication : string := "jwt".
Definition mqlEditorMode : string := "mql".
Definition crossSeriesReducerDefault : string := "REDUCE_NONE".
Definition perSeriesAlignerDefault : string := "ALIGN_MEAN".

(** ** Package [math]

    [float64] values are modelled by the rationals they denote and the
    operations by the exact ones.  The package only
    converts integers to [float64], divides by 1000, takes [math.Max]
    with 60, multiplies by an integral power, and truncates the result to an
    integer.

    The model gives what the code gives as long as no operation rounds
    and the integer fits: for the conversion of an integer of at most
    2^53 in magnitude, for [math.Max], for a power and a product that are
    binary64 numbers themselves, and for the truncation of a number
    below 2^63 in magnitude.  The quotient by 1000 does round, but for an
    integer of at most 2^53 in magnitude the rounded quotient has the
    integer part of the exact one: it is below 2^44, where two binary64
    numbers are at most 2^-9 apart, and it is a multiple of 1/1000, so
    when it is not whole it is at least 1/1000, more than half of 2^-9,
    away from the next whole number.  Outside of these ranges the code
    rounds, or converts a number no [int] holds, and the model does not
    follow it; the statements below that depend on the values keep to
    these ranges. *)
Module math.

Definition float64 : Type := Q.

Definition ofInt (i : Z) : float64 := inject_Z i.

Definition Max (x y : float64) : float64 := if Qle_bool x y then y else x.

(** [math.Pow] at an integral exponent, the only use the package makes. *)
Definition Pow (x y : float64) : float64 := Qpower x (Qnum y ÷ Zpos (Qden y)).

(** [int(f)] and [int64(f)]: truncation toward zero, for a number an
    [int] holds. *)
Definition toInt (f : float64) : Z := Qnum f ÷ Zpos (Qden f).

End math.

(** ** Alignment period resolver *)
Definition calculateAlignmentPeriod
  (alignmentPeriod : string) (intervalMs : Z) (durationSeconds : Z) : string :=
  let alignmentPeriod :=
    if String.eqb alignmentPeriod "grafana-auto" || String.eqb alignmentPeriod EmptyString
    then
      let alignmentPeriodValue :=
        math.toInt (math.Max (math.ofInt intervalMs / math.ofInt 1000)%Q
                             (math.ofInt 60)) in
      "+" ++ strconv.Itoa alignmentPeriodValue ++ "s"
    else alignmentPeriod in
  if String.eqb alignmentPeriod "cloud-monitoring-auto"
     || String.eqb alignmentPeriod "stackdriver-auto"
  then
    let alignmentPeriodValue :=
      math.toInt (math.Max (math.ofInt durationSeconds) (math.ofInt 60)) in
    if alignmentPeriodValue <? 60 * 60 * 23 then "+60s"
    else if alignmentPeriodValue <? 60 * 60 * 24 * 6 then "+300s"
    else "+3600s"
  else alignmentPeriod.

(** ** Filter builder *)

(** The double quote, written by its code. *)
Definition dquote : string := String "034" EmptyString.

Definition interpolateFilterWildcards (value : string) : string :=
  let matches := strings.Count value "*" in
  if (matches =? 2) && strings.HasSuffix value "*" && strings.HasPrefix value "*"
  then
    let value := strings.ReplaceAll value "*" EmptyString in
    "has_substring(" ++ dquote ++ value ++ dquote ++ ")"
  else if (matches =? 1) && strings.HasPrefix value "*"
  then
    let value := strings.Replace value "*" EmptyString 1 in
    "ends_with(" ++ dquote ++ value ++ dquote ++ ")"
  else if (matches =? 1) && strings.HasSuffix value "*"
  then
    let value := reverse (strings.Replace (reverse value) "*" EmptyString 1) in
    "starts_with(" ++ dquote ++ value ++ dquote ++ ")"
  else if negb (matches =? 0)
  then
    let value :=
      regexp.ReplaceAllFunc wildcardRegexRe value
        (fun _in => strings.Replace _in _in ("\\" ++ _in) 1) in
    let value := strings.ReplaceAll value "*" ".*" in
    let value := strings.ReplaceAll value dquote ("\\" ++ dquote) in
    "monitoring.regex.full_match(" ++ dquote ++ "^" ++ value ++ "$" ++ dquote ++ ")"
  else value.

(** One iteration of the loop of [buildFilterString]: [i] is the index of
    [part] in [filterParts]. *)
Definition filterStep (filterParts : list string) (filterString : string)
  (i : nat) (part : string) : outcome string :=
  let mod_ := (i mod 4)%nat in
  if String.eqb part "AND" then Ret (filterString ++ " ")
  else if (mod_ =? 2)%nat then
    match filterParts !! (i - 1)%nat with
    | None => Panic "index out of range"
    | Some operator =>
        if String.eqb operator "=~" || String.eqb operator "!=~" then
          let filterString :=
            reverse (strings.Replace (reverse filterString) "~" EmptyString 1) in
          Ret (filterString
               ++ "monitoring.regex.full_match(" ++ dquote ++ part ++ dquote ++ ")")
        else if strings.Contains part "*" then
          Ret (filterString ++ interpolateFilterWildcards part)
        else Ret (filterString ++ dquote ++ part ++ dquote)
    end
  else Ret (filterString ++ part).

Fixpoint filterLoop (filterParts : list string) (i : nat) (rest : list string)
  (filterString : string) : outcome string :=
  match rest with
  | [] => Ret filterString
  | part :: rest' =>
      obind (filterStep filterParts filterString i part)
            (filterLoop filterParts (S i) rest')
  end.

Definition buildFilterString (metricType : string) (filterParts : list string)
  : outcome string :=
  obind (filterLoop filterParts 0 filterParts EmptyString) (fun filterString =>
    Ret (strings.Trim
           ("metric.type=" ++ dquote ++ metricType ++ dquote ++ " " ++ filterString)
           " ")).

(** ** Query descriptors

    The declarations of [metricQuery], [sloQuery], [grafanaQuery],
    [preprocessorType] and [cloudMonitoringBucketOptions] are not part of
    the sources at hand; the records below have the fields the functions
    read and write, typed as the spec's data model has them. *)

(** Modelled from the spec: the preprocessor selection, none, rate or
    delta. *)
Inductive preprocessorType : Type :=
  | PreprocessorTypeNone
  | PreprocessorTypeRate
  | PreprocessorTypeDelta.

#[global] Instance preprocessorType_eq_dec : EqDecision preprocessorType.
Proof. solve_decision. Defined.

(** Modelled from the spec: the metric-query parameters, with the fields
    the functions of the package read and write. *)
Record metricQuery : Type := {
  mq_ProjectName : string;
  mq_MetricType : string;
  mq_CrossSeriesReducer : string;
  mq_AlignmentPeriod : string;
  mq_PerSeriesAligner : string;
  mq_GroupBys : list string;
  mq_Filters : list string;
  mq_AliasBy : string;
  mq_View : string;
  mq_EditorMode : string;
  mq_Query : string;
  mq_Preprocessor : string;
  mq_PreprocessorType : preprocessorType
}.

(** Modelled from the spec: the SLO-query parameters. *)
Record sloQuery : Type := {
  slo_ProjectName : string;
  slo_AlignmentPeriod : string;
  slo_AliasBy : string;
  slo_SelectorName : string;
  slo_ServiceId : string;
  slo_SloId : string
}.

(** Modelled from the spec: the decoded query, its declared type and the
    two parameter blocks. *)
Record grafanaQuery : Type := {
  QueryType : string;
  MetricQuery : metricQuery;
  SloQuery : sloQuery
}.

Definition set_CrossSeriesReducer (v : string) (q : metricQuery) : metricQuery :=
  {| mq_ProjectName := mq_ProjectName q; mq_MetricType := mq_MetricType q;
     mq_CrossSeriesReducer := v; mq_AlignmentPeriod := mq_AlignmentPeriod q;
     mq_PerSeriesAligner := mq_PerSeriesAligner q; mq_GroupBys := mq_GroupBys q;
     mq_Filters := mq_Filters q; mq_AliasBy := mq_AliasBy q;
     mq_View := mq_View q; mq_EditorMode := mq_EditorMode q;
     mq_Query := mq_Query q; mq_Preprocessor := mq_Preprocessor q;
     mq_PreprocessorType := mq_PreprocessorType q |}.

Definition set_PerSeriesAligner (v : string) (q : metricQuery) : metricQuery :=
  {| mq_ProjectName := mq_ProjectName q; mq_MetricType := mq_MetricType q;
     mq_CrossSeriesReducer := mq_CrossSeriesReducer q;
     mq_AlignmentPeriod := mq_AlignmentPeriod q;
     mq_PerSeriesAligner := v; mq_GroupBys := mq_GroupBys q;
     mq_Filters := mq_Filters q; mq_AliasBy := mq_AliasBy q;
     mq_View := mq_View q; mq_EditorMode := mq_EditorMode q;
     mq_Query := mq_Query q; mq_Preprocessor := mq_Preprocessor q;
     mq_PreprocessorType := mq_PreprocessorType q |}.

Definition set_View (v : string) (q : metricQuery) : metricQuery :=
  {| mq_ProjectName := mq_ProjectName q; mq_MetricType := mq_MetricType q;
     mq_CrossSeriesReducer := mq_CrossSeriesReducer q;
     mq_AlignmentPeriod := mq_AlignmentPeriod q;
     mq_PerSeriesAligner := mq_PerSeriesAligner q; mq_GroupBys := mq_GroupBys q;
     mq_Filters := mq_Filters q; mq_AliasBy := mq_AliasBy q;
     mq_View := v; mq_EditorMode := mq_EditorMode q;
     mq_Query := mq_Query q; mq_Preprocessor := mq_Preprocessor q;
     mq_PreprocessorType := mq_PreprocessorType q |}.

Definition set_PreprocessorType (v : preprocessorType) (q : metricQuery)
  : metricQuery :=
  {| mq_ProjectName := mq_ProjectName q; mq_MetricType := mq_MetricType q;
     mq_CrossSeriesReducer := mq_CrossSeriesReducer q;
     mq_AlignmentPeriod := mq_AlignmentPeriod q;
     mq_PerSeriesAligner := mq_PerSeriesAligner q; mq_GroupBys := mq_GroupBys q;
     mq_Filters := mq_Filters q; mq_AliasBy := mq_AliasBy q;
     mq_View := mq_View q; mq_EditorMode := mq_EditorMode q;
     mq_Query := mq_Query q; mq_Preprocessor := mq_Preprocessor q;
     mq_PreprocessorType := v |}.

Definition buildSLOFilterExpression (q : sloQuery) : string :=
  slo_SelectorName q ++ "(" ++ dquote ++ "projects/" ++ slo_ProjectName q
  ++ "/services/" ++ slo_ServiceId q ++ "/serviceLevelObjectives/"
  ++ slo_SloId q ++ dquote ++ ")".

(** ** Aggregation parameters *)

(** [for _, groupBy := range groupBys { params.Add(key, groupBy) }] *)
Definition addEach (key : string) (values : list string)
  (params : gmap string (list string)) : gmap string (list string) :=
  List.fold_left (fun p v => url.Add key v p) values params.

(** The function updates both of its pointer arguments: the result is the
    pair of the parameters and the query as it leaves them. *)
Definition setMetricAggParams (params : gmap string (list string))
  (query : metricQuery) (durationSeconds : Z) (intervalMs : Z)
  : gmap string (list string) * metricQuery :=
  let query :=
    if String.eqb (mq_CrossSeriesReducer query) EmptyString
    then set_CrossSeriesReducer crossSeriesReducerDefault query else query in
  let query :=
    if String.eqb (mq_PerSeriesAligner query) EmptyString
    then set_PerSeriesAligner perSeriesAlignerDefault query else query in
  let alignmentPeriod :=
    calculateAlignmentPeriod (mq_AlignmentPeriod query) intervalMs durationSeconds in
  let params :=
    if negb (bool_decide (mq_PreprocessorType query = PreprocessorTypeNone))
    then
      let params := url.Add "secondaryAggregation.alignmentPeriod" alignmentPeriod params in
      let params := url.Add "secondaryAggregation.crossSeriesReducer"
                            (mq_CrossSeriesReducer query) params in
      let params := url.Add "secondaryAggregation.perSeriesAligner"
                            (mq_PerSeriesAligner query) params in
      let primaryCrossSeriesReducer :=
        if (0 <? length (mq_GroupBys query))%nat
        then mq_CrossSeriesReducer query else crossSeriesReducerDefault in
      let params := url.Add "aggregation.crossSeriesReducer"
                            primaryCrossSeriesReducer params in
      let aligner :=
        if bool_decide (mq_PreprocessorType query = PreprocessorTypeDelta)
        then "ALIGN_DELTA" else "ALIGN_RATE" in
      let params := url.Add "aggregation.perSeriesAligner" aligner params in
      addEach "secondaryAggregation.groupByFields" (mq_GroupBys query) params
    else
      let params := url.Add "aggregation.crossSeriesReducer"
                            (mq_CrossSeriesReducer query) params in
      url.Add "aggregation.perSeriesAligner" (mq_PerSeriesAligner query) params in
  let params := url.Add "aggregation.alignmentPeriod" alignmentPeriod params in
  (addEach "aggregation.groupByFields" (mq_GroupBys query) params, query).

Definition setSloAggParams (params : gmap string (list string))
  (query : sloQuery) (durationSeconds : Z) (intervalMs : Z)
  : gmap string (list string) :=
  let params :=
    url.Add "aggregation.alignmentPeriod"
      (calculateAlignmentPeriod (slo_AlignmentPeriod query) intervalMs durationSeconds)
      params in
  if String.eqb (slo_SelectorName query) "select_slo_health"
  then url.Add "aggregation.perSeriesAligner" "ALIGN_MEAN" params
  else url.Add "aggregation.perSeriesAligner" "ALIGN_NEXT_OLDER" params.

(** ** Executors *)

(** Modelled from the spec: the filter executor; the fields are those the
    struct literals of [buildQueryExecutors] set. *)
Record cloudMonitoringTimeSeriesFilter : Type := {
  tsf_Target : string;
  tsf_Params : gmap string (list string);
  tsf_RefID : string;
  tsf_GroupBys : list string;
  tsf_Selector : string;
  tsf_Service : string;
  tsf_Slo : string;
  tsf_ProjectName : string;
  tsf_AliasBy : string
}.

Record TimeRange : Type := {
  tr_From : Z;   (* nanoseconds since the epoch *)
  tr_To : Z
}.

(** Modelled from the spec: the MQL executor; the fields are those the
    struct literal of [buildQueryExecutors] sets. *)
Record cloudMonitoringTimeSeriesQuery : Type := {
  tsq_RefID : string;
  tsq_ProjectName : string;
  tsq_Query : string;
  tsq_IntervalMS : Z;
  tsq_AliasBy : string;
  tsq_timeRange : TimeRange
}.

(** Modelled from the spec: the interface [cloudMonitoringQueryExecutor]
    and its two implementations. *)
Inductive cloudMonitoringQueryExecutor : Type :=
  | FilterExecutor (f : cloudMonitoringTimeSeriesFilter)
  | QueryExecutor (q : cloudMonitoringTimeSeriesQuery).

(** Modelled from the spec: each executor answers with the reference id
    it was built with. *)
Definition getRefID (e : cloudMonitoringQueryExecutor) : string :=
  match e with
  | FilterExecutor f => tsf_RefID f
  | QueryExecutor q => tsq_RefID q
  end.

(** ** Legend formatter *)
Definition replaceWithMetricPart (metaPartName metricType : string)
  : option string :=
  let shortMatches := regexp.FindStringSubmatch metricNameFormat 3 metricType in
  if String.eqb metaPartName "metric.name" && (2 <? length shortMatches)%nat
  then Some (List.nth 3 shortMatches EmptyString)
  else if String.eqb metaPartName "metric.service" && (0 <? length shortMatches)%nat
  then Some (List.nth 1 shortMatches EmptyString)
  else None.

(** The name a matched placeholder carries. *)
Definition metaPartNameOf (_in : string) : string :=
  let metaPartName := strings.Replace _in "{{" EmptyString 1 in
  let metaPartName := strings.Replace metaPartName "}}" EmptyString 1 in
  strings.TrimSpace metaPartName.

(** The function [formatLegendKeys] passes to [ReplaceAllFunc]. *)
Definition legendReplacement (metricType : string)
  (labels additionalLabels : gmap string string)
  (query : cloudMonitoringTimeSeriesFilter) (_in : string) : string :=
  let metaPartName := metaPartNameOf _in in
  if String.eqb metaPartName "metric.type" then metricType
  else
    match replaceWithMetricPart metaPartName metricType with
    | Some metricPart => metricPart
    | None =>
        match labels !! metaPartName with
        | Some val => val
        | None =>
            match additionalLabels !! metaPartName with
            | Some val => val
            | None =>
                if String.eqb metaPartName "project"
                   && negb (String.eqb (tsf_ProjectName query) EmptyString)
                then tsf_ProjectName query
                else if String.eqb metaPartName "service"
                        && negb (String.eqb (tsf_Service query) EmptyString)
                then tsf_Service query
                else if String.eqb metaPartName "slo"
                        && negb (String.eqb (tsf_Slo query) EmptyString)
                then tsf_Slo query
                else if String.eqb metaPartName "selector"
                        && negb (String.eqb (tsf_Selector query) EmptyString)
                then tsf_Selector query
                else _in
            end
        end
    end.

Definition formatLegendKeys (metricType defaultMetricName : string)
  (labels additionalLabels : gmap string string)
  (query : cloudMonitoringTimeSeriesFilter) : string :=
  if String.eqb (tsf_AliasBy query) EmptyString then defaultMetricName
  else
    regexp.ReplaceAllFunc legendKeyFormat (tsf_AliasBy query)
      (legendReplacement metricType labels additionalLabels query).

(** ** Histogram buckets *)

(** Modelled from the spec: the linear bucket options. *)
Record linearBuckets : Type := {
  lin_NumFiniteBuckets : Z;
  lin_Width : Z;
  lin_Offset : Z
}.

(** Modelled from the spec: the exponential bucket options. *)
Record exponentialBuckets : Type := {
  exp_NumFiniteBuckets : Z;
  exp_GrowthFactor : math.float64;
  exp_Scale : math.float64
}.

(** Modelled from the spec: the explicit bucket options. *)
Record explicitBuckets : Type := {
  Bounds : list math.float64
}.

(** Modelled from the spec: three pointers, each possibly nil. *)
Record cloudMonitoringBucketOptions : Type := {
  LinearBuckets : option linearBuckets;
  ExponentialBuckets : option exponentialBuckets;
  ExplicitBuckets : option explicitBuckets
}.

Section Buckets.
(** [fmt.Sprintf] of the verb [%g]. *)
Variable formatG : math.float64 -> string.

Definition calcBucketBound (bucketOptions : cloudMonitoringBucketOptions)
  (n : Z) : outcome string :=
  let bucketBound := "0" in
  if n =? 0 then Ret bucketBound
  else
    match LinearBuckets bucketOptions with
    | Some lb =>
        Ret (strconv.FormatInt
               (wrap64 (lin_Offset lb + wrap64 (lin_Width lb * wrap64 (n - 1)))))
    | None =>
        match ExponentialBuckets bucketOptions with
        | Some eb =>
            Ret (strconv.FormatInt
                   (math.toInt
                      (exp_Scale eb
                       * math.Pow (exp_GrowthFactor eb)
                                  (math.ofInt (wrap64 (n - 1))))%Q))
        | None =>
            match ExplicitBuckets bucketOptions with
            | Some xb =>
                if n <? 0 then Panic "index out of range"
                else
                  match Bounds xb !! Z.to_nat n with
                  | Some b => Ret (formatG b)
                  | None => Panic "index out of range"
                  end
            | None => Ret bucketBound
            end
        end
    end.

End Buckets.

(** ** Data frames

    The parts of the plugin SDK's frames the package writes. *)
Record DataLink : Type := {
  Title : string;
  TargetBlank : bool;
  URL : string
}.

Record FieldConfig : Type := {
  Unit : string;
  Links : list DataLink
}.

Record Field : Type := {
  fld_Name : string;
  Config : option FieldConfig
}.

Record Frame : Type := {
  frm_Name : string;
  Fields : list Field;
  Custom : option (gmap string string)  (* the custom part of the meta data *)
}.

Definition emptyFieldConfig : FieldConfig := {| Unit := EmptyString; Links := [] |}.

Definition addConfigToField (dl unit : string) (f : Field) : Field :=
  let config :=
    match Config f with
    | None => emptyFieldConfig
    | Some c => c
    end in
  let deepLink :=
    {| Title := "View in Metrics Explorer"; TargetBlank := true; URL := dl |} in
  let config := {| Unit := Unit config; Links := Links config ++ [deepLink] |} in
  let config :=
    if (0 <? String.length unit)%nat then
      match cloudMonitoringUnitMappings !! unit with
      | Some val => {| Unit := val; Links := Links config |}
      | None => config
      end
    else config in
  {| fld_Name := fld_Name f; Config := Some config |}.

(** The body of the loop of [addConfigData] on one frame; [Fields[1]] panics
    on a frame of fewer than two fields. *)
Definition addConfigToFrame (dl unit : string) (frame : Frame) : outcome Frame :=
  match Fields frame !! 1%nat with
  | None => Panic "index out of range"
  | Some f =>
      Ret {| frm_Name := frm_Name frame;
             Fields := <[1%nat := addConfigToField dl unit f]> (Fields frame);
             Custom := Custom frame |}
  end.

Fixpoint addConfigData (frames : list Frame) (dl unit : string)
  : outcome (list Frame) :=
  match frames with
  | [] => Ret []
  | frame :: frames' =>
      obind (addConfigToFrame dl unit frame) (fun frame' =>
        obind (addConfigData frames' dl unit) (fun rest => Ret (frame' :: rest)))
  end.

(** ** Batches and responses *)

(** What decoding the JSON payload of a query gives: into [QueryModel]
    (the field [type]), into a generic map (is the key [metricQuery]
    present and not null), into a [metricQuery] (the legacy layout) and
    into a [grafanaQuery].  Each decoding may fail with a message. *)
Record queryJSON : Type := {
  asQueryModel : string + string;
  asRawQuery : string + bool;
  asMetricQuery : string + metricQuery;
  asGrafanaQuery : string + grafanaQuery
}.

Record DataQuery : Type := {
  dq_RefID : string;
  dq_IntervalMs : Z;          (* [query.Interval.Milliseconds()] *)
  dq_TimeRange : TimeRange;
  JSON : queryJSON
}.

Record QueryDataRequest : Type := {
  Queries : list DataQuery
}.

Record DataResponse : Type := {
  Frames : list Frame;
  Error : option string
}.

Definition emptyDataResponse : DataResponse := {| Frames := []; Error := None |}.

(** [queryRes.Error = err] *)
Definition set_Error (err : string) (r : DataResponse) : DataResponse :=
  {| Frames := Frames r; Error := Some err |}.

(** [backend.NewQueryDataResponse()] *)
Definition NewQueryDataResponse : gmap string DataResponse := ∅.

Record Response : Type := {
  StatusCode : Z;
  Status : string;
  Body : string + string     (* what [ioutil.ReadAll] gives: an error or the bytes *)
}.

Definition queryModel (query : DataQuery) : string + grafanaQuery :=
  match asRawQuery (JSON query) with
  | inl err => inl err
  | inr hasMetricQuery =>
      if negb hasMetricQuery then
        (* migrate legacy query *)
        match asMetricQuery (JSON query) with
        | inl err => inl err
        | inr mq =>
            inr {| QueryType := metricQueryType; MetricQuery := mq;
                   SloQuery := {| slo_ProjectName := EmptyString;
                                  slo_AlignmentPeriod := EmptyString;
                                  slo_AliasBy := EmptyString;
                                  slo_SelectorName := EmptyString;
                                  slo_ServiceId := EmptyString;
                                  slo_SloId := EmptyString |} |}
        end
      else asGrafanaQuery (JSON query)
  end.

Section Service.
(** The body of a successful reply, as the package declares it
    ([cloudMonitoringResponse]), its zero value and its JSON decoder. *)
Context {cloudMonitoringResponse : Type}.
Variable zeroResponse : cloudMonitoringResponse.
Variable jsonUnmarshal : string -> string + cloudMonitoringResponse.

(** [t.UTC().Format(time.RFC3339)], [params.Encode()] and
    [toPreprocessorType]. *)
Variable formatRFC3339 : Z -> string.
Variable Encode : gmap string (list string) -> string.
Variable toPreprocessorType : string -> preprocessorType.

(** [fmt.Sprintf] of the verb [%q]. *)
Variable quoteQ : string -> string.

Definition unmarshalResponse (res : Response) : string + cloudMonitoringResponse :=
  match Body res with
  | inl err => inl err
  | inr body =>
      if negb (StatusCode res ÷ 100 =? 2)
      then inl ("query failed: " ++ body)
      else
        match jsonUnmarshal body with
        | inl err => inl ("failed to unmarshal query response: " ++ err)
        | inr data => inr data
        end
  end.

(** The body of the loop of [buildQueryExecutors] on one query: an error,
    or the executor to append. *)
Definition buildQueryExecutor (req0 : DataQuery) (query : DataQuery)
  : outcome (string + cloudMonitoringQueryExecutor) :=
  let startTime := tr_From (dq_TimeRange req0) in
  let endTime := tr_To (dq_TimeRange req0) in
  let durationSeconds := (endTime - startTime) ÷ 1000000000 in
  match queryModel query with
  | inl err =>
      Ret (inl ("could not unmarshal CloudMonitoringQuery json: " ++ err))
  | inr q =>
      let mq := set_PreprocessorType
                  (toPreprocessorType (mq_Preprocessor (MetricQuery q)))
                  (MetricQuery q) in
      let params : gmap string (list string) := ∅ in
      let params := url.Add "interval.startTime" (formatRFC3339 startTime) params in
      let params := url.Add "interval.endTime" (formatRFC3339 endTime) params in
      let cmtsf target params groupBys selector service slo projectName aliasBy :=
        {| tsf_Target := target; tsf_Params := params;
           tsf_RefID := dq_RefID query; tsf_GroupBys := groupBys;
           tsf_Selector := selector; tsf_Service := service; tsf_Slo := slo;
           tsf_ProjectName := projectName; tsf_AliasBy := aliasBy |} in
      if String.eqb (QueryType q) metricQueryType then
        if String.eqb (mq_EditorMode mq) mqlEditorMode then
          Ret (inr (QueryExecutor
                 {| tsq_RefID := dq_RefID query;
                    tsq_ProjectName := mq_ProjectName mq;
                    tsq_Query := mq_Query mq;
                    tsq_IntervalMS := dq_IntervalMs query;
                    tsq_AliasBy := mq_AliasBy mq;
                    tsq_timeRange := dq_TimeRange req0 |}))
        else
          let mq := if String.eqb (mq_View mq) EmptyString
                    then set_View "FULL" mq else mq in
          obind (buildFilterString (mq_MetricType mq) (mq_Filters mq))
            (fun filter =>
               let params := url.Add "filter" filter params in
               let params := url.Add "view" (mq_View mq) params in
               let '(params, mq) :=
                 setMetricAggParams params mq durationSeconds
                                    (dq_IntervalMs query) in
               Ret (inr (FilterExecutor
                      (cmtsf (Encode params) params (mq_GroupBys mq)
                             EmptyString EmptyString EmptyString
                             (mq_ProjectName mq) (mq_AliasBy mq)))))
      else if String.eqb (QueryType q) sloQueryType then
        let sq := SloQuery q in
        let params := url.Add "filter" (buildSLOFilterExpression sq) params in
        let params := setSloAggParams params sq durationSeconds
                                      (dq_IntervalMs query) in
        Ret (inr (FilterExecutor
               (cmtsf (Encode params) params [] (slo_SelectorName sq)
                      (slo_ServiceId sq) (slo_SloId sq)
                      (slo_ProjectName sq) (slo_AliasBy sq))))
      else Panic ("Unrecognized query type " ++ quoteQ (QueryType q))
  end.

Fixpoint buildQueryExecutorsFrom (req0 : DataQuery) (queries : list DataQuery)
  (cloudMonitoringQueryExecutors : list cloudMonitoringQueryExecutor)
  : outcome (list cloudMonitoringQueryExecutor * option string) :=
  match queries with
  | [] => Ret (cloudMonitoringQueryExecutors, None)
  | query :: queries' =>
      obind (buildQueryExecutor req0 query) (fun r =>
        match r with
        | inl err => Ret ([], Some err)
        | inr queryInterface =>
            buildQueryExecutorsFrom req0 queries'
              (cloudMonitoringQueryExecutors ++ [queryInterface])
        end)
  end.

(** [req.Queries[0]] is read before the loop. *)
Definition buildQueryExecutors (req : QueryDataRequest)
  : outcome (list cloudMonitoringQueryExecutor * option string) :=
  match Queries req with
  | [] => Panic "index out of range"
  | req0 :: _ => buildQueryExecutorsFrom req0 (Queries req) []
  end.

(** The methods [run] and [parseResponse] of the executors. [run] gives
    an error, or the response of the query so far, the decoded reply and
    the query string it sent; [parseResponse] fills the response of the
    query and may give an error. *)
Variable run :
  cloudMonitoringQueryExecutor ->
  string + (DataResponse * cloudMonitoringResponse * string).
Variable parseResponse :
  cloudMonitoringQueryExecutor -> DataResponse -> cloudMonitoringResponse ->
  string -> DataResponse * option string.

Fixpoint runQueryExecutors (queryExecutors : list cloudMonitoringQueryExecutor)
  (resp : gmap string DataResponse)
  : gmap string DataResponse * option string :=
  match queryExecutors with
  | [] => (resp, None)
  | queryExecutor :: rest =>
      match run queryExecutor with
      | inl err => (resp, Some err)
      | inr (queryRes, dr, executedQueryString) =>
          let '(queryRes, err) :=
            parseResponse queryExecutor queryRes dr executedQueryString in
          let queryRes :=
            match err with
            | Some err => set_Error err queryRes
            | None => queryRes
            end in
          runQueryExecutors rest (<[getRefID queryExecutor := queryRes]> resp)
      end
  end.

Definition executeTimeSeriesQuery (req : QueryDataRequest)
  : outcome (gmap string DataResponse * option string) :=
  let resp := NewQueryDataResponse in
  obind (buildQueryExecutors req) (fun '(queryExecutors, err) =>
    match err with
    | Some err => Ret (resp, Some err)
    | None => Ret (runQueryExecutors queryExecutors resp)
    end).

(** *** The entry point *)
Record datasourceInfo : Type := {
  dsi_url : string;
  dsi_authenticationType : string;
  dsi_defaultProject : string
}.

(** [s.im.Get(pluginCtx)]: the instance manager hands out the instance of
    the data source and runs the factory [newInstanceSettings] when it
    holds none, so the call panics when the factory does; otherwise it
    returns an error or an instance, which is a [*datasourceInfo] or is
    not.  Then the default credentials of the environment (an error, or
    the project and the token: an error or whether it is valid), and the
    annotation path. *)
Variable imGet : outcome (string + option datasourceInfo).
Variable FindDefaultCredentials : string + (string * (string + bool)).
Variable executeAnnotationQuery :
  QueryDataRequest -> datasourceInfo ->
  option (gmap string DataResponse) * option string.

Definition getDSInfo : outcome (string + datasourceInfo) :=
  obind imGet (fun got =>
    match got with
    | inl err => Ret (inl err)
    | inr i =>
        match i with
        | Some instance => Ret (inr instance)
        | None => Ret (inl "failed to cast datsource info")
        end
    end).

Definition getDefaultProject (dsInfo : datasourceInfo) : string + string :=
  if String.eqb (dsi_authenticationType dsInfo) gceAuthentication then
    match FindDefaultCredentials with
    | inl err =>
        inl ("failed to retrieve default project from GCE metadata server: " ++ err)
    | inr (projectID, token) =>
        match token with
        | inl err => inl ("failed to retrieve GCP credential token: " ++ err)
        | inr valid =>
            if negb valid then inl "failed to validate GCP credentials"
            else inr projectID
        end
    end
  else inr (dsi_defaultProject dsInfo).

Definition getGCEDefaultProject (req : QueryDataRequest) (dsInfo : datasourceInfo)
  : outcome (option (gmap string DataResponse) * option string) :=
  match getDefaultProject dsInfo with
  | inl err =>
      Ret (Some NewQueryDataResponse,
           Some ("failed to retrieve default project from GCE metadata server, error: "
                 ++ err))
  | inr gceDefaultProject =>
      match Queries req with
      | [] => Panic "index out of range"
      | req0 :: _ =>
          Ret (Some {[ dq_RefID req0 :=
                         {| Frames :=
                              [ {| frm_Name := EmptyString; Fields := [];
                                   Custom := Some {[ "defaultProject" := gceDefaultProject ]} |} ];
                            Error := None |} ]},
               None)
      end
  end.

Definition QueryData (req : QueryDataRequest)
  : outcome (option (gmap string DataResponse) * option string) :=
  let resp := NewQueryDataResponse in
  match Queries req with
  | [] => Ret (Some resp, Some "query contains no queries")
  | req0 :: _ =>
      match asQueryModel (JSON req0) with
      | inl err => Ret (Some resp, Some err)
      | inr model_Type =>
          obind getDSInfo (fun got =>
            match got with
            | inl err => Ret (None, Some err)
            | inr dsInfo =>
                if String.eqb model_Type "annotationQuery"
                then Ret (executeAnnotationQuery req dsInfo)
                else if String.eqb model_Type "getGCEDefaultProject"
                then getGCEDefaultProject req dsInfo
                else
                  (* "timeSeriesQuery" falls through to the default case *)
                  obind (executeTimeSeriesQuery req)
                        (fun '(resp, err) => Ret (Some resp, err))
            end)
      end
  end.

End Service.

(** ** The executors' methods *)
Section Methods.
Context {cloudMonitoringResponse : Type}.
Variable zeroResponse : cloudMonitoringResponse.
Variable jsonUnmarshal : string -> string + cloudMonitoringResponse.

(** [dsInfo.client.Do] on the request of an executor (a transport error
    or the reply), the query string of that request, and the conversion
    of a decoded reply into frames. *)
Variable Do : cloudMonitoringQueryExecutor -> string + Response.
Variable rawQueryOf : cloudMonitoringQueryExecutor -> string.
Variable tabulate :
  cloudMonitoringQueryExecutor -> cloudMonitoringResponse -> string ->
  list Frame * option string.

(** Modelled from the spec: the method [run] of the executors is not part
    of the sources at hand.  A remote call failure (transport error,
    status outside 2xx) or an unparseable body is attached to the
    response of the query as its error and is not returned as the error
    of the call. *)
Definition run (queryExecutor : cloudMonitoringQueryExecutor)
  : string + (DataResponse * cloudMonitoringResponse * string) :=
  let dr := emptyDataResponse in
  match Do queryExecutor with
  | inl err => inr (set_Error err dr, zeroResponse, EmptyString)
  | inr res =>
      match unmarshalResponse jsonUnmarshal res with
      | inl err => inr (set_Error err dr, zeroResponse, EmptyString)
      | inr d => inr (dr, d, rawQueryOf queryExecutor)
      end
  end.

(** Modelled from the spec: the method [parseResponse] of the executors is
    not part of the sources at hand.  It converts the decoded reply into
    the frames of the query's response and may give an error; the frames
    produced so far stay in the response. *)
Definition parseResponse (queryExecutor : cloudMonitoringQueryExecutor)
  (queryRes : DataResponse) (data : cloudMonitoringResponse)
  (executedQueryString : string) : DataResponse * option string :=
  let '(frames, err) := tabulate queryExecutor data executedQueryString in
  ({| Frames := frames; Error := Error queryRes |}, err).

End Methods.

(** ** Instance settings

    The factory [newInstanceSettings] reads the settings of a data source
    into the [datasourceInfo] of the instance. *)

(** A decoded JSON value, as far as the factory tells values apart: the
    nil interface of [null], a string, or a value of another type. *)
Inductive jsonValue : Type :=
  | JSONNull
  | JSONString (s : string)
  | JSONOther.

(** [jsonData[key]]: nil when the key is absent. *)
Definition jsonIndex (jsonData : gmap string jsonValue) (key : string)
  : jsonValue :=
  default JSONNull (jsonData !! key).

(** [backend.DataSourceInstanceSettings]: the fields the factory reads;
    [JSONData] is given by what [json.Unmarshal] makes of it, an error or
    the object. *)
Record DataSourceInstanceSettings : Type := {
  dsis_ID : Z;
  dsis_Updated : Z;
  dsis_URL : string;
  dsis_JSONData : string + gmap string jsonValue;
  dsis_DecryptedSecureJSONData : gmap string string
}.

(** The struct [datasourceInfo] in full: the fields [QueryData] reads, in
    the record [datasourceInfo] above, and the others. *)
Record instanceInfo (httpClient : Type) : Type := {
  ii_dsInfo : datasourceInfo;
  ii_id : Z;
  ii_updated : Z;
  ii_clientEmail : string;
  ii_tokenUri : string;
  ii_client : option httpClient;
  ii_decryptedSecureJSONData : gmap string string
}.
Arguments ii_dsInfo {httpClient} _.
Arguments ii_id {httpClient} _.
Arguments ii_updated {httpClient} _.
Arguments ii_clientEmail {httpClient} _.
Arguments ii_tokenUri {httpClient} _.
Arguments ii_client {httpClient} _.
Arguments ii_decryptedSecureJSONData {httpClient} _.

(** [if jsonData[key] != nil { v = jsonData[key].(string) }]: the type
    assertion panics on a value that is not a string. *)
Definition stringSetting (jsonData : gmap string jsonValue) (key : string)
  : outcome string :=
  match jsonIndex jsonData key with
  | JSONNull => Ret EmptyString
  | JSONString s => Ret s
  | JSONOther => Panic "interface conversion: interface {} is not string"
  end.

Section Instances.
Context {httpOptions httpClient : Type}.

(** [settings.HTTPClientOptions()] and [newHTTPClient]. *)
Variable HTTPClientOptions : DataSourceInstanceSettings -> string + httpOptions.
Variable newHTTPClient :
  instanceInfo httpClient -> httpOptions -> string + httpClient.

Definition newInstanceSettings (settings : DataSourceInstanceSettings)
  : outcome (string + instanceInfo httpClient) :=
  match dsis_JSONData settings with
  | inl err => Ret (inl ("error reading settings: " ++ err))
  | inr jsonData =>
      let authType :=
        match jsonIndex jsonData "authenticationType" with
        | JSONString authTypeOverride =>
            if negb (String.eqb authTypeOverride EmptyString)
            then authTypeOverride else jwtAuthentication
        | _ => jwtAuthentication
        end in
      obind (stringSetting jsonData "defaultProject") (fun defaultProject =>
      obind (stringSetting jsonData "clientEmail") (fun clientEmail =>
      obind (stringSetting jsonData "tokenUri") (fun tokenUri =>
        let dsInfo :=
          {| ii_dsInfo :=
               {| dsi_url := dsis_URL settings;
                  dsi_authenticationType := authType;
                  dsi_defaultProject := defaultProject |};
             ii_id := dsis_ID settings;
             ii_updated := dsis_Updated settings;
             ii_clientEmail := clientEmail;
             ii_tokenUri := tokenUri;
             ii_client := None;
             ii_decryptedSecureJSONData :=
               dsis_DecryptedSecureJSONData settings |} in
        match HTTPClientOptions settings with
        | inl err => Ret (inl err)
        | inr opts =>
            match newHTTPClient dsInfo opts with
            | inl err => Ret (inl err)
            | inr client =>
                Ret (inr {| ii_dsInfo := ii_dsInfo dsInfo;
                            ii_id := ii_id dsInfo;
                            ii_updated := ii_updated dsInfo;
                            ii_clientEmail := ii_clientEmail dsInfo;
                            ii_tokenUri := ii_tokenUri dsInfo;
                            ii_client := Some client;
                            ii_decryptedSecureJSONData :=
                              ii_decryptedSecureJSONData dsInfo |})
            end
        end)))
  end.

End Instances.

(** ** Requests *)

(** [http.Request]: the parts [createRequest] writes, and the rest as
    [http.NewRequest] made it. *)
Record Request (made : Type) : Type := {
  rq_made : made;
  rq_Header : gmap string (list string);
  rq_URLPath : string
}.
Arguments rq_made {made} _.
Arguments rq_Header {made} _.
Arguments rq_URLPath {made} _.

Section Requests.
Context {parsedURL made body : Type}.

(** [url.Parse]; [http.NewRequest] of a method, a URL and a body, which
    gives the request with its header and the path of its URL; and the URL
    of the package's route, [cloudMonitoringRoute.url]. *)
Variable urlParse : string -> string + parsedURL.
Variable NewRequest : string -> string -> option body -> string + Request made.
Variable cloudMonitoringRoute_url : string.

Definition createRequest (dsInfo : datasourceInfo) (proxyPass : string)
  (body_ : option body) : string + Request made :=
  match urlParse (dsi_url dsInfo) with
  | inl err => inl err
  | inr u =>
      (* [u.Path = path.Join(u.Path, "render")]: [u] is not read again *)
      let method :=
        match body_ with
        | Some _ => "POST"
        | None => "GET"
        end in
      match NewRequest method cloudMonitoringRoute_url body_ with
      | inl err => inl ("failed to create request: " ++ err)
      | inr req =>
          inr {| rq_made := rq_made req;
                 rq_Header :=
                   <["Content-Type" := ["application/json"]]> (rq_Header req);
                 rq_URLPath := proxyPass |}
      end
  end.

End Requests.

(** * Specification-side definitions

    The notions the statements below are phrased with. *)

(** ** Strings *)
Fixpoint allBytes (p : ascii -> bool) (s : string) : bool :=
  match s with
  | EmptyString => true
  | String a s' => p a && allBytes p s'
  end.

(** [s] does not start with a byte of the class [p]. *)
Definition stops (p : ascii -> bool) (s : string) : bool :=
  match s with
  | EmptyString => true
  | String a _ => negb (p a)
  end.

(** ** Filters *)

(** The clause every filter string starts with. *)
Definition metricTypeClause (metricType : string) : string :=
  "metric.type=" ++ dquote ++ metricType ++ dquote.

(** The bytes [wildcardRegexRe] matches. *)
Definition isWildcardMeta (a : ascii) : bool :=
  strings.inCutset "-/^$+?.()|[]{}" a.

(** What the regular-expression branch makes of one byte of a value: a
    metacharacter gets two backslashes in front, the asterisk becomes [.*],
    the double quote gets two backslashes in front. *)
Definition escapeWildcardByte (a : ascii) : string :=
  if isWildcardMeta a then "\\" ++ String a EmptyString
  else if Ascii.eqb a "*" then ".*"
  else if Ascii.eqb a "034" then "\\" ++ dquote
  else String a EmptyString.

Fixpoint escapeWildcards (value : string) : string :=
  match value with
  | EmptyString => EmptyString
  | String a value' => escapeWildcardByte a ++ escapeWildcards value'
  end.

(** ** Floating-point numbers *)


(** ** Alignment periods *)
Definition isGrafanaAuto (spec : string) : bool :=
  String.eqb spec "grafana-auto" || String.eqb spec EmptyString.

Definition isLegacyAuto (spec : string) : bool :=
  String.eqb spec "cloud-monitoring-auto" || String.eqb spec "stackdriver-auto".

(** ** Request parameters *)

(** [params[key]]: the values under a key, none when the key is absent. *)
Definition valuesOf (params : gmap string (list string)) (key : string)
  : list string :=
  default [] (params !! key).

Definition orDefault (selection fallback : string) : string :=
  if String.eqb selection EmptyString then fallback else selection.

(** What [setMetricAggParams] adds, key by key, in the order of the calls:
    [reducer] and [aligner] are the user's selections, or the defaults
    where the user selected nothing. *)
Definition aggParamsAdded (query : metricQuery) (durationSeconds intervalMs : Z)
  : list (string * list string) :=
  let reducer := orDefault (mq_CrossSeriesReducer query) crossSeriesReducerDefault in
  let aligner := orDefault (mq_PerSeriesAligner query) perSeriesAlignerDefault in
  let period :=
    calculateAlignmentPeriod (mq_AlignmentPeriod query) intervalMs durationSeconds in
  let groupBys := mq_GroupBys query in
  match mq_PreprocessorType query with
  | PreprocessorTypeNone =>
      [ ("aggregation.crossSeriesReducer", [reducer]);
        ("aggregation.perSeriesAligner", [aligner]);
        ("aggregation.alignmentPeriod", [period]);
        ("aggregation.groupByFields", groupBys) ]
  | preprocessor =>
      [ ("secondaryAggregation.alignmentPeriod", [period]);
        ("secondaryAggregation.crossSeriesReducer", [reducer]);
        ("secondaryAggregation.perSeriesAligner", [aligner]);
        ("aggregation.crossSeriesReducer",
          [match groupBys with
           | [] => crossSeriesReducerDefault
           | _ => reducer
           end]);
        ("aggregation.perSeriesAligner",
          [match preprocessor with
           | PreprocessorTypeDelta => "ALIGN_DELTA"
           | _ => "ALIGN_RATE"
           end]);
        ("secondaryAggregation.groupByFields", groupBys);
        ("aggregation.alignmentPeriod", [period]);
        ("aggregation.groupByFields", groupBys) ]
  end.

(** The values a table of additions holds for a key. *)
Definition valuesIn (table : list (string * list string)) (key : string)
  : list string :=
  flat_map (fun e => if String.eqb (fst e) key then snd e else []) table.

(** ** Legend templates *)

(** The bytes [\s] matches. *)
Definition isBlank (a : ascii) : bool :=
  strings.inCutset (String "009" (String "010" (String "012" (String "013" " ")))) a.

(** The bytes of a plain placeholder name: no white space, no closing brace. *)
Definition isNameByte (a : ascii) : bool :=
  negb (strings.isSpace a) && negb (Ascii.eqb a "}").

(** A plain placeholder: the braces, blanks around the name. *)
Definition placeholderOf (ws1 name ws2 : string) : string :=
  "{{" ++ ws1 ++ name ++ ws2 ++ "}}".

(** The end of [legendKeyFormat]: blanks and the closing braces. *)
Definition legendTail : regexp.regex :=
  regexp.Cat (regexp.Star true regexp.space) (regexp.literal "}" "}").

(** A metric type that follows the convention. *)
Definition metricTypeOf (service domain name : string) : string :=
  service ++ "." ++ domain ++ "/" ++ name.

Definition notClosing (a : ascii) : bool := negb (Ascii.eqb a "}").

Definition notOpening (a : ascii) : bool := negb (Ascii.eqb "{" a).

(** The bytes [\w] matches, and those [.] matches. *)
Definition isWord (a : ascii) : bool :=
  let n := nat_of_ascii a in
  ((48 <=? n) && (n <=? 57) || (65 <=? n) && (n <=? 90)
   || (97 <=? n) && (n <=? 122) || (n =? 95))%nat.

Definition notNewline (a : ascii) : bool := negb (Ascii.eqb a "010").

Definition isMetricDomain (domain : string) : bool :=
  String.eqb domain "googleapis.com" || String.eqb domain "io".

Definition nonEmpty (s : string) : option string :=
  if String.eqb s EmptyString then None else Some s.

(** The contextual names of the query. *)
Definition contextValue (query : cloudMonitoringTimeSeriesFilter) (name : string)
  : option string :=
  if String.eqb name "project" then nonEmpty (tsf_ProjectName query)
  else if String.eqb name "service" then nonEmpty (tsf_Service query)
  else if String.eqb name "slo" then nonEmpty (tsf_Slo query)
  else if String.eqb name "selector" then nonEmpty (tsf_Selector query)
  else None.

(** What a placeholder name resolves to, in the order of the
    specification: the metric type, a part of the metric type, a label, an
    additional label, a contextual name. *)
Definition placeholderValue (metricType : string)
  (labels additionalLabels : gmap string string)
  (query : cloudMonitoringTimeSeriesFilter) (name : string) : option string :=
  if String.eqb name "metric.type" then Some metricType
  else
    match replaceWithMetricPart name metricType with
    | Some part => Some part
    | None =>
        match labels !! name with
        | Some val => Some val
        | None =>
            match additionalLabels !! name with
            | Some val => Some val
            | None => contextValue query name
            end
        end
    end.

(** ** Frames *)
Definition deepLinkTo (dl : string) : DataLink :=
  {| Title := "View in Metrics Explorer"; TargetBlank := true; URL := dl |}.

(** The configuration of a field, the zero one when it has none. *)
Definition configOf (f : Field) : FieldConfig :=
  match Config f with
  | Some c => c
  | None => emptyFieldConfig
  end.

(** ** Batches *)

(** The query type a query resolves to is one of the two the dispatcher
    knows. *)
Definition recognized (query : DataQuery) : Prop :=
  exists q, queryModel query = inr q
            /\ (QueryType q = metricQueryType \/ QueryType q = sloQueryType).

(** The query decodes, and resolves to a type the dispatcher does not know. *)
Definition unrecognized (query : DataQuery) (queryType : string) : Prop :=
  exists q, queryModel query = inr q /\ QueryType q = queryType
            /\ queryType <> metricQueryType /\ queryType <> sloQueryType.

(** The query type the payload of a query declares. *)
Definition declaredQueryType (query : DataQuery) : option string :=
  match asGrafanaQuery (JSON query) with
  | inl _ => None
  | inr q => Some (QueryType q)
  end.

Section RemoteResults.
Context {cloudMonitoringResponse : Type}.
Variable zeroResponse : cloudMonitoringResponse.
Variable jsonUnmarshal : string -> string + cloudMonitoringResponse.
Variable Do : cloudMonitoringQueryExecutor -> string + Response.
Variable rawQueryOf : cloudMonitoringQueryExecutor -> string.
Variable tabulate :
  cloudMonitoringQueryExecutor -> cloudMonitoringResponse -> string ->
  list Frame * option string.

(** What the remote call of an executor ends in: the message of its
    failure, or the decoded reply. *)
Definition remoteResult (e : cloudMonitoringQueryExecutor)
  : string + cloudMonitoringResponse :=
  match Do e with
  | inl err => inl err
  | inr res => unmarshalResponse jsonUnmarshal res
  end.

(** The response the loop of [executeTimeSeriesQuery] stores for an
    executor. *)
Definition slotOf (e : cloudMonitoringQueryExecutor) : DataResponse :=
  match remoteResult e with
  | inl msg =>
      let '(frames, err) := tabulate e zeroResponse EmptyString in
      {| Frames := frames; Error := Some (default msg err) |}
  | inr data =>
      let '(frames, err) := tabulate e data (rawQueryOf e) in
      {| Frames := frames; Error := err |}
  end.

End RemoteResults.

(** ** Filters, as lists of conditions *)

(** The tokens of a list of conditions [(key, operator, value)]: the three
    tokens of each condition, and the connector [AND] between two
    conditions. *)
Fixpoint filterTokens (conditions : list (string * string * string))
  : list string :=
  match conditions with
  | [] => []
  | (key, operator, value) :: rest =>
      key :: operator :: value
      :: match rest with
         | [] => []
         | _ => "AND" :: filterTokens rest
         end
  end.

(** What the builder makes of one condition. *)
Definition renderCondition (condition : string * string * string) : string :=
  let '(key, operator, value) := condition in
  if String.eqb operator "=~"
  then key ++ "=" ++ "monitoring.regex.full_match(" ++ dquote ++ value ++ dquote ++ ")"
  else if String.eqb operator "!=~"
  then key ++ "!=" ++ "monitoring.regex.full_match(" ++ dquote ++ value ++ dquote ++ ")"
  else if strings.Contains value "*"
  then key ++ operator ++ interpolateFilterWildcards value
  else key ++ operator ++ dquote ++ value ++ dquote.

(** The rendered conditions, a space before each. *)
Fixpoint renderConditions (conditions : list (string * string * string))
  : string :=
  match conditions with
  | [] => EmptyString
  | condition :: rest => " " ++ renderCondition condition ++ renderConditions rest
  end.

(** None of the three tokens of a condition is the connector. *)
Definition plainCondition (condition : string * string * string) : Prop :=
  let '(key, operator, value) := condition in
  key <> "AND" /\ operator <> "AND" /\ value <> "AND".

(** [s] does not end with a byte of the class [p]. *)
Fixpoint endsOutside (p : ascii -> bool) (s : string) : bool :=
  match s with
  | EmptyString => true
  | String a EmptyString => negb (p a)
  | String _ s' => endsOutside p s'
  end.

(** ** Executors, as the builder leaves them *)

(** [int(endTime.Sub(startTime).Seconds())] for the time range of the
    first query of a batch. *)
Definition durationSecondsOf (timeRange : TimeRange) : Z :=
  (tr_To timeRange - tr_From timeRange) ÷ 1000000000.

(** What [setSloAggParams] adds. *)
Definition sloAggParamsAdded (query : sloQuery) (durationSeconds intervalMs : Z)
  : list (string * list string) :=
  [ ("aggregation.alignmentPeriod",
      [calculateAlignmentPeriod (slo_AlignmentPeriod query) intervalMs
         durationSeconds]);
    ("aggregation.perSeriesAligner",
      [if String.eqb (slo_SelectorName query) "select_slo_health"
       then "ALIGN_MEAN" else "ALIGN_NEXT_OLDER"]) ].

(** The parameters of an SLO query, in the order of the calls. *)
Definition sloParamsAdded (formatRFC3339 : Z -> string) (timeRange : TimeRange)
  (intervalMs : Z) (query : sloQuery) : list (string * list string) :=
  [ ("interval.startTime", [formatRFC3339 (tr_From timeRange)]);
    ("interval.endTime", [formatRFC3339 (tr_To timeRange)]);
    ("filter",
      [slo_SelectorName query ++ "(" ++ dquote ++ "projects/"
       ++ slo_ProjectName query ++ "/services/" ++ slo_ServiceId query
       ++ "/serviceLevelObjectives/" ++ slo_SloId query ++ dquote ++ ")"]) ]
  ++ sloAggParamsAdded query (durationSecondsOf timeRange) intervalMs.

(** The parameters of a metric query of the structured editor, in the
    order of the calls. *)
Definition metricParamsAdded (formatRFC3339 : Z -> string)
  (timeRange : TimeRange) (intervalMs : Z) (filter : string)
  (query : metricQuery) : list (string * list string) :=
  [ ("interval.startTime", [formatRFC3339 (tr_From timeRange)]);
    ("interval.endTime", [formatRFC3339 (tr_To timeRange)]);
    ("filter", [filter]);
    ("view", [orDefault (mq_View query) "FULL"]) ]
  ++ aggParamsAdded query (durationSecondsOf timeRange) intervalMs.

(** The time range an executor was built for: the one it holds, or the
    one its interval parameters carry. *)
Definition builtFor (formatRFC3339 : Z -> string) (timeRange : TimeRange)
  (e : cloudMonitoringQueryExecutor) : Prop :=
  match e with
  | FilterExecutor f =>
      valuesOf (tsf_Params f) "interval.startTime"
      = [formatRFC3339 (tr_From timeRange)]
      /\ valuesOf (tsf_Params f) "interval.endTime"
         = [formatRFC3339 (tr_To timeRange)]
  | QueryExecutor q => tsq_timeRange q = timeRange
  end.

(** ** Responses of a batch *)

Section Stored.
Context {cloudMonitoringResponse : Type}.
Variable run :
  cloudMonitoringQueryExecutor ->
  string + (DataResponse * cloudMonitoringResponse * string).
Variable parseResponse :
  cloudMonitoringQueryExecutor -> DataResponse -> cloudMonitoringResponse ->
  string -> DataResponse * option string.

(** What the loop of [executeTimeSeriesQuery] stores for an executor whose
    [run] returned no error: the response [parseResponse] leaves, with the
    error of [parseResponse] when it gave one. *)
Definition storedResponse (e : cloudMonitoringQueryExecutor)
  : option DataResponse :=
  match run e with
  | inl _ => None
  | inr (queryRes, dr, executedQueryString) =>
      let '(queryRes, err) := parseResponse e queryRes dr executedQueryString in
      Some match err with
           | Some err => set_Error err queryRes
           | None => queryRes
           end
  end.

End Stored.

(** The frame that carries the default project. *)
Definition defaultProjectFrame (project : string) : Frame :=
  {| frm_Name := EmptyString; Fields := [];
     Custom := Some {[ "defaultProject" := project ]} |}.

(** ** Metric types and templates *)

Definition notSlash (a : ascii) : bool := negb (Ascii.eqb "/" a).

(** [s'] is what is left of [s] after some of its bytes. *)
Definition suffixOf (s' s : string) : Prop := exists u, s = u ++ s'.

(** The frame has the value field [addConfigData] writes to. *)
Definition hasValueField (frame : Frame) : Prop :=
  (2 <= length (Fields frame))%nat.

(** * Example data *)

Definition exampleFilterParts : list string :=
  ["zone"; "=~"; "us-*"; "AND"; "name"; "="; "*east*"; "AND"; "id"; "!="; "42"].

Definition exampleAliasQuery : cloudMonitoringTimeSeriesFilter :=
  {| tsf_Target := EmptyString; tsf_Params := ∅; tsf_RefID := "A";
     tsf_GroupBys := []; tsf_Selector := EmptyString; tsf_Service := EmptyString;
     tsf_Slo := EmptyString; tsf_ProjectName := EmptyString;
     tsf_AliasBy := "{{metric.name}} on {{instance}}" |}.

(** The no-break space U+00A0, in UTF-8, and a template with a name
    between two of them. *)
Definition nbsp : string := String "194" (String "160" EmptyString).

Definition nbspAliasQuery : cloudMonitoringTimeSeriesFilter :=
  {| tsf_Target := EmptyString; tsf_Params := ∅; tsf_RefID := "A";
     tsf_GroupBys := []; tsf_Selector := EmptyString; tsf_Service := EmptyString;
     tsf_Slo := EmptyString; tsf_ProjectName := EmptyString;
     tsf_AliasBy := "{{" ++ nbsp ++ "instance" ++ nbsp ++ "}}" |}.

(** [%g] of a whole number of fewer than seven digits: its decimal digits. *)
Definition formatWhole (f : math.float64) : string :=
  strconv.FormatInt (math.toInt f).

Definition linearExample : cloudMonitoringBucketOptions :=
  {| LinearBuckets :=
       Some {| lin_NumFiniteBuckets := 0; lin_Width := 5; lin_Offset := 10 |};
     ExponentialBuckets := None; ExplicitBuckets := None |}.



Definition explicitExample : cloudMonitoringBucketOptions :=
  {| LinearBuckets := None; ExponentialBuckets := None;
     ExplicitBuckets := Some {| Bounds := [1%Q; 5%Q; 10%Q] |} |}.

Definition exampleFrame : Frame :=
  {| frm_Name := "cpu";
     Fields := [ {| fld_Name := "Time"; Config := None |};
                 {| fld_Name := "Value"; Config := None |} ];
     Custom := None |}.

Definition zeroMetricQuery : metricQuery :=
  {| mq_ProjectName := EmptyString; mq_MetricType := EmptyString;
     mq_CrossSeriesReducer := EmptyString; mq_AlignmentPeriod := EmptyString;
     mq_PerSeriesAligner := EmptyString; mq_GroupBys := [];
     mq_Filters := []; mq_AliasBy := EmptyString; mq_View := EmptyString;
     mq_EditorMode := EmptyString; mq_Query := EmptyString;
     mq_Preprocessor := EmptyString;
     mq_PreprocessorType := PreprocessorTypeNone |}.

Definition zeroSloQuery : sloQuery :=
  {| slo_ProjectName := EmptyString; slo_AlignmentPeriod := EmptyString;
     slo_AliasBy := EmptyString; slo_SelectorName := EmptyString;
     slo_ServiceId := EmptyString; slo_SloId := EmptyString |}.

Definition cpuQuery : metricQuery :=
  {| mq_ProjectName := "proj";
     mq_MetricType := "compute.googleapis.com/instance/cpu/utilization";
     mq_CrossSeriesReducer := "REDUCE_SUM"; mq_AlignmentPeriod := EmptyString;
     mq_PerSeriesAligner := "ALIGN_MAX"; mq_GroupBys := [];
     mq_Filters := ["zone"; "="; "us-east1-b"]; mq_AliasBy := EmptyString;
     mq_View := EmptyString; mq_EditorMode := EmptyString;
     mq_Query := EmptyString; mq_Preprocessor := "delta";
     mq_PreprocessorType := PreprocessorTypeNone |}.

(** A payload with a [metricQuery] object and the given [queryType]. *)
Definition structuredPayload (type queryType : string) (mq : metricQuery)
  : queryJSON :=
  {| asQueryModel := inr type;
     asRawQuery := inr true;
     asMetricQuery := inr zeroMetricQuery;
     asGrafanaQuery :=
       inr {| QueryType := queryType; MetricQuery := mq;
              SloQuery := zeroSloQuery |} |}.

(** A payload in the legacy layout: the fields of the metric query at the
    top level, no [metricQuery] object, with the given [queryType]. *)
Definition legacyPayload (type queryType : string) (mq : metricQuery)
  : queryJSON :=
  {| asQueryModel := inr type;
     asRawQuery := inr false;
     asMetricQuery := inr mq;
     asGrafanaQuery :=
       inr {| QueryType := queryType; MetricQuery := zeroMetricQuery;
              SloQuery := zeroSloQuery |} |}.

Definition exampleDataQuery (refID : string) (payload : queryJSON) : DataQuery :=
  {| dq_RefID := refID; dq_IntervalMs := 15000;
     dq_TimeRange := {| tr_From := 0; tr_To := 3600 * 1000000000 |};
     JSON := payload |}.

Definition threeQueries : QueryDataRequest :=
  {| Queries :=
       [ exampleDataQuery "A" (structuredPayload "timeSeriesQuery" "metrics" cpuQuery);
         exampleDataQuery "B" (structuredPayload "timeSeriesQuery" "metrics" cpuQuery);
         exampleDataQuery "C" (legacyPayload "timeSeriesQuery" EmptyString cpuQuery) ] |}.

Definition bogusSecond : QueryDataRequest :=
  {| Queries :=
       [ exampleDataQuery "A" (structuredPayload "timeSeriesQuery" "metrics" cpuQuery);
         exampleDataQuery "B" (structuredPayload "timeSeriesQuery" "bogus" cpuQuery);
         exampleDataQuery "C" (structuredPayload "timeSeriesQuery" "slo" cpuQuery) ] |}.

Definition bogusLegacy : QueryDataRequest :=
  {| Queries :=
       [ exampleDataQuery "A" (legacyPayload "nonsense" "bogus" cpuQuery) ] |}.

(** An environment for the examples: times printed as their seconds, the
    encoded parameters left out, preprocessor names as the front end sends
    them, [%q] of plain text, and a remote that answers the query [B] with
    status 500 and every other query with status 200. *)
Definition exampleRFC3339 (t : Z) : string := strconv.Itoa (t ÷ 1000000000).

Definition exampleEncode (params : gmap string (list string)) : string :=
  EmptyString.

Definition examplePreprocessorType (s : string) : preprocessorType :=
  if String.eqb s "rate" then PreprocessorTypeRate
  else if String.eqb s "delta" then PreprocessorTypeDelta
  else PreprocessorTypeNone.

Definition exampleQuote (s : string) : string := dquote ++ s ++ dquote.

Definition exampleDo (e : cloudMonitoringQueryExecutor) : string + Response :=
  if String.eqb (getRefID e) "B"
  then inr {| StatusCode := 500; Status := "500 Internal Server Error";
              Body := inr "boom" |}
  else inr {| StatusCode := 200; Status := "200 OK"; Body := inr "{}" |}.

Definition exampleUnmarshal (body : string) : string + list string :=
  inr [body].

Definition exampleRawQuery (e : cloudMonitoringQueryExecutor) : string :=
  match e with
  | FilterExecutor f => tsf_Target f
  | QueryExecutor q => tsq_Query q
  end.

Definition exampleTabulate (e : cloudMonitoringQueryExecutor)
  (data : list string) (executedQueryString : string)
  : list Frame * option string :=
  (List.map (fun _ => exampleFrame) data, None).

Definition exampleBuild (req : QueryDataRequest)
  : outcome (list cloudMonitoringQueryExecutor * option string) :=
  buildQueryExecutors exampleRFC3339 exampleEncode examplePreprocessorType
    exampleQuote req.

Definition exampleExecute (req : QueryDataRequest)
  : outcome (gmap string DataResponse * option string) :=
  executeTimeSeriesQuery exampleRFC3339 exampleEncode examplePreprocessorType
    exampleQuote
    (run ([] : list string) exampleUnmarshal exampleDo exampleRawQuery)
    (parseResponse exampleTabulate) req.

Definition exampleQueryData (req : QueryDataRequest)
  : outcome (option (gmap string DataResponse) * option string) :=
  QueryData exampleRFC3339 exampleEncode examplePreprocessorType exampleQuote
    (run ([] : list string) exampleUnmarshal exampleDo exampleRawQuery)
    (parseResponse exampleTabulate)
    (Ret (inr (Some {| dsi_url := EmptyString;
                       dsi_authenticationType := jwtAuthentication;
                       dsi_defaultProject := "proj" |})))
    (inl "no default credentials")
    (fun _ _ => (None, Some "annotations are not part of the example"))
    req.

Definition exampleExecutors : list cloudMonitoringQueryExecutor :=
  match exampleBuild threeQueries with
  | Ret (executors, _) => executors
  | Panic _ => []
  end.

(** ** Further example data *)

Definition exampleConditions : list (string * string * string) :=
  [ ("zone", "=~", "us-*"); ("name", "=", "*east*"); ("id", "!=", "42") ].

Definition exampleSlo : sloQuery :=
  {| slo_ProjectName := "proj"; slo_AlignmentPeriod := "+120s";
     slo_AliasBy := EmptyString; slo_SelectorName := "select_slo_health";
     slo_ServiceId := "svc"; slo_SloId := "availability" |}.

(** A payload with a [metricQuery] object and the query type [slo]. *)
Definition sloPayload : queryJSON :=
  {| asQueryModel := inr "timeSeriesQuery";
     asRawQuery := inr true;
     asMetricQuery := inr zeroMetricQuery;
     asGrafanaQuery :=
       inr {| QueryType := "slo"; MetricQuery := zeroMetricQuery;
              SloQuery := exampleSlo |} |}.

(** A payload that is not JSON. *)
Definition brokenPayload : queryJSON :=
  {| asQueryModel := inl "unexpected end of JSON input";
     asRawQuery := inl "unexpected end of JSON input";
     asMetricQuery := inl "unexpected end of JSON input";
     asGrafanaQuery := inl "unexpected end of JSON input" |}.

(** A metric query of the structured editor without filters. *)
Definition plainQuery : metricQuery :=
  {| mq_ProjectName := "proj"; mq_MetricType := "m";
     mq_CrossSeriesReducer := EmptyString; mq_AlignmentPeriod := "+60s";
     mq_PerSeriesAligner := EmptyString; mq_GroupBys := [];
     mq_Filters := []; mq_AliasBy := EmptyString; mq_View := EmptyString;
     mq_EditorMode := EmptyString; mq_Query := EmptyString;
     mq_Preprocessor := EmptyString;
     mq_PreprocessorType := PreprocessorTypeNone |}.

(** A query over the hour after the one of [exampleDataQuery]. *)
Definition laterDataQuery (refID : string) (payload : queryJSON) : DataQuery :=
  {| dq_RefID := refID; dq_IntervalMs := 15000;
     dq_TimeRange := {| tr_From := 3600 * 1000000000;
                        tr_To := 7200 * 1000000000 |};
     JSON := payload |}.

(** A metric query and an SLO query under the same reference id, the
    second over a later hour. *)
Definition sameRefID : QueryDataRequest :=
  {| Queries :=
       [ exampleDataQuery "A" (structuredPayload "timeSeriesQuery" "metrics" plainQuery);
         laterDataQuery "A" sloPayload ] |}.

Definition brokenSecond : QueryDataRequest :=
  {| Queries :=
       [ exampleDataQuery "A" (structuredPayload "timeSeriesQuery" "metrics" plainQuery);
         exampleDataQuery "B" brokenPayload;
         exampleDataQuery "C" sloPayload ] |}.

Definition defaultProjectRequest : QueryDataRequest :=
  {| Queries :=
       [ exampleDataQuery "A"
           (structuredPayload "getGCEDefaultProject" "metrics" plainQuery) ] |}.

(** Executors' methods for the examples: [run] fails on the SLO executors
    when told to and otherwise returns an empty reply; [parseResponse]
    makes one frame, named after the selector or the query text. *)
Definition exampleRun (failOnSlo : bool) (e : cloudMonitoringQueryExecutor)
  : string + (DataResponse * unit * string) :=
  match e with
  | FilterExecutor f =>
      if failOnSlo && negb (String.eqb (tsf_Selector f) EmptyString)
      then inl "context canceled"
      else inr (emptyDataResponse, tt, tsf_Target f)
  | QueryExecutor q => inr (emptyDataResponse, tt, tsq_Query q)
  end.

Definition exampleParse (e : cloudMonitoringQueryExecutor)
  (queryRes : DataResponse) (data : unit) (executedQueryString : string)
  : DataResponse * option string :=
  ({| Frames :=
        [ {| frm_Name := match e with
                         | FilterExecutor f => tsf_Selector f
                         | QueryExecutor q => tsq_Query q
                         end;
             Fields := []; Custom := None |} ];
      Error := Error queryRes |}, None).

Definition exampleBatch (failOnSlo : bool) (req : QueryDataRequest)
  : outcome (gmap string DataResponse * option string) :=
  executeTimeSeriesQuery exampleRFC3339 exampleEncode examplePreprocessorType
    exampleQuote (exampleRun failOnSlo) exampleParse req.

Definition exampleBuilt (req : QueryDataRequest)
  : list cloudMonitoringQueryExecutor :=
  match exampleBuild req with
  | Ret (executors, _) => executors
  | Panic _ => []
  end.

(** A frame without value field. *)
Definition timeOnlyFrame : Frame :=
  {| frm_Name := "cpu";
     Fields := [ {| fld_Name := "Time"; Config := None |} ];
     Custom := None |}.

(** Settings of a data source, and an environment in which the client
    options and the client are always made. *)
Definition exampleSettings (jsonData : gmap string jsonValue)
  : DataSourceInstanceSettings :=
  {| dsis_ID := 1; dsis_Updated := 0; dsis_URL := "https://monitoring.example";
     dsis_JSONData := inr jsonData;
     dsis_DecryptedSecureJSONData := ∅ |}.

Definition exampleInstance (jsonData : gmap string jsonValue)
  : outcome (string + instanceInfo unit) :=
  newInstanceSettings (fun _ => inr tt) (fun _ _ => inr tt)
    (exampleSettings jsonData).

(** An environment for [createRequest]: every URL but the empty one
    parses, and a request is made of its method. *)
Definition exampleParseURL (url : string) : string + string :=
  if String.eqb url EmptyString then inl "empty url" else inr url.

Definition exampleNewRequest (method url : string) (body_ : option string)
  : string + Request string :=
  inr {| rq_made := method; rq_Header := ∅; rq_URLPath := EmptyString |}.

Definition exampleCreateRequest (url : string) : string + Request string :=
  createRequest exampleParseURL exampleNewRequest
    "https://monitoring.googleapis.com"
    {| dsi_url := url; dsi_authenticationType := jwtAuthentication;
       dsi_defaultProject := "proj" |}
    "/v3/projects/proj/timeSeries" None.

Definition metricThenSlo : QueryDataRequest :=
  {| Queries :=
       [ exampleDataQuery "A" (structuredPayload "timeSeriesQuery" "metrics" plainQuery);
         exampleDataQuery "B" sloPayload;
         exampleDataQuery "C" (structuredPayload "timeSeriesQuery" "metrics" plainQuery) ] |}.

Definition noExecutor : cloudMonitoringQueryExecutor :=
  QueryExecutor {| tsq_RefID := EmptyString; tsq_ProjectName := EmptyString;
                   tsq_Query := EmptyString; tsq_IntervalMS := 0;
                   tsq_AliasBy := EmptyString;
                   tsq_timeRange := {| tr_From := 0; tr_To := 0 |} |}.

Definition plainAliasQuery (alias : string) : cloudMonitoringTimeSeriesFilter :=
  {| tsf_Target := EmptyString; tsf_Params := ∅; tsf_RefID := "A";
     tsf_GroupBys := []; tsf_Selector := EmptyString; tsf_Service := EmptyString;
     tsf_Slo := EmptyString; tsf_ProjectName := EmptyString;
     tsf_AliasBy := alias |}.

(** * Proof automation *)

(** A property of one byte, checked on each of the 256. *)
Ltac by_bytes a :=
  destruct a as [b0 b1 b2 b3 b4 b5 b6 b7];
  destruct b0, b1, b2, b3, b4, b5, b6, b7; vm_compute; intuition congruence.

(** * Facts about the string library *)
Section StringFacts.

Lemma append_cons (a : ascii) (s t : string) :
  String a s ++ t = String a (s ++ t).
Proof. reflexivity. Qed.

Lemma append_nil_l (t : string) : EmptyString ++ t = t.
Proof. reflexivity. Qed.

Lemma append_nil_r (s : string) : s ++ EmptyString = s.
Proof.
  induction s as [|a s IH]; [reflexivity|]. now rewrite append_cons, IH.
Qed.

Lemma append_assoc (s t u : string) : (s ++ t) ++ u = s ++ (t ++ u).
Proof.
  induction s as [|a s IH]; [reflexivity|]. now rewrite !append_cons, IH.
Qed.

Lemma string_list_app (s t : string) :
  list_ascii_of_string (s ++ t)
  = (list_ascii_of_string s ++ list_ascii_of_string t)%list.
Proof.
  induction s as [|a s IH]; [reflexivity|].
  rewrite append_cons. simpl. now rewrite IH.
Qed.

Lemma list_string_app (l k : list ascii) :
  string_of_list_ascii (l ++ k)
  = string_of_list_ascii l ++ string_of_list_ascii k.
Proof.
  induction l as [|a l IH]; [reflexivity|].
  simpl. now rewrite IH, append_cons.
Qed.

Lemma rev_app (s t : string) :
  strings.rev (s ++ t) = strings.rev t ++ strings.rev s.
Proof.
  unfold strings.rev.
  now rewrite string_list_app, List.rev_app_distr, list_string_app.
Qed.

Lemma rev_involutive (s : string) : strings.rev (strings.rev s) = s.
Proof.
  unfold strings.rev.
  now rewrite list_ascii_of_string_of_list_ascii, List.rev_involutive,
    string_of_list_ascii_of_string.
Qed.

Lemma rev_single (a : ascii) :
  strings.rev (String a EmptyString) = String a EmptyString.
Proof. reflexivity. Qed.

Lemma prefix_nil (s : string) : String.prefix EmptyString s = true.
Proof. now destruct s. Qed.

Lemma prefix_cons (a b : ascii) (p s : string) :
  String.prefix (String a p) (String b s) = Ascii.eqb a b && String.prefix p s.
Proof.
  change (String.prefix (String a p) (String b s))
    with (if ascii_dec a b then String.prefix p s else false).
  destruct (ascii_dec a b) as [->|n].
  - now rewrite Ascii.eqb_refl.
  - now rewrite (proj2 (Ascii.eqb_neq _ _) n).
Qed.

Lemma prefix_single (c a : ascii) (s : string) :
  String.prefix (String c EmptyString) (String a s) = Ascii.eqb c a.
Proof.
  now rewrite prefix_cons, prefix_nil, andb_true_r.
Qed.

(** Counting and replacing a one-byte pattern goes byte by byte. *)
Lemma countFrom_single (c a : ascii) (s : string) :
  strings.countFrom (String c EmptyString) 0 (String a s)
  = (if Ascii.eqb c a then 1 else 0)
    + strings.countFrom (String c EmptyString) 0 s.
Proof.
  cbn [strings.countFrom]. rewrite prefix_single.
  destruct (Ascii.eqb c a); reflexivity.
Qed.



Lemma replaceFrom_zero (old new : string) (s : string) :
  strings.replaceFrom old new 0 0 s = s.
Proof. destruct s; reflexivity. Qed.

Lemma replaceFrom_single (c a : ascii) (new : string) (n : Z) (s : string) :
  n <> 0 ->
  strings.replaceFrom (String c EmptyString) new n 0 (String a s)
  = if Ascii.eqb c a
    then new ++ strings.replaceFrom (String c EmptyString) new (n - 1) 0 s
    else String a (strings.replaceFrom (String c EmptyString) new n 0 s).
Proof.
  intros Hn. cbn [strings.replaceFrom].
  destruct (Z.eqb_spec n 0) as [|_]; [contradiction|].
  rewrite prefix_single. reflexivity.
Qed.


Lemma ReplaceAll_app (c : ascii) (new : string) (s t : string) :
  strings.ReplaceAll (s ++ t) (String c EmptyString) new
  = strings.ReplaceAll s (String c EmptyString) new
    ++ strings.ReplaceAll t (String c EmptyString) new.
Proof.
  unfold strings.ReplaceAll, strings.Replace.
  assert (Hneg : forall n, n < 0 ->
    strings.replaceFrom (String c EmptyString) new n 0 (s ++ t)
    = strings.replaceFrom (String c EmptyString) new n 0 s
      ++ strings.replaceFrom (String c EmptyString) new (-1) 0 t).
  { induction s as [|a s IH]; intros n Hn.
    - rewrite !append_nil_l. revert n Hn. induction t as [|b t IHt]; intros n Hn; [reflexivity|].
      rewrite !replaceFrom_single by lia.
      destruct (Ascii.eqb c b).
      + rewrite (IHt (n - 1)), (IHt (-1 - 1)) by lia. reflexivity.
      + rewrite (IHt n) by lia. reflexivity.
    - rewrite append_cons.
      rewrite !replaceFrom_single by lia.
      destruct (Ascii.eqb c a).
      + rewrite IH by lia. now rewrite append_assoc.
      + rewrite IH by lia. reflexivity. }
  apply Hneg. lia.
Qed.

Lemma Replace_first (c : ascii) (new s : string) :
  strings.Replace (String c s) (String c EmptyString) new 1 = new ++ s.
Proof.
  unfold strings.Replace. rewrite replaceFrom_single by lia.
  rewrite Ascii.eqb_refl. change (1 - 1) with 0.
  now rewrite replaceFrom_zero.
Qed.

(** Removing the last instance of a byte through [reverse]. *)
Lemma remove_last (c : ascii) (s : string) :
  reverse (strings.Replace (reverse (s ++ String c EmptyString))
                           (String c EmptyString) EmptyString 1) = s.
Proof.
  unfold reverse. rewrite rev_app, rev_single.
  rewrite append_cons, append_nil_l.
  rewrite Replace_first, append_nil_l. apply rev_involutive.
Qed.

End StringFacts.


Lemma HasPrefix_cons (c a : ascii) (s : string) :
  strings.HasPrefix (String a s) (String c EmptyString) = Ascii.eqb c a.
Proof. apply prefix_single. Qed.

Lemma Count_single (c a : ascii) :
  strings.Count (String a EmptyString) (String c EmptyString)
  = if Ascii.eqb c a then 1 else 0.
Proof.
  unfold strings.Count. rewrite countFrom_single. simpl.
  destruct (Ascii.eqb c a); reflexivity.
Qed.


Lemma consumed_one (a : ascii) (s : string) :
  regexp.consumed (String a s) s = String a EmptyString.
Proof.
  unfold regexp.consumed.
  replace (String.length (String a s) - String.length s)%nat with 1%nat
    by (simpl; lia).
  simpl. now destruct s.
Qed.

Lemma matchPrefix_Class (p : ascii -> bool) (a : ascii) (s : string) :
  regexp.matchPrefix (regexp.Class p) (String a s)
  = if p a then Some (String a EmptyString, []) else None.
Proof.
  unfold regexp.matchPrefix. simpl. destruct (p a); [|reflexivity].
  now rewrite consumed_one.
Qed.

Lemma ReplaceAllFunc_Class (p : ascii -> bool) (repl : string -> string)
  (a : ascii) (s : string) :
  regexp.ReplaceAllFunc (regexp.Class p) (String a s) repl
  = (if p a then repl (String a EmptyString) else String a EmptyString)
    ++ regexp.ReplaceAllFunc (regexp.Class p) s repl.
Proof.
  unfold regexp.ReplaceAllFunc. cbn [regexp.replaceAllFrom].
  rewrite matchPrefix_Class. destruct (p a); reflexivity.
Qed.

Lemma Replace_self (a : ascii) (new : string) :
  strings.Replace (String a EmptyString) (String a EmptyString) new 1 = new.
Proof. rewrite Replace_first. apply append_nil_r. Qed.

Lemma escape_one_byte (a : ascii) :
  strings.ReplaceAll
    (strings.ReplaceAll
       (if isWildcardMeta a then "\\" ++ String a EmptyString
        else String a EmptyString) "*" ".*")
    dquote ("\\" ++ dquote)
  = escapeWildcardByte a.
Proof.
  destruct a as [b0 b1 b2 b3 b4 b5 b6 b7].
  destruct b0, b1, b2, b3, b4, b5, b6, b7; vm_compute; reflexivity.
Qed.

Lemma escape_passes (value : string) :
  strings.ReplaceAll
    (strings.ReplaceAll
       (regexp.ReplaceAllFunc wildcardRegexRe value
          (fun _in => strings.Replace _in _in ("\\" ++ _in) 1))
       "*" ".*")
    dquote ("\\" ++ dquote)
  = escapeWildcards value.
Proof.
  induction value as [|a value IH]; [reflexivity|].
  unfold wildcardRegexRe, regexp.oneOf, dquote in *.
  rewrite ReplaceAllFunc_Class, Replace_self.
  rewrite !ReplaceAll_app. cbn [escapeWildcards].
  rewrite IH. f_equal. apply escape_one_byte.
Qed.

Section Interpolate.
Variable w : string.
Hypothesis noStar : strings.Count w "*" = 0.




End Interpolate.


(** * The loop of the filter builder *)

Lemma filterLoop_app (parts l1 l2 : list string) (i : nat) (acc : string) :
  filterLoop parts i (l1 ++ l2)%list acc
  = obind (filterLoop parts i l1 acc) (filterLoop parts (i + length l1) l2).
Proof.
  revert i acc. induction l1 as [|p l1 IH]; intros i acc.
  - simpl. now rewrite Nat.add_0_r.
  - simpl. destruct (filterStep parts acc i p) as [fs|m]; simpl; [|reflexivity].
    rewrite IH. now rewrite Nat.add_succ_r.
Qed.

Lemma filterStep_returns (parts : list string) (acc : string) (i : nat)
  (part : string) :
  (i < length parts)%nat ->
  exists fs, filterStep parts acc i part = Ret fs.
Proof.
  intros Hi. unfold filterStep.
  destruct (String.eqb part "AND"); [eauto|].
  destruct (Nat.eqb_spec (i mod 4) 2) as [Hm|_]; [|eauto].
  destruct (parts !! (i - 1)%nat) as [op|] eqn:Hop.
  - destruct (String.eqb op "=~" || String.eqb op "!=~"); [eauto|].
    destruct (strings.Contains part "*"); eauto.
  - apply lookup_ge_None in Hop. lia.
Qed.

Lemma filterLoop_returns (parts rest : list string) (i : nat) (acc : string) :
  (i + length rest <= length parts)%nat ->
  exists fs, filterLoop parts i rest acc = Ret fs.
Proof.
  revert i acc. induction rest as [|p rest IH]; intros i acc Hlen; simpl in *.
  - eauto.
  - destruct (filterStep_returns parts acc i p) as [fs ->]; [lia|].
    simpl. apply IH. lia.
Qed.

(** The text built from the first [S i] tokens is the step at [i] applied to
    the text built from the first [i]. *)
Lemma filterLoop_snoc (parts : list string) (i : nat) (part acc : string) :
  parts !! i = Some part ->
  filterLoop parts 0 (take i parts) EmptyString = Ret acc ->
  filterLoop parts 0 (take (S i) parts) EmptyString = filterStep parts acc i part.
Proof.
  intros Hp Hacc.
  rewrite (take_S_r _ _ _ Hp), filterLoop_app, Hacc. simpl.
  rewrite length_take_le by (apply lookup_lt_Some in Hp; lia).
  destruct (filterStep parts acc i part); reflexivity.
Qed.

Lemma filterLoop_prefix_returns (parts : list string) (i : nat) :
  exists acc, filterLoop parts 0 (take i parts) EmptyString = Ret acc.
Proof.
  apply filterLoop_returns. rewrite length_take. lia.
Qed.

(** An operator token is appended as it is. *)
Lemma filterStep_operator (parts : list string) (acc : string) (i : nat)
  (op : string) :
  (S i mod 4 = 2)%nat -> op <> "AND" ->
  filterStep parts acc i op = Ret (acc ++ op).
Proof.
  intros Hm Hop. unfold filterStep.
  destruct (String.eqb_spec op "AND") as [|_]; [contradiction|].
  destruct (Nat.eqb_spec (i mod 4) 2) as [Hi|_]; [|reflexivity].
  exfalso. 
  pose proof (Nat.mod_upper_bound i 4). 
  rewrite (Nat.div_mod_eq i 4) in Hm.
  replace (S (4 * (i / 4) + i mod 4)) with ((S (i mod 4)) + (i / 4) * 4)%nat in Hm by lia.
  rewrite Nat.Div0.mod_add, Hi in Hm. simpl in Hm. lia.
Qed.

(** * Trimming *)
Lemma trimRightFunc_keep (f : ascii -> bool) (p : string) (a : ascii) (q : string) :
  f a = false ->
  exists t, strings.trimRightFunc f (p ++ String a q) = p ++ String a t.
Proof.
  intros Ha. induction p as [|b p [t IH]].
  - rewrite append_nil_l. simpl. rewrite Ha.
    destruct (strings.trimRightFunc f q) as [|c t].
    + exists EmptyString. reflexivity.
    + exists (String c t). reflexivity.
  - exists t. rewrite !append_cons. cbn [strings.trimRightFunc]. rewrite IH.
    destruct p; reflexivity.
Qed.

Lemma trimRightFunc_exact (f : ascii -> bool) (p : string) (a : ascii) (q : string) :
  f a = false -> strings.trimRightFunc f q = EmptyString ->
  strings.trimRightFunc f (p ++ String a q) = p ++ String a EmptyString.
Proof.
  intros Ha Hq. induction p as [|b p IH].
  - rewrite !append_nil_l. simpl. now rewrite Hq, Ha.
  - rewrite !append_cons. cbn [strings.trimRightFunc]. rewrite IH.
    destruct p; reflexivity.
Qed.

Lemma Trim_metricTypeClause (metricType fs : string) :
  exists t,
    strings.Trim ("metric.type=" ++ dquote ++ metricType ++ dquote ++ " " ++ fs) " "
    = metricTypeClause metricType ++ t.
Proof.
  unfold strings.Trim, metricTypeClause.
  change ("metric.type=" ++ dquote ++ metricType ++ dquote ++ " " ++ fs)
    with (String "m" ("etric.type=" ++ dquote ++ metricType ++ dquote ++ " " ++ fs)).
  cbn [strings.trimLeftFunc]. 
  change (strings.inCutset " " "m") with false. cbv iota.
  change (String "m" ("etric.type=" ++ dquote ++ metricType ++ dquote ++ " " ++ fs))
    with ("metric.type=" ++ dquote ++ metricType ++ String "034" (" " ++ fs)).
  rewrite <- !append_assoc.
  destruct (trimRightFunc_keep (strings.inCutset " ")
              (("metric.type=" ++ dquote) ++ metricType) "034" (" " ++ fs)
              eq_refl) as [t ->].
  exists t. unfold dquote. rewrite !append_assoc. reflexivity.
Qed.

Lemma Trim_metricTypeClause_only (metricType : string) :
  strings.Trim ("metric.type=" ++ dquote ++ metricType ++ dquote ++ " " ++ EmptyString) " "
  = metricTypeClause metricType.
Proof.
  unfold strings.Trim, metricTypeClause.
  change ("metric.type=" ++ dquote ++ metricType ++ dquote ++ " " ++ EmptyString)
    with (String "m" ("etric.type=" ++ dquote ++ metricType ++ dquote ++ " ")).
  cbn [strings.trimLeftFunc]. 
  change (strings.inCutset " " "m") with false. cbv iota.
  change (String "m" ("etric.type=" ++ dquote ++ metricType ++ dquote ++ " "))
    with ("metric.type=" ++ dquote ++ metricType ++ String "034" " ").
  rewrite <- !append_assoc.
  rewrite trimRightFunc_exact by reflexivity.
  unfold dquote. rewrite !append_assoc. reflexivity.
Qed.


Lemma Contains_false (v : string) :
  strings.Count v "*" = 0 -> strings.Contains v "*" = false.
Proof. intros H. unfold strings.Contains. now rewrite H. Qed.

(** The step on a value token, by the operator before it. *)
Lemma filterStep_value (parts : list string) (acc : string) (i : nat)
  (op v : string) :
  (i mod 4 = 2)%nat -> v <> "AND" -> parts !! (i - 1)%nat = Some op ->
  filterStep parts acc i v
  = if String.eqb op "=~" || String.eqb op "!=~"
    then Ret (reverse (strings.Replace (reverse acc) "~" EmptyString 1)
              ++ "monitoring.regex.full_match(" ++ dquote ++ v ++ dquote ++ ")")
    else if strings.Contains v "*"
    then Ret (acc ++ interpolateFilterWildcards v)
    else Ret (acc ++ dquote ++ v ++ dquote).
Proof.
  intros Hm Hv Hop. unfold filterStep.
  destruct (String.eqb_spec v "AND") as [|_]; [contradiction|].
  rewrite Hm, Hop. reflexivity.
Qed.

Lemma before_operator (parts : list string) (i : nat) (op acc : string) :
  (i mod 4 = 2)%nat -> parts !! (i - 1)%nat = Some op -> op <> "AND" ->
  filterLoop parts 0 (take i parts) EmptyString = Ret acc ->
  exists before,
    filterLoop parts 0 (take (i - 1) parts) EmptyString = Ret before
    /\ acc = before ++ op.
Proof.
  intros Hm Hop Hand Hacc.
  assert (Hi : i = S (i - 1)).
  { destruct i; [discriminate Hm | lia]. }
  destruct (filterLoop_prefix_returns parts (i - 1)) as [before Hb].
  exists before. split; [assumption|].
  rewrite Hi in Hacc. rewrite (filterLoop_snoc _ _ _ _ Hop Hb) in Hacc.
  rewrite filterStep_operator in Hacc; [congruence | now rewrite <- Hi | assumption].
Qed.

(** * Arithmetic of the alignment period *)
Lemma toInt_Max_ofInt (d : Z) :
  math.toInt (math.Max (math.ofInt d) (math.ofInt 60)) = Z.max d 60.
Proof.
  unfold math.toInt, math.Max, math.ofInt, Qle_bool, inject_Z.
  cbn [Qnum Qden]. rewrite !Z.mul_1_r.
  destruct (Z.leb_spec d 60); cbn [Qnum Qden]; rewrite Z.quot_1_r; lia.
Qed.

Lemma toInt_Max_millis (intervalMs : Z) :
  math.toInt (math.Max (math.ofInt intervalMs / math.ofInt 1000)%Q (math.ofInt 60))
  = Z.max (intervalMs ÷ 1000) 60.
Proof.
  unfold math.toInt, math.Max, math.ofInt, Qle_bool, Qdiv, Qmult, Qinv, inject_Z.
  cbn [Qnum Qden Pos.mul]. rewrite !Z.mul_1_r.
  change (Z.pos (1 * 1000)) with 1000. change (60 * 1000) with 60000.
  destruct (Z.leb_spec intervalMs 60000) as [Hle|Hgt]; cbn [Qnum Qden].
  - rewrite Z.quot_1_r.
    assert (intervalMs ÷ 1000 <= 60000 ÷ 1000) by (apply Z.quot_le_mono; lia).
    change (60000 ÷ 1000) with 60 in *.
    set (q := intervalMs ÷ 1000) in *. clearbody q. lia.
  - assert (60000 ÷ 1000 <= intervalMs ÷ 1000) by (apply Z.quot_le_mono; lia).
    change (60000 ÷ 1000) with 60 in *. change (Z.pos (1 * 1000)) with 1000.
    set (q := intervalMs ÷ 1000) in *. clearbody q. lia.
Qed.

(** C5, as the code has it.  Take an interval of at most 2^53
    milliseconds and a duration of at most 2^53 seconds in magnitude,
    which [float64] holds exactly.  For the specification [grafana-auto],
    and for the empty one, the alignment period is [+<n>s] with
    [n = max(intervalMs/1000, 60)], the quotient cut to a whole number;
    for [cloud-monitoring-auto] and
    [stackdriver-auto] it is [+60s] when the duration, raised to at least 60
    seconds, is below 23 hours, [+300s] when below 6 days, [+3600s]
    otherwise; any other specification is returned unchanged.  The two
    calls of the specification give [+300s] and [+60s]. *)
Theorem calculateAlignmentPeriod_cases (spec : string) (intervalMs durationSeconds : Z) :
  Z.abs intervalMs <= 2 ^ 53 ->
  Z.abs durationSeconds <= 2 ^ 53 ->
  calculateAlignmentPeriod spec intervalMs durationSeconds
  = (if isGrafanaAuto spec
     then "+" ++ strconv.Itoa (Z.max (intervalMs ÷ 1000) 60) ++ "s"
     else if isLegacyAuto spec
     then if Z.max durationSeconds 60 <? 23 * 3600 then "+60s"
          else if Z.max durationSeconds 60 <? 6 * 86400 then "+300s"
          else "+3600s"
     else spec)
  /\ calculateAlignmentPeriod "stackdriver-auto" 0 90000 = "+300s"
  /\ calculateAlignmentPeriod "grafana-auto" 15000 3600 = "+60s".
Proof.
  intros _ _. split; [|split; reflexivity].
  unfold calculateAlignmentPeriod, isGrafanaAuto, isLegacyAuto.
  rewrite toInt_Max_millis, toInt_Max_ofInt.
  destruct (String.eqb spec "grafana-auto" || String.eqb spec EmptyString).
  - reflexivity.
  - reflexivity.
Qed.







(** C10.  With explicit buckets the boundary at index [n] is read without
    a range check: for [1 <= n < length Bounds] the call returns that
    boundary, and for [n >= length Bounds] (other than the index 0, which
    returns before the access) it panics with an index out of range. *)
Theorem calcBucketBound_explicit_range (formatG : math.float64 -> string)
  (bucketOptions : cloudMonitoringBucketOptions) (xb : explicitBuckets) (n : Z) :
  LinearBuckets bucketOptions = None ->
  ExponentialBuckets bucketOptions = None ->
  ExplicitBuckets bucketOptions = Some xb ->
  (1 <= n < Z.of_nat (length (Bounds xb)) ->
     exists b, Bounds xb !! Z.to_nat n = Some b
               /\ calcBucketBound formatG bucketOptions n = Ret (formatG b))
  /\ (Z.of_nat (length (Bounds xb)) <= n -> n <> 0 ->
      calcBucketBound formatG bucketOptions n = Panic "index out of range").
Proof.
  intros Hl He Hx. unfold calcBucketBound. rewrite Hl, He, Hx. split.
  - intros Hn. destruct (Z.eqb_spec n 0) as [|_]; [lia|].
    destruct (Z.ltb_spec n 0) as [|_]; [lia|].
    destruct (lookup_lt_is_Some_2 (Bounds xb) (Z.to_nat n)) as [b Hb]; [lia|].
    exists b. now rewrite Hb.
  - intros Hn H0. destruct (Z.eqb_spec n 0) as [|_]; [contradiction|].
    destruct (Z.ltb_spec n 0) as [|_]; [reflexivity|].
    rewrite (proj2 (lookup_ge_None (Bounds xb) (Z.to_nat n))) by lia.
    reflexivity.
Qed.

Lemma unit_mapping_empty : cloudMonitoringUnitMappings !! EmptyString = None.
Proof. vm_compute. reflexivity. Qed.

Lemma addConfigToField_spec (dl unit : string) (f : Field) :
  fld_Name (addConfigToField dl unit f) = fld_Name f
  /\ Links (configOf (addConfigToField dl unit f))
     = (Links (configOf f) ++ [deepLinkTo dl])%list
  /\ Unit (configOf (addConfigToField dl unit f))
     = match cloudMonitoringUnitMappings !! unit with
       | Some val => val
       | None => Unit (configOf f)
       end.
Proof.
  unfold addConfigToField, configOf, deepLinkTo.
  destruct unit as [|a u]; cbn [String.length Nat.ltb Nat.leb].
  - rewrite unit_mapping_empty. destruct (Config f); repeat split.
  - destruct (cloudMonitoringUnitMappings !! String a u);
      destruct (Config f); repeat split; reflexivity.
Qed.

Lemma addConfigData_spec (dl unit : string) (frames : list Frame) :
  Forall (fun frame => (2 <= length (Fields frame))%nat) frames ->
  exists frames',
    addConfigData frames dl unit = Ret frames'
    /\ length frames' = length frames
    /\ forall i frame, frames !! i = Some frame ->
         exists field,
           Fields frame !! 1%nat = Some field
           /\ frames' !! i
              = Some {| frm_Name := frm_Name frame;
                        Fields := <[1%nat := addConfigToField dl unit field]> (Fields frame);
                        Custom := Custom frame |}.
Proof.
  induction 1 as [|frame frames Hlen _ (frames' & Hr & Hl & Hi)].
  - exists []. repeat split. intros i frame Hf. discriminate Hf.
  - destruct (lookup_lt_is_Some_2 (Fields frame) 1) as [field Hfield]; [lia|].
    eexists. cbn [addConfigData]. unfold addConfigToFrame. rewrite Hfield.
    cbn [obind]. rewrite Hr. cbn [obind]. split; [reflexivity|].
    split; [cbn; now rewrite Hl|].
    intros [|i] fr Hf; cbn in Hf.
    + injection Hf as <-. exists field. split; [assumption | reflexivity].
    + apply Hi, Hf.
Qed.

(** * Request parameters *)

Lemma valuesOf_Add (k v key : string) (params : gmap string (list string)) :
  valuesOf (url.Add k v params) key
  = (valuesOf params key ++ (if String.eqb k key then [v] else []))%list.
Proof.
  unfold valuesOf, url.Add. destruct (String.eqb_spec k key) as [->|Hne].
  - now rewrite lookup_insert_eq.
  - rewrite lookup_insert_ne by assumption. now rewrite app_nil_r.
Qed.

Lemma valuesOf_addEach (k key : string) (values : list string)
  (params : gmap string (list string)) :
  valuesOf (addEach k values params) key
  = (valuesOf params key ++ (if String.eqb k key then values else []))%list.
Proof.
  unfold addEach. revert params.
  induction values as [|v values IH]; intros params; simpl.
  - destruct (String.eqb k key); now rewrite app_nil_r.
  - rewrite IH, valuesOf_Add.
    destruct (String.eqb k key); rewrite <- app_assoc; reflexivity.
Qed.

Lemma setMetricAggParams_adds (params : gmap string (list string))
  (query : metricQuery) (durationSeconds intervalMs : Z) (key : string) :
  valuesOf (fst (setMetricAggParams params query durationSeconds intervalMs)) key
  = (valuesOf params key
     ++ valuesIn (aggParamsAdded query durationSeconds intervalMs) key)%list.
Proof.
  unfold aggParamsAdded, orDefault, valuesIn.
  destruct query as [pn mt reducer period aligner groupBys filters alias view
                       mode q pre ptype].
  unfold setMetricAggParams.
  cbn [mq_CrossSeriesReducer mq_PerSeriesAligner mq_AlignmentPeriod mq_GroupBys
       mq_PreprocessorType].
  destruct (String.eqb reducer EmptyString);
    cbn [set_CrossSeriesReducer mq_CrossSeriesReducer
         mq_PerSeriesAligner mq_AlignmentPeriod mq_GroupBys mq_PreprocessorType];
    destruct (String.eqb aligner EmptyString);
    cbn [set_PerSeriesAligner set_CrossSeriesReducer mq_CrossSeriesReducer
         mq_PerSeriesAligner mq_AlignmentPeriod mq_GroupBys mq_PreprocessorType];
    destruct ptype;
    try (rewrite !bool_decide_eq_true_2 by reflexivity);
    try (rewrite !bool_decide_eq_false_2 by (intros E; inversion E));
    cbn [negb fst snd flat_map];
    rewrite ?valuesOf_addEach, ?valuesOf_Add, ?valuesOf_addEach, ?valuesOf_Add;
    rewrite <- ?app_assoc, ?app_nil_r;
    destruct groupBys; reflexivity.
Qed.

Lemma length_append (u s : string) :
  String.length (u ++ s) = (String.length u + String.length s)%nat.
Proof.
  induction u as [|a u IH]; [reflexivity|]. rewrite append_cons. simpl. lia.
Qed.

Lemma substring_append (u s : string) :
  String.substring 0 (String.length u) (u ++ s) = u.
Proof.
  induction u as [|a u IH].
  - rewrite append_nil_l. now destruct s.
  - rewrite append_cons. simpl. now rewrite IH.
Qed.

Lemma consumed_append (u s : string) : regexp.consumed (u ++ s) s = u.
Proof.
  unfold regexp.consumed. rewrite length_append.
  replace (String.length u + String.length s - String.length s)%nat
    with (String.length u) by lia.
  apply substring_append.
Qed.

Section Runs.
Context {R : Type}.
Variable p : ascii -> bool.
Variable k : string -> regexp.captures -> option R.

Lemma starLoop_greedy_stops (fuel : nat) (s : string) (c : regexp.captures) :
  stops p s = true ->
  regexp.starLoop true (regexp.matchK (regexp.Class p)) k fuel s c = k s c.
Proof.
  intros Hs. destruct fuel as [|fuel]; [reflexivity|].
  destruct s as [|a s]; cbn in *.
  - reflexivity.
  - apply negb_true_iff in Hs. now rewrite Hs.
Qed.

Lemma starLoop_greedy_run (u s : string) (c : regexp.captures) (x : R) :
  allBytes p u = true -> stops p s = true -> k s c = Some x ->
  forall fuel, (String.length u <= fuel)%nat ->
  regexp.starLoop true (regexp.matchK (regexp.Class p)) k fuel (u ++ s) c
  = Some x.
Proof.
  intros Hu Hs Hk. induction u as [|a u IH]; intros fuel Hf.
  - rewrite append_nil_l, starLoop_greedy_stops by assumption. assumption.
  - cbn in Hu. apply andb_true_iff in Hu as [Ha Hu].
    destruct fuel as [|fuel]; [simpl in Hf; lia|].
    rewrite append_cons. cbn [regexp.starLoop regexp.matchK]. rewrite Ha.
    replace (String.length (u ++ s) <? String.length (String a (u ++ s)))%nat
      with true by (symmetry; apply Nat.ltb_lt; simpl; lia).
    fold (regexp.starLoop true (regexp.matchK (regexp.Class p)) k).
    rewrite IH; [reflexivity | assumption | simpl in Hf; lia].
Qed.

Lemma starLoop_lazy_run (q : ascii -> bool) (u s : string)
  (c : regexp.captures) (x : R) :
  (forall a t, q a = true -> k (String a t) c = None) ->
  allBytes p u = true -> allBytes q u = true -> k s c = Some x ->
  forall fuel, (String.length u <= fuel)%nat ->
  regexp.starLoop false (regexp.matchK (regexp.Class p)) k fuel (u ++ s) c
  = Some x.
Proof.
  intros Hfail Hu Hq Hk. induction u as [|a u IH]; intros fuel Hf.
  - rewrite append_nil_l. destruct fuel; cbn; now rewrite Hk.
  - cbn in Hu, Hq. apply andb_true_iff in Hu as [Ha Hu].
    apply andb_true_iff in Hq as [Hqa Hq].
    destruct fuel as [|fuel]; [simpl in Hf; lia|].
    rewrite append_cons. cbn [regexp.starLoop regexp.matchK].
    rewrite (Hfail a (u ++ s) Hqa), Ha.
    replace (String.length (u ++ s) <? String.length (String a (u ++ s)))%nat
      with true by (symmetry; apply Nat.ltb_lt; simpl; lia).
    fold (regexp.starLoop false (regexp.matchK (regexp.Class p)) k).
    apply IH; [assumption | assumption | simpl in Hf; lia].
Qed.

End Runs.

(** The replacement skips the bytes of the match it has just replaced. *)
Lemma replaceAllFrom_skip (r : regexp.regex) (repl : string -> string)
  (u s : string) :
  regexp.replaceAllFrom r repl (String.length u) (u ++ s)
  = regexp.replaceAllFrom r repl 0 s.
Proof.
  induction u as [|a u IH]; [reflexivity|].
  rewrite append_cons. cbn [String.length regexp.replaceAllFrom]. apply IH.
Qed.

Lemma ReplaceAllFunc_match (r : regexp.regex) (repl : string -> string)
  (a : ascii) (m post : string) (c : regexp.captures) :
  regexp.matchPrefix r (String a m ++ post) = Some (String a m, c) ->
  regexp.ReplaceAllFunc r (String a m ++ post) repl
  = repl (String a m) ++ regexp.ReplaceAllFunc r post repl.
Proof.
  intros Hm. unfold regexp.ReplaceAllFunc.
  rewrite append_cons. cbn [regexp.replaceAllFrom].
  rewrite <- append_cons, Hm. cbn [String.length].
  now rewrite replaceAllFrom_skip.
Qed.

(** * Placeholders of the legend template *)

Lemma isBlank_isSpace (a : ascii) : isBlank a = true -> strings.isSpace a = true.
Proof. by_bytes a. Qed.

Lemma isNameByte_facts (a : ascii) :
  isNameByte a = true ->
  isBlank a = false /\ strings.isSpace a = false
  /\ Ascii.eqb "}" a = false /\ negb (Ascii.eqb a "010") = true.
Proof. by_bytes a. Qed.

Lemma allBytes_impl (p q : ascii -> bool) (s : string) :
  (forall a, p a = true -> q a = true) ->
  allBytes p s = true -> allBytes q s = true.
Proof.
  intros Hpq. induction s as [|a s IH]; [reflexivity|]. cbn.
  intros [Ha Hs]%andb_true_iff. rewrite (Hpq a Ha). now apply IH.
Qed.

Section Placeholder.
Variables (ws1 ws2 : string) (n0 : ascii) (name' post : string).
Hypothesis blank1 : allBytes isBlank ws1 = true.
Hypothesis blank2 : allBytes isBlank ws2 = true.
Hypothesis name0 : isNameByte n0 = true.
Hypothesis names : allBytes isNameByte name' = true.

Section Tail.
Context {R : Type}.
Variable kf : string -> regexp.captures -> option R.

Lemma tail_matches (c : regexp.captures) (x : R) :
  kf post c = Some x ->
  regexp.matchK legendTail (ws2 ++ "}}" ++ post) c kf = Some x.
Proof.
  intros Hk. unfold legendTail. cbn [regexp.matchK].
  apply (starLoop_greedy_run isBlank).
  - exact blank2.
  - reflexivity.
  - cbn. exact Hk.
  - rewrite length_append. lia.
Qed.

Lemma tail_fails (a : ascii) (t : string) (c : regexp.captures) :
  isNameByte a = true -> regexp.matchK legendTail (String a t) c kf = None.
Proof.
  intros Ha. destruct (isNameByte_facts a Ha) as (Hb & _ & Hc & _).
  unfold legendTail. cbn [regexp.matchK].
  rewrite (starLoop_greedy_stops isBlank)
    by (unfold stops; now rewrite Hb).
  cbn [regexp.matchK regexp.literal regexp.byte]. now rewrite Hc.
Qed.

End Tail.

Lemma legendKeyFormat_open {R : Type} (r : regexp.regex) (s : string)
  (c : regexp.captures) (k : string -> regexp.captures -> option R) :
  regexp.matchK (regexp.Cat (regexp.literal "{" "{") r)
                (String "{" (String "{" s)) c k
  = regexp.matchK r s c k.
Proof. reflexivity. Qed.

Lemma legendKeyFormat_placeholder :
  regexp.matchPrefix legendKeyFormat
    (placeholderOf ws1 (String n0 name') ws2 ++ post)
  = Some (placeholderOf ws1 (String n0 name') ws2,
          [(1%nat, String n0 name')]).
Proof.
  unfold regexp.matchPrefix, legendKeyFormat, placeholderOf.
  set (name := String n0 name').
  set (whole := ("{{" ++ ws1 ++ name ++ ws2 ++ "}}") ++ post).
  assert (Hw : whole = String "{" (String "{" (ws1 ++ name ++ ws2 ++ "}}" ++ post))).
  { unfold whole. rewrite !append_assoc. reflexivity. }
  set (kf := fun (s' : string) (c : regexp.captures) =>
               Some (regexp.consumed whole s', c)).
  rewrite Hw at 1. rewrite legendKeyFormat_open.
  fold legendTail.
  cbn [regexp.matchK].
  (* the blanks after the opening braces *)
  apply (starLoop_greedy_run isBlank).
  - exact blank1.
  - unfold name, stops. rewrite append_cons.
    now destruct (isNameByte_facts n0 name0) as (-> & _).
  - (* the name, as short as the rest of the pattern allows *)
    unfold name at 1. rewrite append_cons.
    destruct (isNameByte_facts n0 name0) as (_ & _ & _ & Hdot).
    cbn [regexp.Plus regexp.dot regexp.matchK]. rewrite Hdot.
    apply (starLoop_lazy_run _ _ isNameByte).
    + intros a t Ha. apply tail_fails, Ha.
    + eapply allBytes_impl; [|exact names].
      intros a Ha. now destruct (isNameByte_facts a Ha) as (_ & _ & _ & ->).
    + exact names.
    + fold name. rewrite consumed_append.
      rewrite (tail_matches kf _ (regexp.consumed whole post, [(1%nat, name)]));
        [|reflexivity].
      unfold whole. now rewrite consumed_append.
    + rewrite length_append. lia.
  - rewrite length_append. lia.
Qed.

End Placeholder.

Lemma allBytes_app (p : ascii -> bool) (u v : string) :
  allBytes p (u ++ v) = allBytes p u && allBytes p v.
Proof.
  induction u as [|a u IH]; [reflexivity|].
  rewrite append_cons. cbn. now rewrite IH, andb_assoc.
Qed.

Lemma trimRightFunc_all (f : ascii -> bool) (w : string) :
  allBytes f w = true -> strings.trimRightFunc f w = EmptyString.
Proof.
  induction w as [|a w IH]; [reflexivity|]. cbn.
  intros [Ha Hw]%andb_true_iff. now rewrite IH, Ha.
Qed.

Lemma Replace_open (s : string) :
  strings.Replace (String "{" (String "{" s)) "{{" EmptyString 1 = s.
Proof.
  unfold strings.Replace. cbn [strings.replaceFrom].
  rewrite !prefix_cons, prefix_nil. cbn. apply replaceFrom_zero.
Qed.

Lemma Replace_close (u : string) :
  allBytes notClosing u = true ->
  strings.Replace (u ++ "}}") "}}" EmptyString 1 = u.
Proof.
  unfold strings.Replace. induction u as [|a u IH]; [reflexivity|].
  cbn [allBytes]. intros [Ha Hu]%andb_true_iff.
  rewrite append_cons. cbn [strings.replaceFrom].
  change (1 =? 0)%Z with false. cbv iota.
  rewrite prefix_cons. unfold notClosing in Ha. rewrite eqb_sym in Ha.
  apply negb_true_iff in Ha. rewrite Ha. cbn [andb]. now rewrite IH.
Qed.

Lemma isBlank_notClosing (a : ascii) : isBlank a = true -> notClosing a = true.
Proof. by_bytes a. Qed.

Lemma isNameByte_notClosing (a : ascii) : isNameByte a = true -> notClosing a = true.
Proof. by_bytes a. Qed.

(** * Trimming white space *)

Lemma length_rev (s : string) : String.length (strings.rev s) = String.length s.
Proof.
  induction s as [|a s IH]; [reflexivity|].
  change (String a s) with (String a EmptyString ++ s).
  rewrite rev_app, !length_append, IH. cbn. lia.
Qed.

Lemma allBytes_rev (p : ascii -> bool) (s : string) :
  allBytes p (strings.rev s) = allBytes p s.
Proof.
  induction s as [|a s IH]; [reflexivity|].
  change (String a s) with (String a EmptyString ++ s).
  rewrite rev_app, !allBytes_app, IH. apply andb_comm.
Qed.

Lemma trimLeftRunes_length (width : string -> nat) (s : string) (skip : nat) :
  (String.length (strings.trimLeftRunes width skip s) <= String.length s - skip)%nat.
Proof.
  revert skip. induction s as [|a s IH]; intros skip; [cbn; lia|].
  cbn [strings.trimLeftRunes String.length]. destruct skip as [|skip].
  - destruct (width (String a s)) as [|w]; [cbn; lia|].
    specialize (IH w). lia.
  - specialize (IH skip). lia.
Qed.

(** A string the trimming leaves as it is begins with no white space. *)
Lemma trimLeftRunes_fixed (width : string -> nat) (s : string) :
  String.length (strings.trimLeftRunes width 0 s) = String.length s ->
  s = EmptyString \/ width s = 0%nat.
Proof.
  intros H. destruct s as [|a s]; [now left|]. right.
  cbn [strings.trimLeftRunes String.length] in H.
  destruct (width (String a s)) as [|w]; [reflexivity|].
  pose proof (trimLeftRunes_length width s w). lia.
Qed.

Lemma trimLeftRunes_stops (width : string -> nat) (s : string) :
  width s = 0%nat -> strings.trimLeftRunes width 0 s = s.
Proof.
  intros Hw. destruct s as [|a s]; [reflexivity|].
  cbn [strings.trimLeftRunes]. now rewrite Hw.
Qed.

Lemma trimLeftRunes_run (width : string -> nat) (u s : string) :
  (forall a t, isBlank a = true -> width (String a t) = 1%nat) ->
  allBytes isBlank u = true ->
  strings.trimLeftRunes width 0 (u ++ s) = strings.trimLeftRunes width 0 s.
Proof.
  intros Hw. induction u as [|a u IH]; [now rewrite append_nil_l|].
  cbn [allBytes]. intros [Ha Hu]%andb_true_iff.
  rewrite append_cons. cbn [strings.trimLeftRunes].
  rewrite (Hw a _ Ha). now apply IH.
Qed.

Lemma spaceWidth_blank (a : ascii) (t : string) :
  isBlank a = true -> strings.spaceWidth (String a t) = 1%nat.
Proof.
  intros Ha. cbn [strings.spaceWidth]. now rewrite (isBlank_isSpace a Ha).
Qed.

Lemma spaceWidthLast_blank (a : ascii) (t : string) :
  isBlank a = true -> strings.spaceWidthLast (String a t) = 1%nat.
Proof.
  intros Ha. cbn [strings.spaceWidthLast]. now rewrite (isBlank_isSpace a Ha).
Qed.

Lemma isSpace2_blank (a b : ascii) : isBlank b = true -> strings.isSpace2 a b = false.
Proof.
  intros Hb. unfold strings.isSpace2.
  assert (H : ((nat_of_ascii b =? 133) || (nat_of_ascii b =? 160))%nat = false)
    by (revert Hb; by_bytes b).
  rewrite H. apply andb_false_r.
Qed.

Lemma isSpace3_blank_mid (a b c : ascii) :
  isBlank b = true -> strings.isSpace3 a b c = false.
Proof.
  intros Hb. unfold strings.isSpace3.
  assert (H : (nat_of_ascii b =? 154)%nat = false
              /\ (nat_of_ascii b =? 128)%nat = false
              /\ (nat_of_ascii b =? 129)%nat = false)
    by (revert Hb; by_bytes b).
  destruct H as (-> & -> & ->).
  now rewrite !andb_false_r.
Qed.

Lemma isSpace3_blank_last (a b c : ascii) :
  isBlank c = true -> strings.isSpace3 a b c = false.
Proof.
  intros Hc. unfold strings.isSpace3.
  assert (H : (nat_of_ascii c =? 128)%nat = false
              /\ (nat_of_ascii c =? 159)%nat = false
              /\ ((((128 <=? nat_of_ascii c) && (nat_of_ascii c <=? 138))
                   || (nat_of_ascii c =? 168) || (nat_of_ascii c =? 169)
                   || (nat_of_ascii c =? 175))%nat = false))
    by (revert Hc; by_bytes c).
  destruct H as (-> & -> & ->).
  now rewrite !andb_false_r.
Qed.

(** Blanks after a string add no white-space rune to its start. *)
Lemma spaceWidth_app (s u : string) :
  s <> EmptyString -> allBytes isBlank u = true ->
  strings.spaceWidth s = 0%nat -> strings.spaceWidth (s ++ u) = 0%nat.
Proof.
  intros Hs Hu. destruct s as [|a s]; [contradiction|].
  rewrite append_cons. cbn [strings.spaceWidth].
  destruct (strings.isSpace a); [discriminate|].
  destruct s as [|b s].
  - rewrite append_nil_l. intros _. destruct u as [|x u]; [reflexivity|].
    cbn [allBytes] in Hu. apply andb_true_iff in Hu as [Hx Hu].
    rewrite (isSpace2_blank a x Hx).
    destruct u as [|y u]; [reflexivity|].
    now rewrite (isSpace3_blank_mid a x y Hx).
  - rewrite append_cons. destruct (strings.isSpace2 a b); [discriminate|].
    destruct s as [|c s].
    + rewrite append_nil_l. intros _. destruct u as [|x u]; [reflexivity|].
      cbn [allBytes] in Hu. apply andb_true_iff in Hu as [Hx Hu].
      now rewrite (isSpace3_blank_last a b x Hx).
    + rewrite append_cons. trivial.
Qed.

(** White space around a name that carries none at its ends is all that
    [strings.TrimSpace] removes. *)
Lemma TrimSpace_around (ws1 name ws2 : string) :
  allBytes isBlank ws1 = true -> allBytes isBlank ws2 = true ->
  name <> EmptyString -> strings.TrimSpace name = name ->
  strings.TrimSpace (ws1 ++ name ++ ws2) = name.
Proof.
  intros H1 H2 Hne Hfix.
  assert (Hlen : String.length (strings.TrimSpace name) = String.length name)
    by now rewrite Hfix.
  unfold strings.TrimSpace in Hlen. rewrite length_rev in Hlen.
  pose proof (trimLeftRunes_length strings.spaceWidth name 0) as Hl.
  pose proof (trimLeftRunes_length strings.spaceWidthLast
                (strings.rev (strings.trimLeftRunes strings.spaceWidth 0 name)) 0) as Hr.
  rewrite length_rev in Hr.
  destruct (trimLeftRunes_fixed strings.spaceWidth name) as [->|Hw];
    [lia|contradiction|].
  rewrite (trimLeftRunes_stops _ _ Hw) in Hlen.
  destruct (trimLeftRunes_fixed strings.spaceWidthLast (strings.rev name)) as [He|Hw'].
  { rewrite length_rev. exact Hlen. }
  { apply (f_equal strings.rev) in He. rewrite rev_involutive in He.
    now subst name. }
  unfold strings.TrimSpace.
  rewrite (trimLeftRunes_run _ _ _ spaceWidth_blank H1).
  rewrite (trimLeftRunes_stops _ _ (spaceWidth_app _ _ Hne H2 Hw)).
  rewrite rev_app.
  rewrite (trimLeftRunes_run _ _ _ spaceWidthLast_blank)
    by now rewrite allBytes_rev.
  rewrite (trimLeftRunes_stops _ _ Hw'). apply rev_involutive.
Qed.

Section PlaceholderName.
Variables (ws1 ws2 : string) (n0 : ascii) (name' : string).
Hypothesis blank1 : allBytes isBlank ws1 = true.
Hypothesis blank2 : allBytes isBlank ws2 = true.
Hypothesis name0 : isNameByte n0 = true.
Hypothesis names : allBytes isNameByte name' = true.
Hypothesis trimmed : strings.TrimSpace (String n0 name') = String n0 name'.

Lemma metaPartNameOf_placeholder :
  metaPartNameOf ("{{" ++ ws1 ++ String n0 name' ++ ws2 ++ "}}") = String n0 name'.
Proof.
  unfold metaPartNameOf.
  change ("{{" ++ ws1 ++ String n0 name' ++ ws2 ++ "}}")
    with (String "{" (String "{" (ws1 ++ String n0 name' ++ ws2 ++ "}}"))).
  rewrite Replace_open.
  assert (Hname : allBytes isNameByte (String n0 name') = true).
  { cbn. now rewrite name0, names. }
  rewrite <- !append_assoc, Replace_close.
  2:{ rewrite !allBytes_app.
      rewrite (allBytes_impl _ _ _ isBlank_notClosing blank1).
      rewrite (allBytes_impl _ _ _ isNameByte_notClosing Hname).
      now rewrite (allBytes_impl _ _ _ isBlank_notClosing blank2). }
  rewrite append_assoc. now apply TrimSpace_around.
Qed.

End PlaceholderName.

Lemma ReplaceAllFunc_text (repl : string -> string) (text s : string) :
  allBytes notOpening text = true ->
  regexp.ReplaceAllFunc legendKeyFormat (text ++ s) repl
  = text ++ regexp.ReplaceAllFunc legendKeyFormat s repl.
Proof.
  unfold regexp.ReplaceAllFunc. induction text as [|a text IH]; [reflexivity|].
  cbn [allBytes]. intros [Ha Ht]%andb_true_iff.
  rewrite !append_cons. cbn [regexp.replaceAllFrom].
  assert (Hm : regexp.matchPrefix legendKeyFormat (String a (text ++ s)) = None).
  { unfold regexp.matchPrefix, legendKeyFormat.
    cbn [regexp.matchK regexp.literal regexp.byte].
    apply negb_true_iff in Ha. now rewrite Ha. }
  rewrite Hm. now rewrite IH.
Qed.

(** A template of some text without an opening brace, a plain placeholder,
    and the rest. *)
Lemma ReplaceAllFunc_placeholder (repl : string -> string)
  (text ws1 ws2 : string) (n0 : ascii) (name' post : string) :
  allBytes notOpening text = true ->
  allBytes isBlank ws1 = true -> allBytes isBlank ws2 = true ->
  isNameByte n0 = true -> allBytes isNameByte name' = true ->
  regexp.ReplaceAllFunc legendKeyFormat
    (text ++ ("{{" ++ ws1 ++ String n0 name' ++ ws2 ++ "}}") ++ post) repl
  = text ++ repl ("{{" ++ ws1 ++ String n0 name' ++ ws2 ++ "}}")
    ++ regexp.ReplaceAllFunc legendKeyFormat post repl.
Proof.
  intros Ht H1 H2 Hn0 Hn. rewrite ReplaceAllFunc_text by assumption. f_equal.
  pose proof (legendKeyFormat_placeholder ws1 ws2 n0 name' post H1 H2 Hn0 Hn) as Hm.
  unfold placeholderOf in Hm.
  change ("{{" ++ ws1 ++ String n0 name' ++ ws2 ++ "}}")
    with (String "{" ("{" ++ ws1 ++ String n0 name' ++ ws2 ++ "}}")) in *.
  now apply (ReplaceAllFunc_match _ repl) in Hm.
Qed.

(** * The metric type convention *)

Section Literals.
Context {R : Type}.

Lemma matchK_byte (a b : ascii) (s : string) (c : regexp.captures)
  (k : string -> regexp.captures -> option R) :
  regexp.matchK (regexp.byte a) (String b s) c k
  = if Ascii.eqb a b then k s c else None.
Proof. reflexivity. Qed.

Lemma matchK_literal (a : ascii) (l s : string) (c : regexp.captures)
  (k : string -> regexp.captures -> option R) :
  regexp.matchK (regexp.literal a l) (String a l ++ s) c k = k s c.
Proof.
  revert a. induction l as [|b l IH]; intros a; rewrite append_cons.
  - cbn [regexp.literal]. now rewrite matchK_byte, Ascii.eqb_refl, append_nil_l.
  - cbn [regexp.literal regexp.matchK]. rewrite matchK_byte, Ascii.eqb_refl.
    apply IH.
Qed.

Lemma matchK_Class (p : ascii -> bool) (a : ascii) (s : string)
  (c : regexp.captures) (k : string -> regexp.captures -> option R) :
  regexp.matchK (regexp.Class p) (String a s) c k
  = if p a then k s c else None.
Proof. reflexivity. Qed.

Lemma matchK_Cat (r1 r2 : regexp.regex) (s : string) (c : regexp.captures)
  (k : string -> regexp.captures -> option R) :
  regexp.matchK (regexp.Cat r1 r2) s c k
  = regexp.matchK r1 s c (fun s' c' => regexp.matchK r2 s' c' k).
Proof. reflexivity. Qed.

Lemma matchK_Group (n : nat) (r : regexp.regex) (s : string)
  (c : regexp.captures) (k : string -> regexp.captures -> option R) :
  regexp.matchK (regexp.Group n r) s c k
  = regexp.matchK r s c (fun s' c' => k s' ((n, regexp.consumed s s') :: c')).
Proof. reflexivity. Qed.

Lemma matchK_Star (greedy : bool) (r : regexp.regex) (s : string)
  (c : regexp.captures) (k : string -> regexp.captures -> option R) :
  regexp.matchK (regexp.Star greedy r) s c k
  = regexp.starLoop greedy (regexp.matchK r) k (S (String.length s)) s c.
Proof. reflexivity. Qed.

End Literals.

Lemma consumed_all (s : string) : regexp.consumed s EmptyString = s.
Proof.
  rewrite <- (append_nil_r s) at 1. apply consumed_append.
Qed.

Section Convention.
Variables (s0 : ascii) (service' : string) (domain : string)
          (m0 : ascii) (name' : string).
Hypothesis service0 : isWord s0 = true.
Hypothesis services : allBytes isWord service' = true.
Hypothesis domains : isMetricDomain domain = true.
Hypothesis metric0 : notNewline m0 = true.
Hypothesis metrics : allBytes notNewline name' = true.

Lemma domain_matches {R : Type} (s : string) (c : regexp.captures)
  (k : string -> regexp.captures -> option R) (x : R) :
  k s ((2%nat, domain) :: c) = Some x ->
  regexp.matchK
    (regexp.Group 2 (regexp.Alt (regexp.literal "g" "oogleapis.com")
                                (regexp.literal "i" "o")))
    (domain ++ s) c k = Some x.
Proof.
  intros Hk. unfold isMetricDomain in domains.
  apply orb_true_iff in domains as [->%String.eqb_eq | ->%String.eqb_eq];
    cbn [regexp.matchK].
  - rewrite matchK_literal, consumed_append. now rewrite Hk.
  - assert (H1 : forall k',
              regexp.matchK (R:=R) (regexp.literal "g" "oogleapis.com")
                            ("io" ++ s) c k' = None) by reflexivity.
    rewrite H1, matchK_literal, consumed_append. exact Hk.
Qed.

Lemma metricNameFormat_convention :
  regexp.FindStringSubmatch metricNameFormat 3
    (metricTypeOf (String s0 service') domain (String m0 name'))
  = [metricTypeOf (String s0 service') domain (String m0 name');
     String s0 service'; domain; String m0 name'].
Proof.
  unfold metricTypeOf.
  set (service := String s0 service'). set (name := String m0 name').
  set (metricType := service ++ "." ++ domain ++ "/" ++ name).
  assert (Hm : regexp.matchPrefix metricNameFormat metricType
               = Some (metricType,
                       [(3%nat, name); (2%nat, domain); (1%nat, service)])).
  { unfold regexp.matchPrefix, metricNameFormat.
    set (kf := fun (s' : string) (c : regexp.captures) =>
                 Some (regexp.consumed metricType s', c)).
    (* the service: the longest run of word bytes *)
    rewrite matchK_Cat, matchK_Group. unfold regexp.Plus at 1.
    rewrite matchK_Cat.
    unfold metricType at 1, service at 1. rewrite append_cons.
    change regexp.word with (regexp.Class isWord).
    rewrite matchK_Class, service0, matchK_Star.
    apply (starLoop_greedy_run isWord);
      [exact services | reflexivity | | rewrite length_append; lia].
    cbv beta. fold service.
    unfold metricType at 1. rewrite consumed_append.
    (* the dot and the domain *)
    change ("." ++ domain ++ "/" ++ name) with (String "." (domain ++ "/" ++ name)).
    rewrite matchK_Cat, matchK_byte.
    change (Ascii.eqb "." ".") with true. cbv iota beta.
    rewrite matchK_Cat. apply domain_matches.
    (* the slash and the name: everything up to the end *)
    change ("/" ++ name) with (String "/" name).
    rewrite matchK_Cat, matchK_byte.
    change (Ascii.eqb "/" "/") with true. cbv iota beta.
    rewrite matchK_Group. unfold regexp.Plus. rewrite matchK_Cat.
    unfold name at 1. change regexp.dot with (regexp.Class notNewline).
    rewrite matchK_Class, metric0, matchK_Star.
    rewrite <- (append_nil_r name') at 2.
    apply (starLoop_greedy_run notNewline);
      [exact metrics | reflexivity | | rewrite ?append_nil_r; lia].
    cbv beta. fold name. unfold kf. now rewrite !consumed_all. }
  unfold metricType at 1, service at 1. rewrite append_cons.
  cbn [regexp.FindStringSubmatch]. rewrite <- append_cons.
  fold service. fold metricType. rewrite Hm. reflexivity.
Qed.

Lemma replaceWithMetricPart_convention :
  replaceWithMetricPart "metric.name"
    (metricTypeOf (String s0 service') domain (String m0 name'))
  = Some (String m0 name')
  /\ replaceWithMetricPart "metric.service"
       (metricTypeOf (String s0 service') domain (String m0 name'))
     = Some (String s0 service').
Proof.
  unfold replaceWithMetricPart. rewrite metricNameFormat_convention.
  split; reflexivity.
Qed.

End Convention.

Lemma legendReplacement_priority (metricType : string)
  (labels additionalLabels : gmap string string)
  (query : cloudMonitoringTimeSeriesFilter) (_in : string) :
  legendReplacement metricType labels additionalLabels query _in
  = default _in
      (placeholderValue metricType labels additionalLabels query
                        (metaPartNameOf _in)).
Proof.
  unfold legendReplacement, placeholderValue, contextValue, nonEmpty.
  set (name := metaPartNameOf _in).
  destruct (String.eqb name "metric.type"); [reflexivity|].
  destruct (replaceWithMetricPart name metricType); [reflexivity|].
  destruct (labels !! name); [reflexivity|].
  destruct (additionalLabels !! name); [reflexivity|].
  destruct (String.eqb_spec name "project") as [->|_].
  { cbn [andb]. now destruct (String.eqb (tsf_ProjectName query) EmptyString). }
  destruct (String.eqb_spec name "service") as [->|_].
  { cbn [andb]. now destruct (String.eqb (tsf_Service query) EmptyString). }
  destruct (String.eqb_spec name "slo") as [->|_].
  { cbn [andb]. now destruct (String.eqb (tsf_Slo query) EmptyString). }
  destruct (String.eqb_spec name "selector") as [->|_].
  { cbn [andb]. now destruct (String.eqb (tsf_Selector query) EmptyString). }
  reflexivity.
Qed.

Lemma buildFilterString_returns (metricType : string) (filterParts : list string) :
  exists filter, buildFilterString metricType filterParts = Ret filter.
Proof.
  unfold buildFilterString.
  destruct (filterLoop_returns filterParts filterParts 0 EmptyString) as [fs ->];
    [simpl; lia|].
  simpl. eauto.
Qed.

(** * The dispatcher *)

Section Dispatch.
Context {cloudMonitoringResponse : Type}.
Variable formatRFC3339 : Z -> string.
Variable Encode : gmap string (list string) -> string.
Variable toPreprocessorType : string -> preprocessorType.
Variable quoteQ : string -> string.
Variable run :
  cloudMonitoringQueryExecutor ->
  string + (DataResponse * cloudMonitoringResponse * string).
Variable parseResponse :
  cloudMonitoringQueryExecutor -> DataResponse -> cloudMonitoringResponse ->
  string -> DataResponse * option string.

Lemma buildQueryExecutor_recognized (req0 query : DataQuery) :
  recognized query ->
  exists e,
    buildQueryExecutor formatRFC3339 Encode toPreprocessorType quoteQ req0 query
    = Ret (inr e).
Proof.
  intros (q & Hq & Ht). unfold buildQueryExecutor. rewrite Hq.
  destruct (String.eqb_spec (QueryType q) metricQueryType) as [_|Hm].
  - destruct (String.eqb _ mqlEditorMode); [eauto|].
    match goal with
    | |- context [buildFilterString ?m ?f] =>
        destruct (buildFilterString_returns m f) as [filter ->]
    end.
    cbn [obind].
    match goal with
    | |- context [setMetricAggParams ?p ?m ?d ?i] =>
        destruct (setMetricAggParams p m d i) as [params mq]
    end.
    eauto.
  - destruct Ht as [?|Hs]; [contradiction|]. rewrite Hs. cbn [String.eqb].
    change (String.eqb sloQueryType sloQueryType) with true. cbv iota. eauto.
Qed.

Lemma buildQueryExecutor_unrecognized (req0 query : DataQuery)
  (queryType : string) :
  unrecognized query queryType ->
  buildQueryExecutor formatRFC3339 Encode toPreprocessorType quoteQ req0 query
  = Panic ("Unrecognized query type " ++ quoteQ queryType).
Proof.
  intros (q & Hq & <- & Hm & Hs). unfold buildQueryExecutor. rewrite Hq.
  destruct (String.eqb_spec (QueryType q) metricQueryType); [contradiction|].
  destruct (String.eqb_spec (QueryType q) sloQueryType); [contradiction|].
  reflexivity.
Qed.

Lemma buildFrom_first_unrecognized (req0 : DataQuery)
  (before after : list DataQuery) (query : DataQuery) (queryType : string)
  (acc : list cloudMonitoringQueryExecutor) :
  Forall recognized before -> unrecognized query queryType ->
  buildQueryExecutorsFrom formatRFC3339 Encode toPreprocessorType quoteQ
    req0 (before ++ query :: after)%list acc
  = Panic ("Unrecognized query type " ++ quoteQ queryType).
Proof.
  intros Hb Hu. revert acc.
  induction Hb as [|p before Hp _ IH]; intros acc; cbn [app buildQueryExecutorsFrom].
  - now rewrite (buildQueryExecutor_unrecognized _ _ _ Hu).
  - destruct (buildQueryExecutor_recognized req0 p Hp) as [e ->].
    cbn [obind]. apply IH.
Qed.

Lemma buildFrom_no_executors (req0 : DataQuery) (queries : list DataQuery)
  (acc : list cloudMonitoringQueryExecutor) :
  Exists (fun query => exists t, unrecognized query t) queries ->
  (exists msg,
      buildQueryExecutorsFrom formatRFC3339 Encode toPreprocessorType quoteQ
        req0 queries acc = Panic msg)
  \/ (exists err,
        buildQueryExecutorsFrom formatRFC3339 Encode toPreprocessorType quoteQ
          req0 queries acc = Ret ([], Some err)).
Proof.
  intros Hex. revert acc.
  induction Hex as [query queries [t Hu]|query queries _ IH]; intros acc;
    cbn [buildQueryExecutorsFrom].
  - rewrite (buildQueryExecutor_unrecognized _ _ _ Hu). left. eauto.
  - destruct (buildQueryExecutor formatRFC3339 Encode toPreprocessorType quoteQ
                req0 query) as [[err|e]|msg]; cbn [obind].
    + right. eauto.
    + apply IH.
    + left. eauto.
Qed.

(** [s.im.Get], the default credentials and the annotation path, for
    [QueryData]. *)
Variable imGet : outcome (string + option datasourceInfo).
Variable FindDefaultCredentials : string + (string * (string + bool)).
Variable executeAnnotationQuery :
  QueryDataRequest -> datasourceInfo ->
  option (gmap string DataResponse) * option string.

(** C2, as the code has it.  In a batch handled by
    [executeTimeSeriesQuery], a query that decodes and resolves (after
    the migration of the legacy layout) to a query type other than
    [metrics] and [slo] leaves the batch without results: when every
    query before it is of a known type, [buildQueryExecutors] panics
    with the message [Unrecognized query type], and so does
    [executeTimeSeriesQuery]; wherever it is in the batch,
    [buildQueryExecutors] either panics or returns no executor and an
    error, and [executeTimeSeriesQuery] panics with it or returns the
    empty response with that error.  A query whose payload has no
    [metricQuery] object and whose fields decode as a metric query
    resolves to the type [metrics] with that metric query, whatever else
    the payload declares: it is of a known type and of no unknown one.
    And once the instance of the data source is found, [QueryData] gives
    a batch whose first query has a top-level type other than
    [annotationQuery] and [getGCEDefaultProject] to
    [executeTimeSeriesQuery] and returns what that returns, so that it
    panics with it. *)
Theorem unrecognized_query_type (req : QueryDataRequest) :
  (forall before query after queryType,
      Queries req = (before ++ query :: after)%list ->
      Forall recognized before -> unrecognized query queryType ->
      buildQueryExecutors formatRFC3339 Encode toPreprocessorType quoteQ req
      = Panic ("Unrecognized query type " ++ quoteQ queryType)
      /\ executeTimeSeriesQuery formatRFC3339 Encode toPreprocessorType quoteQ
           run parseResponse req
         = Panic ("Unrecognized query type " ++ quoteQ queryType))
  /\ (forall query queryType,
        query ∈ Queries req -> unrecognized query queryType ->
        (exists msg,
            buildQueryExecutors formatRFC3339 Encode toPreprocessorType quoteQ
              req = Panic msg
            /\ executeTimeSeriesQuery formatRFC3339 Encode toPreprocessorType
                 quoteQ run parseResponse req = Panic msg)
        \/ (exists err,
              buildQueryExecutors formatRFC3339 Encode toPreprocessorType
                quoteQ req = Ret ([], Some err)
              /\ executeTimeSeriesQuery formatRFC3339 Encode
                   toPreprocessorType quoteQ run parseResponse req
                 = Ret (NewQueryDataResponse, Some err)))
  /\ (forall query mq,
        asRawQuery (JSON query) = inr false ->
        asMetricQuery (JSON query) = inr mq ->
        (exists q, queryModel query = inr q
                   /\ QueryType q = metricQueryType /\ MetricQuery q = mq)
        /\ recognized query
        /\ forall queryType, ~ unrecognized query queryType)
  /\ (forall req0 rest type dsInfo,
        Queries req = req0 :: rest ->
        asQueryModel (JSON req0) = inr type ->
        type <> "annotationQuery" -> type <> "getGCEDefaultProject" ->
        imGet = Ret (inr (Some dsInfo)) ->
        QueryData formatRFC3339 Encode toPreprocessorType quoteQ run
          parseResponse imGet FindDefaultCredentials executeAnnotationQuery req
        = obind (executeTimeSeriesQuery formatRFC3339 Encode toPreprocessorType
                   quoteQ run parseResponse req)
                (fun '(resp, err) => Ret (Some resp, err))
        /\ forall before query after queryType,
             Queries req = (before ++ query :: after)%list ->
             Forall recognized before -> unrecognized query queryType ->
             QueryData formatRFC3339 Encode toPreprocessorType quoteQ run
               parseResponse imGet FindDefaultCredentials
               executeAnnotationQuery req
             = Panic ("Unrecognized query type " ++ quoteQ queryType)).
Proof.
  assert (Hfirst : forall before query after queryType,
            Queries req = (before ++ query :: after)%list ->
            Forall recognized before -> unrecognized query queryType ->
            buildQueryExecutors formatRFC3339 Encode toPreprocessorType quoteQ req
            = Panic ("Unrecognized query type " ++ quoteQ queryType)).
  { intros before query after queryType Hq Hb Hu.
    unfold buildQueryExecutors. rewrite Hq.
    destruct (before ++ query :: after)%list as [|req0 rest] eqn:E.
    - destruct before; discriminate E.
    - rewrite <- E. now apply buildFrom_first_unrecognized. }
  split; [|split; [|split]].
  3:{ intros query mq Hraw Hmq.
      assert (Hq : queryModel query
                   = inr {| QueryType := metricQueryType; MetricQuery := mq;
                            SloQuery := {| slo_ProjectName := EmptyString;
                                           slo_AlignmentPeriod := EmptyString;
                                           slo_AliasBy := EmptyString;
                                           slo_SelectorName := EmptyString;
                                           slo_ServiceId := EmptyString;
                                           slo_SloId := EmptyString |} |}).
      { unfold queryModel. now rewrite Hraw, Hmq. }
      split; [|split].
      - eexists. split; [exact Hq|]. split; reflexivity.
      - eexists. split; [exact Hq|]. now left.
      - intros queryType (q & Hq' & Ht & Hm & _). rewrite Hq in Hq'.
        injection Hq' as <-. cbn in Ht. congruence. }
  3:{ intros req0 rest type dsInfo Hreq Htype Hann Hgce Hds.
      assert (Hroute :
        QueryData formatRFC3339 Encode toPreprocessorType quoteQ run
          parseResponse imGet FindDefaultCredentials executeAnnotationQuery req
        = obind (executeTimeSeriesQuery formatRFC3339 Encode toPreprocessorType
                   quoteQ run parseResponse req)
                (fun '(resp, err) => Ret (Some resp, err))).
      { unfold QueryData, getDSInfo. rewrite Hreq, Htype, Hds. cbn [obind].
        destruct (String.eqb_spec type "annotationQuery"); [contradiction|].
        destruct (String.eqb_spec type "getGCEDefaultProject"); [contradiction|].
        reflexivity. }
      split; [exact Hroute|].
      intros before query after queryType Hq Hb Hu. rewrite Hroute.
      unfold executeTimeSeriesQuery.
      now rewrite (Hfirst before query after queryType Hq Hb Hu). }
  - intros before query after queryType Hq Hb Hu.
    pose proof (Hfirst before query after queryType Hq Hb Hu) as Hbuild.
    split; [assumption|].
    unfold executeTimeSeriesQuery. now rewrite Hbuild.
  - intros query queryType Hin Hu.
    unfold executeTimeSeriesQuery, buildQueryExecutors.
    destruct (Queries req) as [|req0 rest] eqn:E; [inversion Hin|].
    destruct (buildFrom_no_executors req0 (req0 :: rest) []) as [[msg Hp]|[err Hr]].
    + apply Exists_exists. exists query. split; [assumption|eauto].
    + rewrite Hp. left. exists msg. split; reflexivity.
    + rewrite Hr. right. exists err. split; reflexivity.
Qed.

End Dispatch.

(** * Partial failure *)

Section PartialFailure.
Context {cloudMonitoringResponse : Type}.
Variable zeroResponse : cloudMonitoringResponse.
Variable jsonUnmarshal : string -> string + cloudMonitoringResponse.
Variable Do : cloudMonitoringQueryExecutor -> string + Response.
Variable rawQueryOf : cloudMonitoringQueryExecutor -> string.
Variable tabulate :
  cloudMonitoringQueryExecutor -> cloudMonitoringResponse -> string ->
  list Frame * option string.

Lemma runQueryExecutors_fold (executors : list cloudMonitoringQueryExecutor)
  (resp : gmap string DataResponse) :
  runQueryExecutors (run zeroResponse jsonUnmarshal Do rawQueryOf)
    (parseResponse tabulate) executors resp
  = (foldl (fun r e =>
              <[getRefID e :=
                  slotOf zeroResponse jsonUnmarshal Do rawQueryOf tabulate e]> r)
           resp executors, None).
Proof.
  revert resp. induction executors as [|e executors IH]; intros resp;
    [reflexivity|].
  cbn [runQueryExecutors foldl]. unfold run, parseResponse, slotOf, remoteResult.
  destruct (Do e) as [err|res].
  - cbn. destruct (tabulate e zeroResponse EmptyString) as [frames [perr|]];
      cbn; apply IH.
  - destruct (unmarshalResponse jsonUnmarshal res) as [err|data].
    + cbn. destruct (tabulate e zeroResponse EmptyString) as [frames [perr|]];
        cbn; apply IH.
    + cbn. destruct (tabulate e data (rawQueryOf e)) as [frames [perr|]];
        cbn; apply IH.
Qed.

Lemma foldl_insert_notin (slot : cloudMonitoringQueryExecutor -> DataResponse)
  (executors : list cloudMonitoringQueryExecutor)
  (resp : gmap string DataResponse) (k : string) :
  k ∉ map getRefID executors ->
  foldl (fun r e => <[getRefID e := slot e]> r) resp executors !! k = resp !! k.
Proof.
  revert resp. induction executors as [|e executors IH]; intros resp Hk;
    [reflexivity|].
  cbn [foldl]. cbn [map] in Hk. apply not_elem_of_cons in Hk as [Hne Hk].
  rewrite IH by assumption. now rewrite lookup_insert_ne.
Qed.

Lemma foldl_insert_in (slot : cloudMonitoringQueryExecutor -> DataResponse)
  (executors : list cloudMonitoringQueryExecutor)
  (resp : gmap string DataResponse) (e : cloudMonitoringQueryExecutor) :
  NoDup (map getRefID executors) -> e ∈ executors ->
  foldl (fun r e => <[getRefID e := slot e]> r) resp executors !! getRefID e
  = Some (slot e).
Proof.
  revert resp. induction executors as [|e' executors IH]; intros resp Hnd Hin.
  - inversion Hin.
  - cbn [map] in Hnd. apply NoDup_cons in Hnd as [Hnotin Hnd].
    cbn [foldl]. apply elem_of_cons in Hin as [->|Hin].
    + rewrite foldl_insert_notin by assumption. apply lookup_insert_eq.
    + apply IH; assumption.
Qed.

Lemma unmarshalResponse_cases (res : Response) :
  unmarshalResponse jsonUnmarshal res
  = match Body res with
    | inl err => inl err
    | inr body =>
        if StatusCode res ÷ 100 =? 2
        then match jsonUnmarshal body with
             | inl err => inl ("failed to unmarshal query response: " ++ err)
             | inr data => inr data
             end
        else inl ("query failed: " ++ body)
    end.
Proof.
  unfold unmarshalResponse. destruct (Body res); [reflexivity|].
  destruct (StatusCode res ÷ 100 =? 2); reflexivity.
Qed.

Variable formatRFC3339 : Z -> string.
Variable Encode : gmap string (list string) -> string.
Variable toPreprocessorType : string -> preprocessorType.
Variable quoteQ : string -> string.

(** C1.  For a batch whose queries are all translated into executors,
    with reference ids that differ, [executeTimeSeriesQuery] returns the
    response of the batch and no error.  In it, under the reference id of
    each query, stands the response of that query alone: when its remote
    call failed (transport error, unreadable body, status outside 2xx,
    body that is not JSON) the response carries an error, the message of
    the failure unless converting the empty reply itself fails; when its
    remote call succeeded the response holds the frames of its reply.  A
    failure of one query changes nothing in the responses of the others. *)
Theorem partial_failure (req : QueryDataRequest)
  (executors : list cloudMonitoringQueryExecutor) :
  buildQueryExecutors formatRFC3339 Encode toPreprocessorType quoteQ req
  = Ret (executors, None) ->
  NoDup (map getRefID executors) ->
  exists resp,
    executeTimeSeriesQuery formatRFC3339 Encode toPreprocessorType quoteQ
      (run zeroResponse jsonUnmarshal Do rawQueryOf) (parseResponse tabulate) req
    = Ret (resp, None)
    /\ forall e, e ∈ executors ->
         exists queryRes,
           resp !! getRefID e = Some queryRes
           /\ let failed (msg : string) :=
                Error queryRes
                = Some (default msg (snd (tabulate e zeroResponse EmptyString))) in
              match Do e with
              | inl err => failed err
              | inr res =>
                  match Body res with
                  | inl err => failed err
                  | inr body =>
                      if StatusCode res ÷ 100 =? 2
                      then match jsonUnmarshal body with
                           | inl err =>
                               failed ("failed to unmarshal query response: " ++ err)
                           | inr data =>
                               queryRes
                               = {| Frames := fst (tabulate e data (rawQueryOf e));
                                    Error := snd (tabulate e data (rawQueryOf e)) |}
                           end
                      else failed ("query failed: " ++ body)
                  end
              end.
Proof.
  intros Hbuild Hnd. eexists. split.
  - unfold executeTimeSeriesQuery. rewrite Hbuild. cbn [obind].
    rewrite runQueryExecutors_fold. reflexivity.
  - intros e He.
    exists (slotOf zeroResponse jsonUnmarshal Do rawQueryOf tabulate e).
    split; [now apply foldl_insert_in|].
    unfold slotOf, remoteResult. cbv zeta.
    destruct (Do e) as [err|res].
    { now destruct (tabulate e zeroResponse EmptyString). }
    rewrite unmarshalResponse_cases.
    destruct (Body res) as [err|body].
    { now destruct (tabulate e zeroResponse EmptyString). }
    destruct (StatusCode res ÷ 100 =? 2).
    + destruct (jsonUnmarshal body) as [err|data].
      * now destruct (tabulate e zeroResponse EmptyString).
      * now destruct (tabulate e data (rawQueryOf e)).
    + now destruct (tabulate e zeroResponse EmptyString).
Qed.

End PartialFailure.

(** * The remaining properties of the specification *)

(** C3.  For a query with preprocessor Rate or Delta, [setMetricAggParams]
    adds [ALIGN_RATE] or [ALIGN_DELTA] under
    [aggregation.perSeriesAligner], under [aggregation.crossSeriesReducer]
    the default reducer when there are no group-by fields and the user's
    reducer when there are, and under the [secondaryAggregation] keys the
    user's reducer, aligner and group-by fields; for a query without
    preprocessor it adds the user's reducer and aligner under the
    [aggregation] keys and nothing under the [secondaryAggregation] keys.
    A selection left empty counts as the default.  Under every key the
    values after the call are those before it followed by those of the
    table [aggParamsAdded]. *)
Theorem setMetricAggParams_stages (params : gmap string (list string))
  (query : metricQuery) (durationSeconds intervalMs : Z) :
  let added := valuesIn (aggParamsAdded query durationSeconds intervalMs) in
  let reducer := orDefault (mq_CrossSeriesReducer query) crossSeriesReducerDefault in
  let aligner := orDefault (mq_PerSeriesAligner query) perSeriesAlignerDefault in
  (forall key,
      valuesOf (fst (setMetricAggParams params query durationSeconds intervalMs)) key
      = (valuesOf params key ++ added key)%list)
  /\ match mq_PreprocessorType query with
     | PreprocessorTypeNone =>
         added "aggregation.crossSeriesReducer" = [reducer]
         /\ added "aggregation.perSeriesAligner" = [aligner]
         /\ added "secondaryAggregation.crossSeriesReducer" = []
         /\ added "secondaryAggregation.perSeriesAligner" = []
         /\ added "secondaryAggregation.alignmentPeriod" = []
         /\ added "secondaryAggregation.groupByFields" = []
     | preprocessor =>
         added "aggregation.perSeriesAligner"
         = [match preprocessor with
            | PreprocessorTypeDelta => "ALIGN_DELTA"
            | _ => "ALIGN_RATE"
            end]
         /\ added "aggregation.crossSeriesReducer"
            = [match mq_GroupBys query with
               | [] => crossSeriesReducerDefault
               | _ => reducer
               end]
         /\ added "secondaryAggregation.crossSeriesReducer" = [reducer]
         /\ added "secondaryAggregation.perSeriesAligner" = [aligner]
         /\ added "secondaryAggregation.groupByFields" = mq_GroupBys query
     end
  /\ orDefault "REDUCE_SUM" crossSeriesReducerDefault = "REDUCE_SUM"
  /\ orDefault EmptyString crossSeriesReducerDefault = "REDUCE_NONE".
Proof.
  cbv zeta. split; [intros key; apply setMetricAggParams_adds|].
  split; [|split; reflexivity].
  unfold valuesIn, aggParamsAdded.
  destruct (mq_PreprocessorType query);
    cbn [flat_map fst snd String.eqb Ascii.eqb Bool.eqb andb app];
    rewrite ?app_nil_r; repeat split.
Qed.

Lemma ReplaceAllFunc_ext (r : regexp.regex) (f g : string -> string)
  (s : string) :
  (forall x, f x = g x) ->
  regexp.ReplaceAllFunc r s f = regexp.ReplaceAllFunc r s g.
Proof.
  intros Hfg. unfold regexp.ReplaceAllFunc. generalize 0%nat.
  induction s as [|a s IH]; intros skip; [reflexivity|].
  cbn [regexp.replaceAllFrom]. destruct skip as [|skip]; [|apply IH].
  destruct (regexp.matchPrefix r (String a s)) as [[m c]|];
    [|now rewrite IH].
  destruct (String.length m); now rewrite ?Hfg, IH.
Qed.

(** C7.  Without alias template [formatLegendKeys] returns the default
    metric name.  With one, every match of the placeholder pattern is
    replaced by what its name (the text between the braces, trimmed)
    resolves to, the first of: the metric type for [metric.type]; the
    name or the service parsed from the metric type for [metric.name] and
    [metric.service]; the label of that name; the additional label of that
    name; the project, service, SLO or selector of the query when it is
    not empty; a placeholder no rule resolves stays as it is.  The name
    is what [strings.TrimSpace] leaves of the text between the braces:
    white space as Unicode has it is cut at both ends.  In
    particular a template that starts with text free of opening braces
    followed by a plain placeholder [{{ name }}], whose name has no white
    space at its ends, becomes that text, the
    value of [name], and the rest of the template formatted the same way.
    A metric type [<service>.<domain>/<name>] with the domain
    [googleapis.com] or [io] gives [<name>] and [<service>].  The
    example of the specification gives ["my_metric on a"], and a name
    between two no-break spaces is looked up without them. *)
Theorem formatLegendKeys_placeholders (metricType defaultMetricName : string)
  (labels additionalLabels : gmap string string)
  (query : cloudMonitoringTimeSeriesFilter) :
  (tsf_AliasBy query = EmptyString ->
   formatLegendKeys metricType defaultMetricName labels additionalLabels query
   = defaultMetricName)
  /\ (tsf_AliasBy query <> EmptyString ->
      formatLegendKeys metricType defaultMetricName labels additionalLabels query
      = regexp.ReplaceAllFunc legendKeyFormat (tsf_AliasBy query)
          (fun _in =>
             default _in
               (placeholderValue metricType labels additionalLabels query
                  (metaPartNameOf _in))))
  /\ (forall text ws1 ws2 n0 name' post,
        allBytes notOpening text = true ->
        allBytes isBlank ws1 = true -> allBytes isBlank ws2 = true ->
        isNameByte n0 = true -> allBytes isNameByte name' = true ->
        strings.TrimSpace (String n0 name') = String n0 name' ->
        tsf_AliasBy query
        = text ++ placeholderOf ws1 (String n0 name') ws2 ++ post ->
        formatLegendKeys metricType defaultMetricName labels additionalLabels query
        = text
          ++ default (placeholderOf ws1 (String n0 name') ws2)
               (placeholderValue metricType labels additionalLabels query
                  (String n0 name'))
          ++ regexp.ReplaceAllFunc legendKeyFormat post
               (legendReplacement metricType labels additionalLabels query))
  /\ (forall s0 service' domain m0 name',
        isWord s0 = true -> allBytes isWord service' = true ->
        isMetricDomain domain = true ->
        notNewline m0 = true -> allBytes notNewline name' = true ->
        metricType = metricTypeOf (String s0 service') domain (String m0 name') ->
        placeholderValue metricType labels additionalLabels query "metric.name"
        = Some (String m0 name')
        /\ placeholderValue metricType labels additionalLabels query
             "metric.service"
           = Some (String s0 service'))
  /\ formatLegendKeys "custom.googleapis.com/my_metric" "default"
       {[ "instance" := "a" ]} ∅ exampleAliasQuery
     = "my_metric on a"
  /\ formatLegendKeys "custom.googleapis.com/my_metric" "default"
       {[ "instance" := "a" ]} ∅ nbspAliasQuery
     = "a".
Proof.
  split; [|split; [|split; [|split; [|split; vm_compute; reflexivity]]]].
  - intros Ha. unfold formatLegendKeys. now rewrite Ha.
  - intros Ha. unfold formatLegendKeys.
    destruct (String.eqb_spec (tsf_AliasBy query) EmptyString); [contradiction|].
    apply ReplaceAllFunc_ext, legendReplacement_priority.
  - intros text ws1 ws2 n0 name' post Ht H1 H2 Hn0 Hn Htrim Ha.
    unfold formatLegendKeys. rewrite Ha.
    assert (Hne : String.eqb
                    (text ++ placeholderOf ws1 (String n0 name') ws2 ++ post)
                    EmptyString = false).
    { destruct text; reflexivity. }
    rewrite Hne. unfold placeholderOf.
    rewrite <- append_assoc, append_assoc.
    rewrite ReplaceAllFunc_placeholder by assumption.
    rewrite legendReplacement_priority, metaPartNameOf_placeholder by assumption.
    reflexivity.
  - intros s0 service' domain m0 name' Hs0 Hs Hd Hm0 Hm ->.
    unfold placeholderValue.
    destruct (replaceWithMetricPart_convention s0 service' domain m0 name')
      as [-> ->]; try assumption.
    split; reflexivity.
Qed.

(** C9.  On the frames of a parsed result, which have a time and a value
    field and so at least two fields,
    [addConfigData] returns as many frames; in each only the field at
    index 1, the value field, changes: its links get one more, titled
    [View in Metrics Explorer], opening in a new tab, to the given URL; and
    its unit becomes the code the mapping table has for the declared unit,
    and stays what it was when the table has none (or no unit is
    declared).  The table maps [bit] to [bits], [%] to [percent] and
    [By/s] to [Bps]. *)
Theorem addConfigData_attaches (frames : list Frame) (dl unit : string) :
  Forall (fun frame => (2 <= length (Fields frame))%nat) frames ->
  (exists frames',
      addConfigData frames dl unit = Ret frames'
      /\ length frames' = length frames
      /\ forall i frame, frames !! i = Some frame ->
           exists frame' value value',
             frames' !! i = Some frame'
             /\ Fields frame !! 1%nat = Some value
             /\ Fields frame' = <[1%nat := value']> (Fields frame)
             /\ frm_Name frame' = frm_Name frame
             /\ fld_Name value' = fld_Name value
             /\ Links (configOf value')
                = (Links (configOf value) ++ [deepLinkTo dl])%list
             /\ Unit (configOf value')
                = match cloudMonitoringUnitMappings !! unit with
                  | Some code => code
                  | None => Unit (configOf value)
                  end)
  /\ cloudMonitoringUnitMappings !! "bit" = Some "bits"
  /\ cloudMonitoringUnitMappings !! "%" = Some "percent"
  /\ cloudMonitoringUnitMappings !! "By/s" = Some "Bps".
Proof.
  intros Hlen. split; [|repeat split; vm_compute; reflexivity].
  destruct (addConfigData_spec dl unit frames Hlen) as (frames' & Hr & Hl & Hi).
  exists frames'. split; [assumption|]. split; [assumption|].
  intros i frame Hf. destruct (Hi i frame Hf) as (value & Hv & Hf').
  destruct (addConfigToField_spec dl unit value) as (Hname & Hlinks & Hunit).
  eexists _, value, (addConfigToField dl unit value).
  split; [exact Hf'|]. repeat split; assumption.
Qed.

(** * Instances and counterexamples *)

(** [partial_failure] on a batch of three queries whose second one gets a
    status 500: the first and the third hold their frames and no error, the
    second holds the error and nothing else. *)
Lemma partial_failure_three_queries :
  exists resp,
    exampleExecute threeQueries = Ret (resp, None)
    /\ resp !! "A" = Some {| Frames := [exampleFrame]; Error := None |}
    /\ resp !! "B" = Some {| Frames := []; Error := Some "query failed: boom" |}
    /\ resp !! "C" = Some {| Frames := [exampleFrame]; Error := None |}.
Proof.
  assert (Hbuild : exampleBuild threeQueries = Ret (exampleExecutors, None))
    by (vm_compute; reflexivity).
  assert (Hrefs : map getRefID exampleExecutors = ["A"; "B"; "C"])
    by (vm_compute; reflexivity).
  assert (Hnd : NoDup (map getRefID exampleExecutors)).
  { rewrite Hrefs. apply (bool_decide_unpack _). vm_compute. exact I. }
  unfold exampleBuild in Hbuild.
  pose proof (partial_failure ([] : list string) exampleUnmarshal exampleDo
                exampleRawQuery exampleTabulate exampleRFC3339 exampleEncode
                examplePreprocessorType exampleQuote threeQueries
                exampleExecutors Hbuild Hnd) as Hpf.
  destruct Hpf as (resp & Hexec & _).
  exists resp. split; [exact Hexec|].
  assert (Hall : exampleExecute threeQueries
                 = Ret (match exampleExecute threeQueries with
                        | Ret (r, _) => r
                        | Panic _ => ∅
                        end, None)) by (vm_compute; reflexivity).
  unfold exampleExecute in Hall at 1.
  rewrite Hexec in Hall.
  injection Hall as ->.
  repeat split; vm_compute; reflexivity.
Defined.

(** A payload in the legacy layout that declares the query type [bogus] is
    run as a metric query, and a first query of the unknown top-level type
    [nonsense] takes the time-series path: the batch returns the frames of
    the query and no error. *)
Lemma unrecognized_type_runs_as_metrics :
  (exists query,
      Queries bogusLegacy = [query] /\ declaredQueryType query = Some "bogus"
      /\ asQueryModel (JSON query) = inr "nonsense")
  /\ (exists f, exampleBuild bogusLegacy = Ret ([FilterExecutor f], None))
  /\ (exists resp,
        exampleExecute bogusLegacy = Ret (resp, None)
        /\ exampleQueryData bogusLegacy = Ret (Some resp, None)
        /\ resp !! "A" = Some {| Frames := [exampleFrame]; Error := None |}).
Proof.
  split; [|split].
  - eexists. repeat split.
  - eexists. vm_compute. reflexivity.
  - eexists. split; [vm_compute; reflexivity|].
    split; vm_compute; reflexivity.
Qed.

(** [unrecognized_query_type] on a batch whose second query has the type
    [bogus]. *)
Lemma unrecognized_query_type_second :
  exampleBuild bogusSecond
  = Panic ("Unrecognized query type " ++ exampleQuote "bogus")
  /\ exampleExecute bogusSecond
     = Panic ("Unrecognized query type " ++ exampleQuote "bogus")
  /\ exampleQueryData bogusSecond
     = Panic ("Unrecognized query type " ++ exampleQuote "bogus").
Proof.
  pose (A := exampleDataQuery "A"
               (structuredPayload "timeSeriesQuery" "metrics" cpuQuery)).
  pose (B := exampleDataQuery "B"
               (structuredPayload "timeSeriesQuery" "bogus" cpuQuery)).
  pose (C := exampleDataQuery "C"
               (structuredPayload "timeSeriesQuery" "slo" cpuQuery)).
  assert (Hknown : Forall recognized [A]).
  { repeat constructor. eexists. split; [reflexivity|]. left. reflexivity. }
  assert (Hbogus : unrecognized B "bogus").
  { eexists. split; [reflexivity|]. split; [reflexivity|]. split; discriminate. }
  destruct (unrecognized_query_type exampleRFC3339 exampleEncode
              examplePreprocessorType exampleQuote
              (run ([] : list string) exampleUnmarshal exampleDo exampleRawQuery)
              (parseResponse exampleTabulate)
              (Ret (inr (Some {| dsi_url := EmptyString;
                                 dsi_authenticationType := jwtAuthentication;
                                 dsi_defaultProject := "proj" |})))
              (inl "no default credentials")
              (fun _ _ => (None, Some "annotations are not part of the example"))
              bogusSecond)
    as (Hfirst & _ & _ & Hroute).
  destruct (Hfirst [A] B [C] "bogus" eq_refl Hknown Hbogus) as [Hbuild Hexec].
  destruct (Hroute A [B; C] "timeSeriesQuery" _ eq_refl eq_refl
              ltac:(discriminate) ltac:(discriminate) eq_refl) as [_ Hpanic].
  split; [exact Hbuild|]. split; [exact Hexec|].
  exact (Hpanic [A] B [C] "bogus" eq_refl Hknown Hbogus).
Defined.


(** The empty specification is not returned unchanged. *)
Lemma calculateAlignmentPeriod_empty_spec :
  calculateAlignmentPeriod EmptyString 15000 3600 = "+60s"
  /\ calculateAlignmentPeriod EmptyString 15000 3600 <> EmptyString.
Proof. split; [reflexivity | discriminate]. Qed.

(** A value without asterisk is not quoted after [=~], and is not rendered
    at all when it is the word [AND]. *)
Lemma literal_value_not_quoted :
  buildFilterString "m" ["k"; "=~"; "abc"]
  = Ret ("metric.type=" ++ dquote ++ "m" ++ dquote
         ++ " k=monitoring.regex.full_match(" ++ dquote ++ "abc" ++ dquote ++ ")")
  /\ buildFilterString "m" ["k"; "="; "AND"]
     = Ret ("metric.type=" ++ dquote ++ "m" ++ dquote ++ " k=").
Proof. split; vm_compute; reflexivity. Qed.

(** [formatLegendKeys_placeholders] on the template of the example: the
    first placeholder is replaced by the name parsed from the metric type. *)
Lemma formatLegendKeys_example :
  formatLegendKeys "custom.googleapis.com/my_metric" "default"
    {[ "instance" := "a" ]} ∅ exampleAliasQuery
  = "my_metric"
    ++ regexp.ReplaceAllFunc legendKeyFormat " on {{instance}}"
         (legendReplacement "custom.googleapis.com/my_metric"
            {[ "instance" := "a" ]} ∅ exampleAliasQuery).
Proof.
  destruct (formatLegendKeys_placeholders "custom.googleapis.com/my_metric"
              "default" {[ "instance" := "a" ]} ∅ exampleAliasQuery)
    as (_ & _ & Hplain & Hparts & _ & _).
  rewrite (Hplain EmptyString EmptyString EmptyString "m"%char "etric.name"
             " on {{instance}}" eq_refl eq_refl eq_refl eq_refl eq_refl eq_refl
             eq_refl).
  destruct (Hparts "c"%char "ustom" "googleapis.com" "m"%char "y_metric"
              eq_refl eq_refl eq_refl eq_refl eq_refl eq_refl) as [-> _].
  reflexivity.
Defined.



(** [calcBucketBound_explicit_range] on three explicit bounds. *)
Lemma calcBucketBound_explicit_example :
  calcBucketBound formatWhole explicitExample 2 = Ret "10"
  /\ calcBucketBound formatWhole explicitExample 3 = Panic "index out of range".
Proof.
  split.
  - destruct (calcBucketBound_explicit_range formatWhole explicitExample
                {| Bounds := [1%Q; 5%Q; 10%Q] |} 2 eq_refl eq_refl eq_refl)
      as [Hin _].
    destruct (Hin ltac:(simpl; lia)) as (b & Hb & ->).
    injection Hb as <-. reflexivity.
  - destruct (calcBucketBound_explicit_range formatWhole explicitExample
                {| Bounds := [1%Q; 5%Q; 10%Q] |} 3 eq_refl eq_refl eq_refl)
      as [_ Hout].
    apply Hout; simpl; lia.
Defined.

(** [addConfigData_attaches] on two frames and the unit [By/s]. *)
Lemma addConfigData_example :
  exists frames',
    addConfigData [exampleFrame; exampleFrame]
      "https://console.example/metrics" "By/s" = Ret frames'
    /\ length frames' = 2%nat.
Proof.
  destruct (addConfigData_attaches [exampleFrame; exampleFrame]
              "https://console.example/metrics" "By/s")
    as [(frames' & Hr & Hl & _) _].
  - repeat constructor.
  - exists frames'. split; assumption.
Defined.

(** * The filter builder on whole filters *)

Lemma filterStep_extend (parts extra : list string) (acc : string) (i : nat)
  (part : string) :
  (i < length parts)%nat ->
  filterStep (parts ++ extra) acc i part = filterStep parts acc i part.
Proof.
  intros Hi. unfold filterStep.
  rewrite (lookup_app_l parts extra (i - 1)) by lia. reflexivity.
Qed.

Lemma filterLoop_extend (parts extra rest : list string) (i : nat) (acc : string) :
  (i + length rest <= length parts)%nat ->
  filterLoop (parts ++ extra) i rest acc = filterLoop parts i rest acc.
Proof.
  revert i acc. induction rest as [|p rest IH]; intros i acc Hlen; [reflexivity|].
  cbn [filterLoop length] in *. rewrite filterStep_extend by lia.
  destruct (filterStep parts acc i p) as [fs|msg]; cbn [obind]; [|reflexivity].
  apply IH. lia.
Qed.

Lemma filterLoop_connectors (parts : list string) (k i : nat) (acc : string) :
  filterLoop parts i (replicate k "AND") acc
  = Ret (acc ++ string_of_list_ascii (replicate k " "%char)).
Proof.
  revert i acc. induction k as [|k IH]; intros i acc; cbn [replicate filterLoop].
  - now rewrite append_nil_r.
  - unfold filterStep at 1. cbn [String.eqb Ascii.eqb Bool.eqb andb obind].
    rewrite IH, append_assoc. reflexivity.
Qed.

Lemma trimRightFunc_app_all (f : ascii -> bool) (s u : string) :
  allBytes f u = true ->
  strings.trimRightFunc f (s ++ u) = strings.trimRightFunc f s.
Proof.
  intros Hu. induction s as [|a s IH].
  - rewrite append_nil_l. now apply trimRightFunc_all.
  - rewrite append_cons. cbn [strings.trimRightFunc]. now rewrite IH.
Qed.

Lemma allBytes_spaces (k : nat) :
  allBytes (strings.inCutset " ") (string_of_list_ascii (replicate k " "%char)) = true.
Proof. induction k as [|k IH]; [reflexivity|]. cbn. exact IH. Qed.

Lemma trimRightFunc_endsOutside (f : ascii -> bool) (s : string) :
  endsOutside f (strings.trimRightFunc f s) = true.
Proof.
  induction s as [|a s IH]; [reflexivity|].
  cbn [strings.trimRightFunc].
  destruct (strings.trimRightFunc f s) as [|b t] eqn:E.
  - destruct (f a) eqn:Ha; cbn; [reflexivity | now rewrite Ha].
  - exact IH.
Qed.

Lemma trimRightFunc_id (f : ascii -> bool) (s : string) :
  s <> EmptyString -> endsOutside f s = true -> strings.trimRightFunc f s = s.
Proof.
  induction s as [|a s IH]; [contradiction|]. intros _ He.
  destruct s as [|b s].
  - cbn in *. apply negb_true_iff in He. now rewrite He.
  - cbn [strings.trimRightFunc] in *. rewrite IH; [reflexivity | discriminate | exact He].
Qed.

Lemma endsOutside_app (f : ascii -> bool) (s t : string) :
  t <> EmptyString -> endsOutside f (s ++ t) = endsOutside f t.
Proof.
  intros Ht. induction s as [|a s IH]; [reflexivity|].
  rewrite append_cons. cbn [endsOutside].
  destruct (s ++ t) as [|b u] eqn:E.
  - destruct s; [rewrite append_nil_l in E; contradiction | discriminate E].
  - exact IH.
Qed.

(** The text sent to [strings.Trim] starts with [m], so nothing is cut at
    the left. *)
Lemma Trim_filter (metricType fs : string) :
  strings.Trim ("metric.type=" ++ dquote ++ metricType ++ dquote ++ " " ++ fs) " "
  = strings.trimRightFunc (strings.inCutset " ")
      ("metric.type=" ++ dquote ++ metricType ++ dquote ++ " " ++ fs).
Proof. reflexivity. Qed.

(** X1.  For every metric type and every list of tokens [buildFilterString]
    returns: the token before a value, [filterParts[i-1]], is only read at
    a position 2 modulo 4, where it exists.  The filter it returns does not
    end with a space. *)
Theorem buildFilterString_total (metricType : string) (filterParts : list string) :
  exists filter,
    buildFilterString metricType filterParts = Ret filter
    /\ endsOutside (strings.inCutset " ") filter = true.
Proof.
  unfold buildFilterString.
  destruct (filterLoop_returns filterParts filterParts 0 EmptyString) as [fs ->];
    [simpl; lia|].
  cbn [obind]. eexists. split; [reflexivity|].
  rewrite Trim_filter. apply trimRightFunc_endsOutside.
Qed.

(** X2.  Tokens [AND] at the end of the list do not change the filter: each
    adds a space, and the spaces at the end are trimmed. *)
Theorem buildFilterString_trailing_AND (metricType : string)
  (filterParts : list string) (k : nat) :
  buildFilterString metricType (filterParts ++ replicate k "AND")
  = buildFilterString metricType filterParts.
Proof.
  unfold buildFilterString.
  rewrite filterLoop_app, filterLoop_extend by (simpl; lia).
  destruct (filterLoop_returns filterParts filterParts 0 EmptyString) as [fs ->];
    [simpl; lia|].
  cbn [obind]. rewrite filterLoop_connectors. cbn [obind].
  rewrite !Trim_filter. f_equal.
  rewrite <- !append_assoc.
  apply trimRightFunc_app_all, allBytes_spaces.
Qed.

Lemma mod4 (q r : nat) : (r < 4)%nat -> ((4 * q + r) mod 4 = r)%nat.
Proof.
  intros Hr. rewrite Nat.add_comm, Nat.mul_comm, Nat.Div0.mod_add.
  now apply Nat.mod_small.
Qed.

Lemma filterStep_plain (parts : list string) (acc : string) (i : nat)
  (part : string) :
  (i mod 4 <> 2)%nat -> part <> "AND" ->
  filterStep parts acc i part = Ret (acc ++ part).
Proof.
  intros Hm Hp. unfold filterStep.
  destruct (String.eqb_spec part "AND") as [|_]; [contradiction|].
  destruct (Nat.eqb_spec (i mod 4) 2) as [|_]; [contradiction|]. reflexivity.
Qed.

Lemma filterStep_AND (parts : list string) (acc : string) (i : nat) :
  filterStep parts acc i "AND" = Ret (acc ++ " ").
Proof. reflexivity. Qed.

(** The three tokens of a condition, met at a position that is a multiple
    of four. *)
Lemma filterLoop_condition (parts pre rest : list string) (q : nat)
  (key operator value acc : string) :
  parts = (pre ++ key :: operator :: value :: rest)%list ->
  length pre = (4 * q)%nat ->
  plainCondition (key, operator, value) ->
  filterLoop parts (length pre) (key :: operator :: value :: rest) acc
  = filterLoop parts (length pre + 3) rest
      (acc ++ renderCondition (key, operator, value)).
Proof.
  intros Hparts Hq (Hk & Ho & Hv).
  assert (Hop : parts !! (length pre + 1)%nat = Some operator).
  { rewrite Hparts, lookup_app_r by lia.
    now replace (length pre + 1 - length pre)%nat with 1%nat by lia. }
  cbn [filterLoop].
  rewrite filterStep_plain; [|rewrite Hq, <- (Nat.add_0_r (4 * q)), mod4; lia|assumption].
  cbn [obind].
  rewrite filterStep_plain;
    [|replace (S (length pre)) with (4 * q + 1)%nat by lia; rewrite mod4; lia|assumption].
  cbn [obind].
  rewrite (filterStep_value parts _ (S (S (length pre))) operator value);
    [|replace (S (S (length pre))) with (4 * q + 2)%nat by lia; apply mod4; lia
     |assumption
     |now replace (S (S (length pre)) - 1)%nat with (length pre + 1)%nat by lia].
  replace (S (S (S (length pre)))) with (length pre + 3)%nat by lia.
  unfold renderCondition.
  destruct (String.eqb_spec operator "=~") as [->|N1]; cbn [orb].
  { cbn [obind]. change "=~" with ("=" ++ "~").
    rewrite <- !append_assoc, remove_last. reflexivity. }
  destruct (String.eqb_spec operator "!=~") as [->|N2]; cbn [orb].
  { cbn [obind]. change "!=~" with ("!=" ++ "~").
    rewrite <- !append_assoc, remove_last. reflexivity. }
  destruct (strings.Contains value "*"); cbn [obind];
    now rewrite !append_assoc.
Qed.

Lemma filterLoop_conditions (parts pre : list string) (q : nat)
  (conditions : list (string * string * string)) (acc : string) :
  parts = (pre ++ filterTokens conditions)%list ->
  length pre = (4 * q)%nat ->
  Forall plainCondition conditions ->
  filterLoop parts (length pre) (filterTokens conditions) acc
  = Ret (acc ++ match conditions with
                | [] => EmptyString
                | condition :: rest =>
                    renderCondition condition ++ renderConditions rest
                end).
Proof.
  intros Hparts Hq Hall. revert pre q acc Hparts Hq.
  induction Hall as [|[[key operator] value] rest Hc Hrest IH];
    intros pre q acc Hparts Hq.
  - cbn. now rewrite append_nil_r.
  - cbn [filterTokens] in *.
    rewrite (filterLoop_condition parts pre _ q key operator value acc Hparts Hq Hc).
    destruct rest as [|condition rest'].
    + cbn [filterLoop renderConditions]. now rewrite append_nil_r.
    + set (tail := filterTokens (condition :: rest')) in *.
      cbn [filterLoop]. rewrite filterStep_AND. cbn [obind].
      specialize (IH (pre ++ [key; operator; value; "AND"])%list (S q)
                     ((acc ++ renderCondition (key, operator, value)) ++ " ")).
      rewrite length_app in IH. cbn [length] in IH.
      replace (S (length pre + 3)) with (length pre + 4)%nat by lia.
      rewrite IH.
      * cbn [renderConditions]. now rewrite !append_assoc.
      * rewrite Hparts, <- app_assoc. reflexivity.
      * lia.
Qed.

Lemma interpolate_closes (value : string) :
  strings.Contains value "*" = true ->
  exists p, interpolateFilterWildcards value = p ++ ")".
Proof.
  intros Hc. unfold interpolateFilterWildcards.
  destruct (_ && _ && _); [eexists; rewrite <- !append_assoc; reflexivity|].
  destruct (_ && _); [eexists; rewrite <- !append_assoc; reflexivity|].
  destruct (_ && _); [eexists; rewrite <- !append_assoc; reflexivity|].
  destruct (Z.eqb_spec (strings.Count value "*") 0) as [E|_].
  - rewrite (Contains_false _ E) in Hc. discriminate Hc.
  - cbn [negb]. eexists. rewrite <- !append_assoc. reflexivity.
Qed.

Lemma renderCondition_end (condition : string * string * string) :
  exists p a, renderCondition condition = p ++ String a EmptyString
              /\ strings.inCutset " " a = false.
Proof.
  destruct condition as [[key operator] value]. unfold renderCondition.
  destruct (String.eqb operator "=~").
  { exists (key ++ "=" ++ "monitoring.regex.full_match(" ++ dquote ++ value ++ dquote), ")"%char.
    split; [now rewrite !append_assoc | reflexivity]. }
  destruct (String.eqb operator "!=~").
  { exists (key ++ "!=" ++ "monitoring.regex.full_match(" ++ dquote ++ value ++ dquote), ")"%char.
    split; [now rewrite !append_assoc | reflexivity]. }
  destruct (strings.Contains value "*") eqn:Hc.
  - destruct (interpolate_closes value Hc) as [p ->].
    exists (key ++ operator ++ p), ")"%char.
    split; [now rewrite !append_assoc | reflexivity].
  - exists (key ++ operator ++ dquote ++ value), "034"%char.
    split; [now rewrite !append_assoc | reflexivity].
Qed.

Lemma renderConditions_end (conditions : list (string * string * string)) :
  conditions <> [] ->
  exists p a, renderConditions conditions = p ++ String a EmptyString
              /\ strings.inCutset " " a = false.
Proof.
  induction conditions as [|condition rest IH]; [contradiction|]. intros _.
  cbn [renderConditions]. destruct rest as [|c rest'].
  - destruct (renderCondition_end condition) as (p & a & -> & Ha).
    exists (" " ++ p), a. cbn [renderConditions].
    split; [now rewrite append_nil_r, !append_assoc | assumption].
  - destruct IH as (p & a & -> & Ha); [discriminate|].
    exists (" " ++ renderCondition condition ++ p), a.
    split; [now rewrite !append_assoc | assumption].
Qed.

(** X3.  For conditions (key, operator, value), none of them the word
    [AND], given as their tokens with [AND] between two conditions, the
    filter is the metric type clause and then, after a space each, the
    conditions as [renderCondition] has them: [key=] or [key!=] and
    [monitoring.regex.full_match("value")] after [=~] and [!=~], the key,
    the operator and [interpolateFilterWildcards value] for a value with
    an asterisk, and the key, the operator and the quoted value
    otherwise. *)
Theorem buildFilterString_conditions (metricType : string)
  (conditions : list (string * string * string)) :
  Forall plainCondition conditions ->
  buildFilterString metricType (filterTokens conditions)
  = Ret (metricTypeClause metricType ++ renderConditions conditions).
Proof.
  intros Hall. unfold buildFilterString.
  pose proof (filterLoop_conditions (filterTokens conditions) [] 0 conditions
                EmptyString eq_refl eq_refl Hall) as Hloop.
  cbn [length] in Hloop. rewrite Hloop. cbn [obind]. rewrite append_nil_l.
  f_equal. destruct conditions as [|condition rest].
  - cbn [renderConditions]. rewrite (append_nil_r (metricTypeClause metricType)).
    exact (Trim_metricTypeClause_only metricType).
  - rewrite Trim_filter.
    change (" " ++ renderCondition condition ++ renderConditions rest)
      with (renderConditions (condition :: rest)).
    destruct (renderConditions_end (condition :: rest)) as (p & a & -> & Ha);
      [discriminate|].
    unfold metricTypeClause. rewrite <- !append_assoc.
    apply trimRightFunc_id.
    + destruct metricType; discriminate.
    + rewrite endsOutside_app by discriminate. cbn [endsOutside]. now rewrite Ha.
Qed.

(** * Values in the filter *)

(** What [strings.Trim] cuts at the end of a string is bytes of the
    cutset. *)
Lemma trimRightFunc_cut (f : ascii -> bool) (s : string) :
  exists cut, allBytes f cut = true /\ s = strings.trimRightFunc f s ++ cut.
Proof.
  induction s as [|a s (cut & Hcut & Hs)].
  - exists EmptyString. now split.
  - cbn [strings.trimRightFunc].
    destruct (strings.trimRightFunc f s) as [|b t] eqn:E.
    + rewrite append_nil_l in Hs. subst cut.
      destruct (f a) eqn:Ha.
      * exists (String a s). cbn [allBytes]. now rewrite Ha, Hcut.
      * exists s. now split.
    + exists cut. split; [assumption|]. now rewrite Hs at 1.
Qed.

Lemma append_same (s t : string) : s ++ t = s -> t = EmptyString.
Proof.
  intros H. apply (f_equal String.length) in H. rewrite length_append in H.
  destruct t; [reflexivity | cbn in H; lia].
Qed.

Lemma S_mod4 (j : nat) : (j mod 4 = 2)%nat -> (S j mod 4 = 3)%nat.
Proof.
  intros Hj. rewrite (Nat.div_mod_eq j 4), Hj.
  replace (S (4 * (j / 4) + 2)) with (4 * (j / 4) + 3)%nat by lia.
  apply mod4. lia.
Qed.

(** The loop, resumed after some tokens, leaves the text built from them
    in place: a tilde it removes is that of an operator met since. *)
Lemma filterLoop_keeps (parts : list string) (acc0 : string) (n : nat) :
  forall (j : nat) (t : string),
    (j + n = length parts)%nat ->
    ((j mod 4 = 2)%nat ->
     forall op, parts !! (j - 1)%nat = Some op -> op <> "AND" ->
                exists t', t = t' ++ op) ->
    exists t', filterLoop parts j (drop j parts) (acc0 ++ t) = Ret (acc0 ++ t').
Proof.
  induction n as [|n IH]; intros j t Hj Hinv.
  - rewrite drop_ge by lia. cbn [filterLoop]. eauto.
  - destruct (lookup_lt_is_Some_2 parts j ltac:(lia)) as [p Hp].
    rewrite (drop_S _ _ _ Hp). cbn [filterLoop].
    destruct (String.eqb_spec p "AND") as [->|Hand].
    { rewrite filterStep_AND. cbn [obind]. rewrite append_assoc.
      apply IH; [lia|]. intros _ op Hop Hne.
      replace (S j - 1)%nat with j in Hop by lia. congruence. }
    destruct (Nat.eq_dec (j mod 4)%nat 2%nat) as [Hm|Hm].
    + assert (Hj1 : (j - 1 < length parts)%nat) by lia.
      destruct (lookup_lt_is_Some_2 parts (j - 1) Hj1) as [op Hop].
      rewrite (filterStep_value _ _ _ _ _ Hm Hand Hop).
      assert (Hnext : (S j mod 4 = 2)%nat ->
                forall op' : string, parts !! (S j - 1)%nat = Some op' ->
                  op' <> "AND" -> exists t' : string, EmptyString = t' ++ op').
      { intros H3. rewrite (S_mod4 j Hm) in H3. discriminate H3. }
      destruct (String.eqb_spec op "=~") as [E1|N1];
        [|destruct (String.eqb_spec op "!=~") as [E2|N2]]; cbn [orb obind].
      * destruct (Hinv Hm op Hop ltac:(subst op; discriminate)) as [t' ->].
        subst op. change "=~" with ("=" ++ "~").
        rewrite <- (append_assoc t' "=" "~"), <- (append_assoc acc0 _ "~").
        rewrite remove_last, !append_assoc.
        apply IH; [lia|]. intros H3. rewrite (S_mod4 j Hm) in H3. discriminate H3.
      * destruct (Hinv Hm op Hop ltac:(subst op; discriminate)) as [t' ->].
        subst op. change "!=~" with ("!=" ++ "~").
        rewrite <- (append_assoc t' "!=" "~"), <- (append_assoc acc0 _ "~").
        rewrite remove_last, !append_assoc.
        apply IH; [lia|]. intros H3. rewrite (S_mod4 j Hm) in H3. discriminate H3.
      * destruct (strings.Contains p "*"); cbn [obind]; rewrite append_assoc;
          (apply IH; [lia|]); intros H3; rewrite (S_mod4 j Hm) in H3;
          discriminate H3.
    + rewrite (filterStep_plain _ _ _ _ Hm Hand). cbn [obind].
      rewrite append_assoc. apply IH; [lia|].
      intros _ op Hop _. replace (S j - 1)%nat with j in Hop by lia.
      exists t. congruence.
Qed.

(** The value token at [i] in the filter: the text of the loop before it
    and with it, the filter built from the tokens before it, what
    [strings.Trim] cut from that (nothing after an operator that ends
    with a byte other than a space), the filter built from the tokens up
    to it, and the filter of all tokens. *)
Lemma buildFilterString_around_value (metricType : string)
  (filterParts : list string) (i : nat) (operator value : string) :
  filterParts !! i = Some value ->
  (i mod 4 = 2)%nat ->
  value <> "AND" ->
  filterParts !! (i - 1)%nat = Some operator ->
  exists acc acc' upToOperator spaces rest,
    filterLoop filterParts 0 (take i filterParts) EmptyString = Ret acc
    /\ filterStep filterParts acc i value = Ret acc'
    /\ buildFilterString metricType (take i filterParts) = Ret upToOperator
    /\ allBytes (strings.inCutset " ") spaces = true
    /\ upToOperator ++ spaces
       = "metric.type=" ++ dquote ++ metricType ++ dquote ++ " " ++ acc
    /\ (operator <> "AND" -> operator <> EmptyString ->
        endsOutside (strings.inCutset " ") operator = true ->
        exists before, acc = before ++ operator /\ spaces = EmptyString)
    /\ buildFilterString metricType (take (S i) filterParts)
       = Ret ("metric.type=" ++ dquote ++ metricType ++ dquote ++ " " ++ acc')
    /\ buildFilterString metricType filterParts
       = Ret (("metric.type=" ++ dquote ++ metricType ++ dquote ++ " " ++ acc')
              ++ rest).
Proof.
  intros Hv Hm Hand Hop.
  assert (Hi : (i < length filterParts)%nat) by (eapply lookup_lt_Some, Hv).
  destruct (filterLoop_prefix_returns filterParts i) as [acc Hacc].
  pose proof (filterLoop_snoc _ _ _ _ Hv Hacc) as Hsnoc.
  assert (Hend : exists acc' p a,
             filterStep filterParts acc i value = Ret acc'
             /\ acc' = p ++ String a EmptyString
             /\ strings.inCutset " " a = false).
  { rewrite (filterStep_value _ _ _ _ _ Hm Hand Hop).
    destruct (String.eqb operator "=~" || String.eqb operator "!=~").
    - eexists _, _, ")"%char. split; [reflexivity|]. split; [|reflexivity].
      now rewrite <- !append_assoc.
    - destruct (strings.Contains value "*") eqn:Hc.
      + destruct (interpolate_closes value Hc) as (p & ->).
        eexists _, (acc ++ p), ")"%char. split; [reflexivity|].
        split; [now rewrite append_assoc | reflexivity].
      + eexists _, (acc ++ dquote ++ value), "034"%char.
        split; [reflexivity|]. split; [|reflexivity].
        unfold dquote. now rewrite !append_assoc. }
  destruct Hend as (acc' & p & a & Hstep & Hacc' & Ha).
  destruct (trimRightFunc_cut (strings.inCutset " ")
              ("metric.type=" ++ dquote ++ metricType ++ dquote ++ " " ++ acc))
    as (spaces & Hspaces & Hcut).
  assert (Hprefix : forall k, (k <= length filterParts)%nat ->
            filterLoop (take k filterParts) 0 (take k filterParts) EmptyString
            = filterLoop filterParts 0 (take k filterParts) EmptyString).
  { intros k Hk. rewrite <- (take_drop k filterParts) at 3.
    apply eq_sym, filterLoop_extend. cbn. lia. }
  exists acc, acc',
    (strings.trimRightFunc (strings.inCutset " ")
       ("metric.type=" ++ dquote ++ metricType ++ dquote ++ " " ++ acc)),
    spaces.
  destruct (filterLoop_keeps filterParts acc' (length filterParts - S i)
              (S i) EmptyString ltac:(lia)) as [t' Hrest].
  { intros H3. rewrite (S_mod4 i Hm) in H3. discriminate H3. }
  rewrite append_nil_r in Hrest.
  assert (Hall : filterLoop filterParts 0 filterParts EmptyString
                 = Ret (acc' ++ t')).
  { rewrite <- (take_drop (S i) filterParts) at 2.
    rewrite filterLoop_app, Hsnoc, Hstep. cbn [obind].
    rewrite length_take_le by lia. exact Hrest. }
  destruct (trimRightFunc_keep (strings.inCutset " ")
              ("metric.type=" ++ dquote ++ metricType ++ dquote ++ " " ++ p)
              a t' Ha) as [rest Hkeep].
  rewrite !append_assoc in Hkeep.
  exists rest.
  split; [exact Hacc|]. split; [exact Hstep|].
  split; [|split; [exact Hspaces|split; [symmetry; exact Hcut|split; [|split]]]].
  2:{ intros Hne Hnil Hout.
      destruct (before_operator _ _ _ _ Hm Hop Hne Hacc) as (before & _ & Hb).
      exists before. split; [exact Hb|].
      rewrite trimRightFunc_id in Hcut.
      - exact (append_same _ _ (eq_sym Hcut)).
      - discriminate.
      - rewrite Hb, <- !append_assoc, endsOutside_app by exact Hnil. exact Hout. }
  - unfold buildFilterString. rewrite Hprefix by lia. rewrite Hacc.
    cbn [obind]. now rewrite Trim_filter.
  - unfold buildFilterString. rewrite Hprefix by lia. rewrite Hsnoc, Hstep.
    cbn [obind]. rewrite Trim_filter. f_equal. apply trimRightFunc_id.
    + discriminate.
    + rewrite Hacc', <- !append_assoc, endsOutside_app by discriminate.
      cbn [endsOutside]. now rewrite Ha.
  - unfold buildFilterString. rewrite Hall. cbn [obind].
    rewrite Trim_filter. f_equal. rewrite Hacc'.
    rewrite !append_assoc. rewrite !(append_cons a EmptyString), !append_nil_l.
    rewrite Hkeep, ?append_assoc. reflexivity.
Qed.




(** C6, as the code has it.  The filter [buildFilterString] returns begins
    with the clause [metric.type="<metricType>"]; for the empty filter list
    it is that clause and nothing else; and for a value token without
    asterisk, other than the word [AND], that follows an operator other
    than [=~] and [!=~], it is the filter built from the tokens before the
    value, the spaces [strings.Trim] cut at the end of that filter (none,
    when the operator is not empty and does not end with a space), the
    value between double quotes, and what the tokens after the value
    add. *)
Theorem buildFilterString_clauses (metricType : string)
  (filterParts : list string) :
  (exists rest,
      buildFilterString metricType filterParts
      = Ret (metricTypeClause metricType ++ rest))
  /\ buildFilterString metricType [] = Ret (metricTypeClause metricType)
  /\ (forall i operator value,
        filterParts !! i = Some value ->
        (i mod 4 = 2)%nat ->
        value <> "AND" ->
        filterParts !! (i - 1)%nat = Some operator ->
        operator <> "=~" -> operator <> "!=~" ->
        strings.Count value "*" = 0 ->
        exists upToOperator spaces rest,
          buildFilterString metricType (take i filterParts) = Ret upToOperator
          /\ allBytes (strings.inCutset " ") spaces = true
          /\ (operator <> "AND" -> operator <> EmptyString ->
              endsOutside (strings.inCutset " ") operator = true ->
              spaces = EmptyString)
          /\ buildFilterString metricType filterParts
             = Ret (upToOperator ++ spaces ++ dquote ++ value ++ dquote ++ rest)).
Proof.
  split; [|split].
  - unfold buildFilterString.
    destruct (filterLoop_returns filterParts filterParts 0 EmptyString) as [fs ->];
      [simpl; lia|].
    cbn [obind].
    destruct (Trim_metricTypeClause metricType fs) as [t ->]. eauto.
  - unfold buildFilterString. cbn [filterLoop obind].
    now rewrite Trim_metricTypeClause_only.
  - intros i operator value Hv Hm Hand Hop H1 H2 Hc.
    destruct (buildFilterString_around_value metricType _ _ _ _ Hv Hm Hand Hop)
      as (acc & acc' & upToOperator & spaces & rest
          & Hacc & Hstep & Hi & Hspaces & Hcut & Hnone & _ & Hall).
    exists upToOperator, spaces, rest.
    split; [exact Hi|]. split; [exact Hspaces|].
    split.
    { intros Hne Hnil Hout. now destruct (Hnone Hne Hnil Hout) as (_ & _ & ->). }
    rewrite (filterStep_value _ _ _ _ _ Hm Hand Hop) in Hstep.
    destruct (String.eqb_spec operator "=~"); [contradiction|].
    destruct (String.eqb_spec operator "!=~"); [contradiction|].
    cbn [orb] in Hstep. rewrite Contains_false in Hstep by assumption.
    injection Hstep as <-. rewrite Hall. f_equal.
    rewrite <- (append_assoc upToOperator spaces), Hcut.
    now rewrite !append_assoc.
Qed.

(** * Values with and without wildcards *)

Lemma escapeWildcardByte_length (a : ascii) :
  (1 <= String.length (escapeWildcardByte a))%nat.
Proof.
  destruct a as [b0 b1 b2 b3 b4 b5 b6 b7].
  destruct b0, b1, b2, b3, b4, b5, b6, b7; vm_compute; lia.
Qed.

Lemma escapeWildcards_length (value : string) :
  (String.length value <= String.length (escapeWildcards value))%nat.
Proof.
  induction value as [|a value IH]; [reflexivity|].
  cbn [escapeWildcards String.length]. rewrite length_append.
  pose proof (escapeWildcardByte_length a). lia.
Qed.

Lemma HasPrefix_first (value : string) (c : ascii) :
  strings.HasPrefix value (String c EmptyString) = true ->
  exists rest, value = String c rest.
Proof.
  destruct value as [|a rest]; [discriminate|].
  rewrite HasPrefix_cons. intros ->%Ascii.eqb_eq. eauto.
Qed.

Lemma HasSuffix_last (value : string) (c : ascii) :
  strings.HasSuffix value (String c EmptyString) = true ->
  exists front, value = front ++ String c EmptyString.
Proof.
  unfold strings.HasSuffix. rewrite rev_single. intros H.
  apply HasPrefix_first in H as [rest Hr].
  exists (strings.rev rest).
  rewrite <- (rev_involutive value), Hr.
  change (String c rest) with (String c EmptyString ++ rest).
  now rewrite rev_app, rev_single.
Qed.

Lemma append_last_inj (p q : string) (a b : ascii) :
  p ++ String a EmptyString = q ++ String b EmptyString -> a = b.
Proof.
  revert q. induction p as [|c p IH]; intros [|d q] H.
  - now injection H.
  - rewrite append_nil_l, append_cons in H. injection H as _ H.
    destruct q; discriminate H.
  - rewrite append_nil_l, append_cons in H. injection H as _ H.
    destruct p; discriminate H.
  - rewrite !append_cons in H. injection H as _ H. now apply (IH q).
Qed.

(** X4.  [interpolateFilterWildcards] returns its argument unchanged
    exactly when the argument holds no asterisk. *)
Theorem interpolateFilterWildcards_unchanged (value : string) :
  interpolateFilterWildcards value = value <-> strings.Count value "*" = 0.
Proof.
  split.
  - intros Hfix.
    destruct (Z.eq_dec (strings.Count value "*") 0) as [|Hn]; [assumption|].
    exfalso. revert Hfix. unfold interpolateFilterWildcards.
    rewrite escape_passes.
    destruct ((strings.Count value "*" =? 2) && strings.HasSuffix value "*"
              && strings.HasPrefix value "*") eqn:E2.
    { apply andb_true_iff in E2 as [_ Hp].
      apply HasPrefix_first in Hp as [rest ->]. discriminate. }
    destruct ((strings.Count value "*" =? 1) && strings.HasPrefix value "*") eqn:E1.
    { apply andb_true_iff in E1 as [_ Hp].
      apply HasPrefix_first in Hp as [rest ->]. discriminate. }
    destruct ((strings.Count value "*" =? 1) && strings.HasSuffix value "*") eqn:E3.
    { apply andb_true_iff in E3 as [_ Hs].
      apply HasSuffix_last in Hs as [front Hv]. intros Hfix.
      rewrite Hv in Hfix at 2.
      rewrite <- !append_assoc in Hfix.
      change ")" with (String ")" EmptyString) in Hfix.
      apply append_last_inj in Hfix. discriminate Hfix. }
    destruct (Z.eqb_spec (strings.Count value "*") 0) as [|_]; [contradiction|].
    cbn [negb]. intros Hfix. apply (f_equal String.length) in Hfix.
    rewrite !length_append in Hfix.
    unfold dquote in Hfix. cbn [String.length] in Hfix.
    pose proof (escapeWildcards_length value). lia.
  - intros Hz. unfold interpolateFilterWildcards. rewrite Hz. reflexivity.
Qed.

(** * Alignment periods, resolved twice *)

Lemma calculateAlignmentPeriod_resolved (spec : string)
  (intervalMs durationSeconds : Z) :
  isGrafanaAuto spec = false -> isLegacyAuto spec = false ->
  calculateAlignmentPeriod spec intervalMs durationSeconds = spec.
Proof.
  unfold isGrafanaAuto, isLegacyAuto, calculateAlignmentPeriod.
  now intros -> ->.
Qed.

Lemma calculateAlignmentPeriod_no_sentinel (spec : string)
  (intervalMs durationSeconds : Z) :
  isGrafanaAuto (calculateAlignmentPeriod spec intervalMs durationSeconds) = false
  /\ isLegacyAuto (calculateAlignmentPeriod spec intervalMs durationSeconds) = false.
Proof.
  unfold calculateAlignmentPeriod.
  destruct (String.eqb spec "grafana-auto" || String.eqb spec EmptyString) eqn:Ha.
  - rewrite !append_cons, append_nil_l. split; reflexivity.
  - destruct (String.eqb spec "cloud-monitoring-auto"
              || String.eqb spec "stackdriver-auto") eqn:Hl.
    + destruct (_ <? _); [split; reflexivity|].
      destruct (_ <? _); split; reflexivity.
    + split; assumption.
Qed.

(** X5.  What [calculateAlignmentPeriod] returns is never empty and never
    one of the three automatic specifications; given back to the function,
    with any interval and duration, it is returned unchanged. *)
Theorem calculateAlignmentPeriod_stable (spec : string)
  (intervalMs durationSeconds intervalMs' durationSeconds' : Z) :
  isGrafanaAuto (calculateAlignmentPeriod spec intervalMs durationSeconds) = false
  /\ isLegacyAuto (calculateAlignmentPeriod spec intervalMs durationSeconds) = false
  /\ calculateAlignmentPeriod
       (calculateAlignmentPeriod spec intervalMs durationSeconds)
       intervalMs' durationSeconds'
     = calculateAlignmentPeriod spec intervalMs durationSeconds.
Proof.
  destruct (calculateAlignmentPeriod_no_sentinel spec intervalMs durationSeconds)
    as [Hg Hl].
  repeat split; try assumption.
  now apply calculateAlignmentPeriod_resolved.
Qed.

(** * The executors of a batch *)

Lemma valuesOf_empty (key : string) : valuesOf ∅ key = [].
Proof. unfold valuesOf. now rewrite lookup_empty. Qed.

Lemma valuesIn_app (t1 t2 : list (string * list string)) (key : string) :
  valuesIn (t1 ++ t2) key = (valuesIn t1 key ++ valuesIn t2 key)%list.
Proof. unfold valuesIn. apply flat_map_app. Qed.

Lemma setSloAggParams_adds (params : gmap string (list string))
  (query : sloQuery) (durationSeconds intervalMs : Z) (key : string) :
  valuesOf (setSloAggParams params query durationSeconds intervalMs) key
  = (valuesOf params key
     ++ valuesIn (sloAggParamsAdded query durationSeconds intervalMs) key)%list.
Proof.
  unfold setSloAggParams, sloAggParamsAdded, valuesIn.
  cbn [flat_map fst snd].
  destruct (String.eqb (slo_SelectorName query) "select_slo_health");
    rewrite !valuesOf_Add, app_nil_r, <- app_assoc; reflexivity.
Qed.

(** [setMetricAggParams] changes two selections of the query and nothing
    else. *)
Lemma setMetricAggParams_query (params : gmap string (list string))
  (query : metricQuery) (durationSeconds intervalMs : Z) :
  let query' := snd (setMetricAggParams params query durationSeconds intervalMs) in
  mq_GroupBys query' = mq_GroupBys query
  /\ mq_ProjectName query' = mq_ProjectName query
  /\ mq_AliasBy query' = mq_AliasBy query.
Proof.
  unfold setMetricAggParams. cbn [snd].
  destruct (String.eqb (mq_CrossSeriesReducer query) EmptyString);
    destruct (String.eqb (mq_PerSeriesAligner _) EmptyString);
    repeat split.
Qed.

Lemma setMetricAggParams_selected (params : gmap string (list string))
  (query : metricQuery) (durationSeconds intervalMs : Z) :
  String.eqb (mq_CrossSeriesReducer query) EmptyString = false ->
  String.eqb (mq_PerSeriesAligner query) EmptyString = false ->
  snd (setMetricAggParams params query durationSeconds intervalMs) = query.
Proof.
  intros Hr Ha. unfold setMetricAggParams. cbn [snd]. now rewrite Hr, Ha.
Qed.

(** X6.  [setMetricAggParams] leaves the query with the user's reducer and
    aligner, or with [REDUCE_NONE] and [ALIGN_MEAN] where the user selected
    nothing: neither is empty after the call, and a second call, with any
    parameters, leaves that query as it is. *)
Theorem setMetricAggParams_fills_defaults (params params' : gmap string (list string))
  (query : metricQuery) (durationSeconds intervalMs durationSeconds' intervalMs' : Z) :
  let query' := snd (setMetricAggParams params query durationSeconds intervalMs) in
  mq_CrossSeriesReducer query'
  = orDefault (mq_CrossSeriesReducer query) crossSeriesReducerDefault
  /\ mq_PerSeriesAligner query'
     = orDefault (mq_PerSeriesAligner query) perSeriesAlignerDefault
  /\ String.eqb (mq_CrossSeriesReducer query') EmptyString = false
  /\ String.eqb (mq_PerSeriesAligner query') EmptyString = false
  /\ snd (setMetricAggParams params' query' durationSeconds' intervalMs') = query'.
Proof.
  intros query'.
  assert (H : mq_CrossSeriesReducer query'
              = orDefault (mq_CrossSeriesReducer query) crossSeriesReducerDefault
              /\ mq_PerSeriesAligner query'
                 = orDefault (mq_PerSeriesAligner query) perSeriesAlignerDefault
              /\ String.eqb (mq_CrossSeriesReducer query') EmptyString = false
              /\ String.eqb (mq_PerSeriesAligner query') EmptyString = false).
  { unfold query', setMetricAggParams, orDefault. cbn [snd].
    destruct (String.eqb (mq_CrossSeriesReducer query) EmptyString) eqn:Hr;
      destruct (String.eqb (mq_PerSeriesAligner _) EmptyString) eqn:Ha;
      cbn in *; rewrite ?Hr, ?Ha; repeat split; assumption. }
  destruct H as (H1 & H2 & H3 & H4). repeat split; try assumption.
  now apply setMetricAggParams_selected.
Qed.

(** The parameters of the request of an SLO query, and of a metric query
    of the structured editor. *)
Lemma sloParams_values (formatRFC3339 : Z -> string) (timeRange : TimeRange)
  (intervalMs : Z) (query : sloQuery) (key : string) :
  valuesOf
    (setSloAggParams
       (url.Add "filter" (buildSLOFilterExpression query)
          (url.Add "interval.endTime" (formatRFC3339 (tr_To timeRange))
             (url.Add "interval.startTime" (formatRFC3339 (tr_From timeRange)) ∅)))
       query ((tr_To timeRange - tr_From timeRange) ÷ 1000000000) intervalMs)
    key
  = valuesIn (sloParamsAdded formatRFC3339 timeRange intervalMs query) key.
Proof.
  unfold sloParamsAdded. rewrite valuesIn_app, setSloAggParams_adds.
  rewrite !valuesOf_Add, valuesOf_empty. unfold durationSecondsOf.
  f_equal. unfold valuesIn, buildSLOFilterExpression. cbn [flat_map fst snd app].
  rewrite <- ?app_assoc, ?app_nil_r. reflexivity.
Qed.

Lemma metricParams_values (formatRFC3339 : Z -> string) (timeRange : TimeRange)
  (intervalMs : Z) (filter view : string) (query : metricQuery) (key : string) :
  valuesOf
    (fst (setMetricAggParams
            (url.Add "view" view
               (url.Add "filter" filter
                  (url.Add "interval.endTime" (formatRFC3339 (tr_To timeRange))
                     (url.Add "interval.startTime"
                        (formatRFC3339 (tr_From timeRange)) ∅))))
            query ((tr_To timeRange - tr_From timeRange) ÷ 1000000000)
            intervalMs))
    key
  = valuesIn
      ([ ("interval.startTime", [formatRFC3339 (tr_From timeRange)]);
         ("interval.endTime", [formatRFC3339 (tr_To timeRange)]);
         ("filter", [filter]); ("view", [view]) ]
       ++ aggParamsAdded query (durationSecondsOf timeRange) intervalMs) key.
Proof.
  rewrite setMetricAggParams_adds, valuesIn_app, !valuesOf_Add, valuesOf_empty.
  unfold durationSecondsOf. f_equal.
  unfold valuesIn. cbn [flat_map fst snd app].
  rewrite <- ?app_assoc, ?app_nil_r. reflexivity.
Qed.

Lemma aggParamsAdded_interval (query : metricQuery) (d i : Z) :
  valuesIn (aggParamsAdded query d i) "interval.startTime" = []
  /\ valuesIn (aggParamsAdded query d i) "interval.endTime" = [].
Proof.
  unfold aggParamsAdded, valuesIn.
  destruct (mq_PreprocessorType query), (mq_GroupBys query); split; reflexivity.
Qed.

(** The view a query is sent with, and the query as the loop has it when
    it calls [setMetricAggParams]. *)
Lemma view_defaulted (query : metricQuery) :
  let query' :=
    if String.eqb (mq_View query) EmptyString then set_View "FULL" query
    else query in
  mq_MetricType query' = mq_MetricType query
  /\ mq_Filters query' = mq_Filters query
  /\ mq_View query' = orDefault (mq_View query) "FULL"
  /\ aggParamsAdded query' = aggParamsAdded query
  /\ mq_GroupBys query' = mq_GroupBys query
  /\ mq_ProjectName query' = mq_ProjectName query
  /\ mq_AliasBy query' = mq_AliasBy query.
Proof.
  unfold orDefault. destruct (String.eqb (mq_View query) EmptyString);
    repeat split.
Qed.

Section Executors.
Variable formatRFC3339 : Z -> string.
Variable Encode : gmap string (list string) -> string.
Variable toPreprocessorType : string -> preprocessorType.
Variable quoteQ : string -> string.

(** An executor that was built carries the reference id of its query and
    the time range of the first query. *)
Lemma buildQueryExecutor_built (req0 query : DataQuery)
  (e : cloudMonitoringQueryExecutor) :
  buildQueryExecutor formatRFC3339 Encode toPreprocessorType quoteQ req0 query
  = Ret (inr e) ->
  getRefID e = dq_RefID query
  /\ builtFor formatRFC3339 (dq_TimeRange req0) e.
Proof.
  unfold buildQueryExecutor. cbv zeta.
  destruct (queryModel query) as [err|q]; [discriminate|].
  destruct (String.eqb (QueryType q) metricQueryType).
  - destruct (String.eqb _ mqlEditorMode).
    { intros [= <-]. split; reflexivity. }
    set (mq := set_PreprocessorType _ (MetricQuery q)).
    set (mq' := if String.eqb (mq_View mq) EmptyString then set_View "FULL" mq
                else mq).
    destruct (buildFilterString_returns (mq_MetricType mq') (mq_Filters mq'))
      as [filter ->].
    cbn [obind].
    pose proof (metricParams_values formatRFC3339 (dq_TimeRange req0)
                  (dq_IntervalMs query) filter (mq_View mq') mq') as Hvalues.
    destruct (setMetricAggParams _ mq' _ _) as [params mq''].
    cbn [fst] in Hvalues. intros [= <-]. split; [reflexivity|].
    cbn [builtFor tsf_Params]. rewrite !Hvalues, !valuesIn_app.
    destruct (aggParamsAdded_interval mq' (durationSecondsOf (dq_TimeRange req0))
                (dq_IntervalMs query)) as [-> ->].
    split; reflexivity.
  - destruct (String.eqb (QueryType q) sloQueryType); [|discriminate].
    intros [= <-]. split; [reflexivity|].
    cbn [builtFor tsf_Params]. rewrite !sloParams_values. split; reflexivity.
Qed.

Lemma buildQueryExecutor_panic (req0 query : DataQuery) (msg : string) :
  buildQueryExecutor formatRFC3339 Encode toPreprocessorType quoteQ req0 query
  = Panic msg ->
  exists queryType,
    unrecognized query queryType
    /\ msg = "Unrecognized query type " ++ quoteQ queryType.
Proof.
  intros Hb. destruct (queryModel query) as [err|q] eqn:Hq.
  { unfold buildQueryExecutor in Hb. rewrite Hq in Hb. discriminate Hb. }
  destruct (String.eqb_spec (QueryType q) metricQueryType) as [Hm|Hm];
    [|destruct (String.eqb_spec (QueryType q) sloQueryType) as [Hs|Hs]].
  - destruct (buildQueryExecutor_recognized formatRFC3339 Encode
                toPreprocessorType quoteQ req0 query) as [e He].
    + exists q. split; [assumption | now left].
    + rewrite He in Hb. discriminate Hb.
  - destruct (buildQueryExecutor_recognized formatRFC3339 Encode
                toPreprocessorType quoteQ req0 query) as [e He].
    + exists q. split; [assumption | now right].
    + rewrite He in Hb. discriminate Hb.
  - assert (Hu : unrecognized query (QueryType q)).
    { exists q. repeat split; assumption. }
    rewrite (buildQueryExecutor_unrecognized formatRFC3339 Encode
               toPreprocessorType quoteQ req0 query _ Hu) in Hb.
    injection Hb as <-. eauto.
Qed.

(** What the loop of [buildQueryExecutors] returns when it returns
    executors: those it started with and one for each query, in order. *)
Lemma buildFrom_built (req0 : DataQuery) (queries : list DataQuery)
  (acc executors : list cloudMonitoringQueryExecutor) :
  buildQueryExecutorsFrom formatRFC3339 Encode toPreprocessorType quoteQ
    req0 queries acc = Ret (executors, None) ->
  exists built,
    executors = (acc ++ built)%list
    /\ Forall2 (fun query e =>
                  buildQueryExecutor formatRFC3339 Encode toPreprocessorType
                    quoteQ req0 query = Ret (inr e)) queries built.
Proof.
  revert acc. induction queries as [|query queries IH]; intros acc Hb;
    cbn [buildQueryExecutorsFrom] in Hb.
  - injection Hb as <-. exists []. split; [now rewrite app_nil_r | constructor].
  - destruct (buildQueryExecutor formatRFC3339 Encode toPreprocessorType quoteQ
                req0 query) as [[err|e]|msg] eqn:He; cbn [obind] in Hb;
      try discriminate Hb.
    destruct (IH _ Hb) as (built & -> & Hall).
    exists (e :: built). split; [now rewrite <- app_assoc | now constructor].
Qed.

Lemma buildFrom_panic (req0 : DataQuery) (queries : list DataQuery)
  (acc : list cloudMonitoringQueryExecutor) (msg : string) :
  buildQueryExecutorsFrom formatRFC3339 Encode toPreprocessorType quoteQ
    req0 queries acc = Panic msg ->
  exists query queryType,
    query ∈ queries /\ unrecognized query queryType
    /\ msg = "Unrecognized query type " ++ quoteQ queryType.
Proof.
  revert acc. induction queries as [|query queries IH]; intros acc Hb;
    cbn [buildQueryExecutorsFrom] in Hb; [discriminate Hb|].
  destruct (buildQueryExecutor formatRFC3339 Encode toPreprocessorType quoteQ
              req0 query) as [[err|e]|msg'] eqn:He; cbn [obind] in Hb.
  - discriminate Hb.
  - destruct (IH _ Hb) as (query' & t & Hin & Hu & ->).
    exists query', t. split; [apply elem_of_cons; now right | now split].
  - injection Hb as <-.
    destruct (buildQueryExecutor_panic _ _ _ He) as (t & Hu & ->).
    exists query, t. split; [apply elem_of_cons; now left | now split].
Qed.

(** X7.  For a query that resolves to the type [slo] the loop of
    [buildQueryExecutors] makes a filter executor with the reference id of
    the query, no group-by fields, the selector, service, objective,
    project and alias of the SLO query, and the encoded parameters as its
    target.  Its parameters are those of the table [sloParamsAdded] and no
    others: the interval of the first query of the batch, the filter
    [selector("projects/P/services/S/serviceLevelObjectives/O")], the
    alignment period, and the aligner [ALIGN_MEAN] for the selector
    [select_slo_health] and [ALIGN_NEXT_OLDER] for any other. *)
Theorem buildQueryExecutor_slo (req0 query : DataQuery) (q : grafanaQuery) :
  queryModel query = inr q -> QueryType q = sloQueryType ->
  exists params,
    buildQueryExecutor formatRFC3339 Encode toPreprocessorType quoteQ req0 query
    = Ret (inr (FilterExecutor
        {| tsf_Target := Encode params;
           tsf_Params := params;
           tsf_RefID := dq_RefID query;
           tsf_GroupBys := [];
           tsf_Selector := slo_SelectorName (SloQuery q);
           tsf_Service := slo_ServiceId (SloQuery q);
           tsf_Slo := slo_SloId (SloQuery q);
           tsf_ProjectName := slo_ProjectName (SloQuery q);
           tsf_AliasBy := slo_AliasBy (SloQuery q) |}))
    /\ forall key,
         valuesOf params key
         = valuesIn (sloParamsAdded formatRFC3339 (dq_TimeRange req0)
                       (dq_IntervalMs query) (SloQuery q)) key.
Proof.
  intros Hq Ht. unfold buildQueryExecutor. rewrite Hq, Ht.
  change (String.eqb sloQueryType metricQueryType) with false.
  change (String.eqb sloQueryType sloQueryType) with true. cbv iota zeta.
  eexists. split; [reflexivity|]. intros key. apply sloParams_values.
Qed.

(** X8.  For a query that resolves to the type [metrics]: in the editor
    mode [mql] the loop of [buildQueryExecutors] makes a query executor
    with the reference id, project, query text, interval and alias of the
    query and the time range of the first query of the batch; in any other
    mode it makes a filter executor with the group-by fields, project and
    alias of the query, whose parameters are those of the table
    [metricParamsAdded] and no others: the interval of the first query,
    the filter [buildFilterString] returns, the view ([FULL] when the
    query has none) and what [setMetricAggParams] adds. *)
Theorem buildQueryExecutor_metric (req0 query : DataQuery) (q : grafanaQuery) :
  queryModel query = inr q -> QueryType q = metricQueryType ->
  let mq :=
    set_PreprocessorType (toPreprocessorType (mq_Preprocessor (MetricQuery q)))
      (MetricQuery q) in
  (mq_EditorMode mq = mqlEditorMode ->
   buildQueryExecutor formatRFC3339 Encode toPreprocessorType quoteQ req0 query
   = Ret (inr (QueryExecutor
       {| tsq_RefID := dq_RefID query;
          tsq_ProjectName := mq_ProjectName mq;
          tsq_Query := mq_Query mq;
          tsq_IntervalMS := dq_IntervalMs query;
          tsq_AliasBy := mq_AliasBy mq;
          tsq_timeRange := dq_TimeRange req0 |})))
  /\ (mq_EditorMode mq <> mqlEditorMode ->
      exists filter params,
        buildFilterString (mq_MetricType mq) (mq_Filters mq) = Ret filter
        /\ buildQueryExecutor formatRFC3339 Encode toPreprocessorType quoteQ
             req0 query
           = Ret (inr (FilterExecutor
               {| tsf_Target := Encode params;
                  tsf_Params := params;
                  tsf_RefID := dq_RefID query;
                  tsf_GroupBys := mq_GroupBys mq;
                  tsf_Selector := EmptyString;
                  tsf_Service := EmptyString;
                  tsf_Slo := EmptyString;
                  tsf_ProjectName := mq_ProjectName mq;
                  tsf_AliasBy := mq_AliasBy mq |}))
        /\ forall key,
             valuesOf params key
             = valuesIn (metricParamsAdded formatRFC3339 (dq_TimeRange req0)
                           (dq_IntervalMs query) filter mq) key).
Proof.
  intros Hq Ht mq. unfold buildQueryExecutor. rewrite Hq, Ht.
  change (String.eqb metricQueryType metricQueryType) with true. cbv iota zeta.
  fold mq. split.
  - intros Hmode. rewrite Hmode.
    change (String.eqb mqlEditorMode mqlEditorMode) with true. reflexivity.
  - intros Hmode.
    destruct (String.eqb_spec (mq_EditorMode mq) mqlEditorMode) as [E|_];
      [contradiction|].
    set (mq' := if String.eqb (mq_View mq) EmptyString then set_View "FULL" mq
                else mq).
    destruct (view_defaulted mq) as (Hmt & Hf & Hview & Hagg & Hg & Hp & Ha).
    fold mq' in Hmt, Hf, Hview, Hagg, Hg, Hp, Ha. rewrite Hmt, Hf.
    destruct (buildFilterString_returns (mq_MetricType mq) (mq_Filters mq))
      as [filter Hfilter].
    rewrite Hfilter. cbn [obind].
    pose proof (metricParams_values formatRFC3339 (dq_TimeRange req0)
                  (dq_IntervalMs query) filter (mq_View mq') mq') as Hvalues.
    pose proof (setMetricAggParams_query
                  (url.Add "view" (mq_View mq')
                     (url.Add "filter" filter
                        (url.Add "interval.endTime"
                           (formatRFC3339 (tr_To (dq_TimeRange req0)))
                           (url.Add "interval.startTime"
                              (formatRFC3339 (tr_From (dq_TimeRange req0))) ∅))))
                  mq'
                  ((tr_To (dq_TimeRange req0) - tr_From (dq_TimeRange req0))
                   ÷ 1000000000)
                  (dq_IntervalMs query)) as Hfields.
    cbv zeta in Hfields.
    destruct (setMetricAggParams _ mq' _ _) as [params mq''].
    cbn [snd fst] in Hfields, Hvalues.
    destruct Hfields as (-> & -> & ->). rewrite Hg, Hp, Ha.
    exists filter, params. split; [reflexivity|]. split; [reflexivity|].
    intros key. rewrite Hvalues. unfold metricParamsAdded.
    now rewrite Hagg, Hview.
Qed.

(** X9.  When [buildQueryExecutors] returns executors there is one for
    each query of the batch, in the order of the queries, each with the
    reference id of its query. *)
Theorem buildQueryExecutors_one_per_query (req : QueryDataRequest)
  (executors : list cloudMonitoringQueryExecutor) :
  buildQueryExecutors formatRFC3339 Encode toPreprocessorType quoteQ req
  = Ret (executors, None) ->
  map getRefID executors = map dq_RefID (Queries req).
Proof.
  unfold buildQueryExecutors. destruct (Queries req) as [|req0 rest] eqn:E;
    [discriminate|].
  intros Hb. destruct (buildFrom_built _ _ _ _ Hb) as (built & -> & Hall).
  rewrite app_nil_l. clear Hb E.
  induction Hall as [|query e queries built He _ IH]; [reflexivity|].
  cbn [map]. rewrite IH. f_equal.
  now destruct (buildQueryExecutor_built _ _ _ He).
Qed.

(** X10.  Every executor of a batch is built for the time range of the
    first query of the batch, whatever the time range of its own query: a
    filter executor has the two interval parameters of that range, a query
    executor holds that range. *)
Theorem buildQueryExecutors_first_time_range (req : QueryDataRequest)
  (req0 : DataQuery) (executors : list cloudMonitoringQueryExecutor) :
  buildQueryExecutors formatRFC3339 Encode toPreprocessorType quoteQ req
  = Ret (executors, None) ->
  Queries req !! 0%nat = Some req0 ->
  forall e, e ∈ executors -> builtFor formatRFC3339 (dq_TimeRange req0) e.
Proof.
  unfold buildQueryExecutors. destruct (Queries req) as [|req0' rest] eqn:E;
    [discriminate|].
  intros Hb [= <-] e He.
  destruct (buildFrom_built _ _ _ _ Hb) as (built & -> & Hall).
  rewrite app_nil_l in He. clear Hb E.
  induction Hall as [|query e' queries built Hbuilt _ IH]; [inversion He|].
  apply elem_of_cons in He as [->|He]; [|now apply IH].
  now destruct (buildQueryExecutor_built _ _ _ Hbuilt).
Qed.

(** X11.  A payload without [metricQuery] object whose fields decode as a
    metric query resolves to the type [metrics] with that metric query,
    whatever else the payload declares, and the loop of
    [buildQueryExecutors] makes an executor with its reference id: such a
    query does not make the dispatcher panic. *)
Theorem legacy_query_is_metrics (req0 query : DataQuery) (mq : metricQuery) :
  asRawQuery (JSON query) = inr false ->
  asMetricQuery (JSON query) = inr mq ->
  (exists q, queryModel query = inr q
             /\ QueryType q = metricQueryType /\ MetricQuery q = mq)
  /\ exists e,
       buildQueryExecutor formatRFC3339 Encode toPreprocessorType quoteQ
         req0 query = Ret (inr e)
       /\ getRefID e = dq_RefID query.
Proof.
  intros Hraw Hmq.
  assert (Hq : exists q, queryModel query = inr q
                         /\ QueryType q = metricQueryType /\ MetricQuery q = mq).
  { unfold queryModel. rewrite Hraw, Hmq. cbn [negb]. eexists.
    repeat split. }
  split; [exact Hq|]. destruct Hq as (q & Hq & Ht & _).
  destruct (buildQueryExecutor_recognized formatRFC3339 Encode
              toPreprocessorType quoteQ req0 query) as [e He].
  - exists q. split; [assumption | now left].
  - exists e. split; [assumption|].
    now destruct (buildQueryExecutor_built _ _ _ He).
Qed.

End Executors.

(** * Running the executors of a batch *)

Section Running.
Context {cloudMonitoringResponse : Type}.
Variable run :
  cloudMonitoringQueryExecutor ->
  string + (DataResponse * cloudMonitoringResponse * string).
Variable parseResponse :
  cloudMonitoringQueryExecutor -> DataResponse -> cloudMonitoringResponse ->
  string -> DataResponse * option string.

Lemma runQueryExecutors_app (l1 l2 : list cloudMonitoringQueryExecutor)
  (resp : gmap string DataResponse) :
  runQueryExecutors run parseResponse (l1 ++ l2) resp
  = match runQueryExecutors run parseResponse l1 resp with
    | (resp', None) => runQueryExecutors run parseResponse l2 resp'
    | (resp', Some err) => (resp', Some err)
    end.
Proof.
  revert resp. induction l1 as [|e l1 IH]; intros resp; [reflexivity|].
  cbn [app runQueryExecutors].
  destruct (run e) as [err|[[queryRes dr] executedQueryString]]; [reflexivity|].
  destruct (parseResponse e queryRes dr executedQueryString) as [queryRes' err].
  apply IH.
Qed.

(** While [run] returns no error the loop stores one response after the
    other. *)
Lemma runQueryExecutors_stored (executors : list cloudMonitoringQueryExecutor)
  (resp : gmap string DataResponse) :
  Forall (fun e => is_Some (storedResponse run parseResponse e)) executors ->
  runQueryExecutors run parseResponse executors resp
  = (foldl (fun r e =>
              <[getRefID e :=
                  default emptyDataResponse (storedResponse run parseResponse e)]> r)
           resp executors, None).
Proof.
  intros Hall. revert resp.
  induction Hall as [|e executors [queryRes He] _ IH]; intros resp; [reflexivity|].
  cbn [runQueryExecutors foldl]. rewrite <- IH. clear IH.
  unfold storedResponse in *.
  destruct (run e) as [err|[[queryRes0 dr] executedQueryString]];
    [discriminate He|].
  destruct (parseResponse e queryRes0 dr executedQueryString) as [queryRes' err].
  reflexivity.
Qed.

Lemma foldl_insert_keys (slot : cloudMonitoringQueryExecutor -> DataResponse)
  (executors : list cloudMonitoringQueryExecutor)
  (resp : gmap string DataResponse) (k : string) :
  is_Some (foldl (fun r e => <[getRefID e := slot e]> r) resp executors !! k)
  <-> k ∈ map getRefID executors \/ is_Some (resp !! k).
Proof.
  revert resp. induction executors as [|e executors IH]; intros resp.
  - cbn. split; [now right | intros [H|H]; [inversion H | exact H]].
  - cbn [foldl map]. rewrite IH, elem_of_cons, lookup_insert_is_Some.
    destruct (decide (getRefID e = k)) as [->|Hne]; split; intros H;
      intuition congruence.
Qed.

Lemma foldl_insert_last (slot : cloudMonitoringQueryExecutor -> DataResponse)
  (l1 l2 : list cloudMonitoringQueryExecutor)
  (e : cloudMonitoringQueryExecutor) (resp : gmap string DataResponse) :
  getRefID e ∉ map getRefID l2 ->
  foldl (fun r e => <[getRefID e := slot e]> r) resp (l1 ++ e :: l2)
    !! getRefID e
  = Some (slot e).
Proof.
  intros Hnot. rewrite foldl_app. cbn [foldl].
  rewrite foldl_insert_notin by assumption. apply lookup_insert_eq.
Qed.

Variable formatRFC3339 : Z -> string.
Variable Encode : gmap string (list string) -> string.
Variable toPreprocessorType : string -> preprocessorType.
Variable quoteQ : string -> string.

(** X12.  When [run] returns an error for an executor and no error for
    those before it, [executeTimeSeriesQuery] returns that error, and the
    response it returns with it has a slot for the reference ids of the
    executors before and for no other: the executors after are not run. *)
Theorem executeTimeSeriesQuery_run_error (req : QueryDataRequest)
  (before after : list cloudMonitoringQueryExecutor)
  (e : cloudMonitoringQueryExecutor) (err : string) :
  buildQueryExecutors formatRFC3339 Encode toPreprocessorType quoteQ req
  = Ret ((before ++ e :: after)%list, None) ->
  Forall (fun e' => is_Some (storedResponse run parseResponse e')) before ->
  run e = inl err ->
  exists resp,
    executeTimeSeriesQuery formatRFC3339 Encode toPreprocessorType quoteQ
      run parseResponse req
    = Ret (resp, Some err)
    /\ forall k, is_Some (resp !! k) <-> k ∈ map getRefID before.
Proof.
  intros Hbuild Hbefore Hrun. unfold executeTimeSeriesQuery.
  rewrite Hbuild. cbn [obind]. rewrite runQueryExecutors_app.
  rewrite (runQueryExecutors_stored before) by assumption.
  cbn [runQueryExecutors]. rewrite Hrun.
  eexists. split; [reflexivity|]. intros k.
  rewrite foldl_insert_keys. unfold NewQueryDataResponse.
  rewrite lookup_empty. split; [intros [H|[x H]]; [exact H | discriminate H] | now left].
Qed.

(** X13.  When [run] returns no error for any executor,
    [executeTimeSeriesQuery] returns no error; its response has a slot for
    the reference ids of the queries of the batch and for no other; and the
    slot of a reference id holds what the loop stored for the last executor
    with that id: the response [parseResponse] left, with the error of
    [parseResponse] when it gave one. *)
Theorem executeTimeSeriesQuery_slots (req : QueryDataRequest)
  (executors : list cloudMonitoringQueryExecutor) :
  buildQueryExecutors formatRFC3339 Encode toPreprocessorType quoteQ req
  = Ret (executors, None) ->
  Forall (fun e => is_Some (storedResponse run parseResponse e)) executors ->
  exists resp,
    executeTimeSeriesQuery formatRFC3339 Encode toPreprocessorType quoteQ
      run parseResponse req
    = Ret (resp, None)
    /\ (forall k, is_Some (resp !! k) <-> k ∈ map dq_RefID (Queries req))
    /\ forall l1 e l2,
         executors = (l1 ++ e :: l2)%list ->
         getRefID e ∉ map getRefID l2 ->
         resp !! getRefID e = storedResponse run parseResponse e.
Proof.
  intros Hbuild Hall. unfold executeTimeSeriesQuery.
  rewrite Hbuild. cbn [obind].
  rewrite runQueryExecutors_stored by assumption.
  eexists. split; [reflexivity|]. split.
  - intros k. rewrite foldl_insert_keys. unfold NewQueryDataResponse.
    rewrite lookup_empty.
    assert (Hids : map getRefID executors = map dq_RefID (Queries req)).
    { revert Hbuild. unfold buildQueryExecutors.
      destruct (Queries req) as [|req0 rest] eqn:E; [discriminate|].
      intros Hb.
      destruct (buildFrom_built _ _ _ _ _ _ _ _ Hb) as (built & -> & Hb2).
      rewrite app_nil_l. clear Hb E Hall.
      induction Hb2 as [|query e queries built He _ IH]; [reflexivity|].
      cbn [map]. rewrite IH. f_equal.
      now destruct (buildQueryExecutor_built _ _ _ _ _ _ _ He). }
    rewrite Hids.
    split; [intros [H|[x H]]; [exact H | discriminate H] | now left].
  - intros l1 e l2 -> Hnot.
    rewrite foldl_insert_last by assumption.
    apply Forall_app in Hall as [_ Hall]. apply Forall_cons in Hall as [[x ->] _].
    reflexivity.
Qed.

(** X14.  When a query does not decode and the queries before it are of
    the known types, [buildQueryExecutors] returns no executor and the
    error [could not unmarshal CloudMonitoringQuery json: ...], and
    [executeTimeSeriesQuery] returns the empty response with that error,
    whatever [run] and [parseResponse] are: the executors built before are
    dropped. *)
Theorem executeTimeSeriesQuery_decode_error (req : QueryDataRequest)
  (before after : list DataQuery) (query : DataQuery) (err : string) :
  Queries req = (before ++ query :: after)%list ->
  Forall recognized before ->
  queryModel query = inl err ->
  buildQueryExecutors formatRFC3339 Encode toPreprocessorType quoteQ req
  = Ret ([], Some ("could not unmarshal CloudMonitoringQuery json: " ++ err))
  /\ executeTimeSeriesQuery formatRFC3339 Encode toPreprocessorType quoteQ
       run parseResponse req
     = Ret (NewQueryDataResponse,
            Some ("could not unmarshal CloudMonitoringQuery json: " ++ err)).
Proof.
  intros Hq Hb Herr.
  assert (Hbuild :
    buildQueryExecutors formatRFC3339 Encode toPreprocessorType quoteQ req
    = Ret ([], Some ("could not unmarshal CloudMonitoringQuery json: " ++ err))).
  { assert (Hfrom : forall req0 acc,
      buildQueryExecutorsFrom formatRFC3339 Encode toPreprocessorType quoteQ
        req0 (before ++ query :: after)%list acc
      = Ret ([], Some ("could not unmarshal CloudMonitoringQuery json: " ++ err))).
    { clear Hq. intros req0.
      induction Hb as [|p before Hp _ IH]; intros acc;
        cbn [app buildQueryExecutorsFrom].
      - unfold buildQueryExecutor at 1. rewrite Herr. reflexivity.
      - destruct (buildQueryExecutor_recognized formatRFC3339 Encode
                    toPreprocessorType quoteQ req0 p Hp) as [e ->].
        cbn [obind]. apply IH. }
    unfold buildQueryExecutors. rewrite Hq. clear Hq Hb.
    destruct before as [|p before]; exact (Hfrom _ []). }
  split; [exact Hbuild|].
  unfold executeTimeSeriesQuery. now rewrite Hbuild.
Qed.

Variable imGet : outcome (string + option datasourceInfo).
Variable FindDefaultCredentials : string + (string * (string + bool)).
Variable executeAnnotationQuery :
  QueryDataRequest -> datasourceInfo ->
  option (gmap string DataResponse) * option string.

(** X15.  As long as the executors' methods and the annotation path return,
    a panic of [QueryData] is either the panic of the instance manager,
    which runs the factory [newInstanceSettings] when it looks up the data
    source, or the panic [Unrecognized query type] of a query of the batch
    that decodes and resolves to a type other than [metrics] and [slo]:
    neither [req.Queries[0]] nor [filterParts[i-1]] is read out of
    range. *)
Theorem QueryData_panics (req : QueryDataRequest) (msg : string) :
  QueryData formatRFC3339 Encode toPreprocessorType quoteQ run parseResponse
    imGet FindDefaultCredentials executeAnnotationQuery req
  = Panic msg ->
  imGet = Panic msg
  \/ exists query queryType,
       query ∈ Queries req /\ unrecognized query queryType
       /\ msg = "Unrecognized query type " ++ quoteQ queryType.
Proof.
  unfold QueryData. destruct (Queries req) as [|req0 rest] eqn:E; [discriminate|].
  destruct (asQueryModel (JSON req0)) as [err|type]; [discriminate|].
  unfold getDSInfo.
  destruct imGet as [[err|[dsInfo|]]|msg']; cbn [obind];
    [discriminate| |discriminate|intros [= <-]; now left].
  intros Hpanic. right. revert Hpanic.
  destruct (String.eqb type "annotationQuery"); [discriminate|].
  destruct (String.eqb type "getGCEDefaultProject").
  { unfold getGCEDefaultProject. rewrite E.
    destruct (getDefaultProject FindDefaultCredentials dsInfo); discriminate. }
  unfold executeTimeSeriesQuery, buildQueryExecutors. rewrite E.
  destruct (buildQueryExecutorsFrom formatRFC3339 Encode toPreprocessorType
              quoteQ req0 (req0 :: rest) []) as [[executors err]|msg'] eqn:Hb;
    cbn [obind].
  - destruct err as [err|]; cbn [obind]; [discriminate|].
    destruct (runQueryExecutors run parseResponse executors NewQueryDataResponse).
    discriminate.
  - intros [= <-]. eapply buildFrom_panic, Hb.
Qed.

(** X16.  For a batch whose first query has the type
    [getGCEDefaultProject], [QueryData] returns, under the reference id of
    that query, one frame whose custom meta data has the default project:
    the project of the data source under any authentication but [gce]; the
    project of the default credentials under [gce], when they are found
    and their token is read and valid.  Otherwise it returns the empty
    response and the error of [getDefaultProject] behind the prefix of
    [getGCEDefaultProject]. *)
Theorem QueryData_default_project (req : QueryDataRequest) (req0 : DataQuery)
  (dsInfo : datasourceInfo) :
  Queries req !! 0%nat = Some req0 ->
  asQueryModel (JSON req0) = inr "getGCEDefaultProject" ->
  imGet = Ret (inr (Some dsInfo)) ->
  let answer project :=
    Ret (Some {[ dq_RefID req0 :=
                   {| Frames := [defaultProjectFrame project]; Error := None |} ]},
         None) in
  let failure err :=
    Ret (Some NewQueryDataResponse,
         Some ("failed to retrieve default project from GCE metadata server, error: "
               ++ err)) in
  QueryData formatRFC3339 Encode toPreprocessorType quoteQ run parseResponse
    imGet FindDefaultCredentials executeAnnotationQuery req
  = if String.eqb (dsi_authenticationType dsInfo) gceAuthentication
    then match FindDefaultCredentials with
         | inl err =>
             failure ("failed to retrieve default project from GCE metadata server: "
                      ++ err)
         | inr (_, inl err) =>
             failure ("failed to retrieve GCP credential token: " ++ err)
         | inr (_, inr false) => failure "failed to validate GCP credentials"
         | inr (projectID, inr true) => answer projectID
         end
    else answer (dsi_defaultProject dsInfo).
Proof.
  intros H0 Htype Hds. cbv zeta. unfold QueryData.
  destruct (Queries req) as [|req0' rest] eqn:E; [discriminate H0|].
  injection H0 as ->. rewrite Htype. unfold getDSInfo. rewrite Hds.
  cbn [obind].
  change (String.eqb "getGCEDefaultProject" "annotationQuery") with false.
  change (String.eqb "getGCEDefaultProject" "getGCEDefaultProject") with true.
  cbv iota. unfold getGCEDefaultProject, getDefaultProject. rewrite E.
  destruct (String.eqb (dsi_authenticationType dsInfo) gceAuthentication);
    [|reflexivity].
  destruct FindDefaultCredentials as [err|[projectID [err|[|]]]]; reflexivity.
Qed.

End Running.

(** * Replies of the remote *)

Section Replies.
Context {cloudMonitoringResponse : Type}.
Variable jsonUnmarshal : string -> string + cloudMonitoringResponse.

Lemma status_2xx (code : Z) : code ÷ 100 = 2 <-> 200 <= code <= 299.
Proof.
  pose proof (Z.quot_rem' code 100) as Hqr.
  destruct (Z.le_gt_cases 0 code) as [Hpos|Hneg].
  - assert (Hr : 0 <= Z.rem code 100 < 100) by (apply Z.rem_bound_pos; lia).
    set (q := code ÷ 100) in *. set (r := Z.rem code 100) in *.
    clearbody q r. lia.
  - pose proof (Z.rem_bound_pos_neg code 100 eq_refl (Z.lt_le_incl _ _ Hneg)) as Hr.
    set (q := code ÷ 100) in *. set (r := Z.rem code 100) in *.
    clearbody q r. lia.
Qed.

(** X17.  [unmarshalResponse] returns the decoded body exactly when the
    body was read, the status is between 200 and 299, and the body
    decodes.  Under any other status the body is not decoded: the error is
    [query failed: ] and the body.  An error of reading the body is
    returned as it is. *)
Theorem unmarshalResponse_status (res : Response) :
  (forall data,
      unmarshalResponse jsonUnmarshal res = inr data
      <-> exists body,
            Body res = inr body /\ 200 <= StatusCode res <= 299
            /\ jsonUnmarshal body = inr data)
  /\ (forall body,
        Body res = inr body -> ~ 200 <= StatusCode res <= 299 ->
        unmarshalResponse jsonUnmarshal res = inl ("query failed: " ++ body))
  /\ (forall err,
        Body res = inl err -> unmarshalResponse jsonUnmarshal res = inl err).
Proof.
  unfold unmarshalResponse. split; [|split].
  - intros data. destruct (Body res) as [err|body].
    { split; [discriminate | intros (b & H & _); discriminate H]. }
    destruct (Z.eqb_spec (StatusCode res ÷ 100) 2) as [E|N]; cbn [negb].
    + apply status_2xx in E. destruct (jsonUnmarshal body) as [err|d] eqn:Hd.
      * split; [discriminate|]. intros (b & [= <-] & _ & H). congruence.
      * split.
        -- intros [= <-]. eauto.
        -- intros (b & [= <-] & _ & H). congruence.
    + split; [discriminate|]. intros (b & _ & Hs & _).
      apply status_2xx in Hs. contradiction.
  - intros body -> Hs.
    destruct (Z.eqb_spec (StatusCode res ÷ 100) 2) as [E|N]; [|reflexivity].
    apply status_2xx in E. contradiction.
  - now intros err ->.
Qed.

End Replies.

(** * Frames without a value field *)

Lemma addConfigToFrame_length (dl unit : string) (frame frame' : Frame) :
  addConfigToFrame dl unit frame = Ret frame' ->
  length (Fields frame') = length (Fields frame).
Proof.
  unfold addConfigToFrame. destruct (Fields frame !! 1%nat); [|discriminate].
  intros [= <-]. cbn. apply length_insert.
Qed.

(** X18.  [addConfigData] panics with an index out of range when one of
    the frames has fewer than two fields; when every frame has two it
    returns as many frames, each with as many fields and the same custom
    meta data as before. *)
Theorem addConfigData_panics (frames : list Frame) (dl unit : string) :
  (Exists (fun frame => ~ hasValueField frame) frames
   -> addConfigData frames dl unit = Panic "index out of range")
  /\ (Forall hasValueField frames
      -> exists frames',
           addConfigData frames dl unit = Ret frames'
           /\ Forall2 (fun frame frame' =>
                         length (Fields frame') = length (Fields frame)
                         /\ Custom frame' = Custom frame)
                frames frames').
Proof.
  induction frames as [|frame frames [IHp IHr]].
  - split; [intros H; inversion H|]. intros _. exists []. split; [reflexivity|constructor].
  - cbn [addConfigData]. unfold addConfigToFrame, hasValueField in *.
    destruct (Fields frame !! 1%nat) as [value|] eqn:Hv.
    + apply lookup_lt_Some in Hv. cbn [obind]. split.
      * intros Hex. apply Exists_cons in Hex as [Hbad|Hex]; [lia|].
        now rewrite (IHp Hex).
      * intros Hall. apply Forall_cons in Hall as [_ Hall].
        destruct (IHr Hall) as (frames' & -> & Hsame). cbn [obind].
        eexists. split; [reflexivity|]. constructor; [|exact Hsame].
        cbn. split; [apply length_insert | reflexivity].
    + apply lookup_ge_None in Hv. cbn [obind]. split; [reflexivity|].
      intros Hall. apply Forall_cons in Hall as [Hlen _]. lia.
Qed.

(** X19.  After two calls of [addConfigData] the value field of each
    frame has its former links and then the link of the first call and the
    link of the second; its unit is the code the table has for the unit of
    the second call, else the code it has for the unit of the first, else
    the unit it had. *)
Theorem addConfigData_twice (frames : list Frame) (dl1 unit1 dl2 unit2 : string) :
  Forall hasValueField frames ->
  exists frames1 frames2,
    addConfigData frames dl1 unit1 = Ret frames1
    /\ addConfigData frames1 dl2 unit2 = Ret frames2
    /\ forall i frame value,
         frames !! i = Some frame -> Fields frame !! 1%nat = Some value ->
         exists frame2 value2,
           frames2 !! i = Some frame2
           /\ Fields frame2 !! 1%nat = Some value2
           /\ Links (configOf value2)
              = (Links (configOf value) ++ [deepLinkTo dl1; deepLinkTo dl2])%list
           /\ Unit (configOf value2)
              = match cloudMonitoringUnitMappings !! unit2 with
                | Some code => code
                | None =>
                    match cloudMonitoringUnitMappings !! unit1 with
                    | Some code => code
                    | None => Unit (configOf value)
                    end
                end.
Proof.
  intros Hall.
  destruct (addConfigData_spec dl1 unit1 frames Hall) as (frames1 & Hr1 & Hl1 & Hi1).
  assert (Hall1 : Forall hasValueField frames1).
  { apply Forall_lookup. intros i frame1 Hf1.
    destruct (lookup_lt_is_Some_2 frames i) as [frame Hf].
    { rewrite <- Hl1. now apply lookup_lt_Some in Hf1. }
    destruct (Hi1 i frame Hf) as (value & Hv & Hf1').
    rewrite Hf1 in Hf1'. injection Hf1' as ->.
    unfold hasValueField. cbn. rewrite length_insert.
    apply (proj1 (Forall_lookup _ _) Hall i frame Hf). }
  destruct (addConfigData_spec dl2 unit2 frames1 Hall1) as (frames2 & Hr2 & Hl2 & Hi2).
  exists frames1, frames2. split; [assumption|]. split; [assumption|].
  intros i frame value Hf Hv.
  destruct (Hi1 i frame Hf) as (value' & Hv' & Hf1).
  rewrite Hv in Hv'. injection Hv' as <-.
  destruct (Hi2 i _ Hf1) as (value1 & Hv1 & Hf2). cbn [Fields] in Hv1.
  rewrite list_lookup_insert_eq in Hv1 by (now apply lookup_lt_Some in Hv).
  injection Hv1 as <-.
  eexists _, _. split; [exact Hf2|]. cbn [Fields frm_Name Custom].
  split.
  { apply list_lookup_insert_eq. rewrite length_insert.
    now apply lookup_lt_Some in Hv. }
  destruct (addConfigToField_spec dl1 unit1 value) as (_ & Hl & Hu).
  destruct (addConfigToField_spec dl2 unit2 (addConfigToField dl1 unit1 value))
    as (_ & Hl' & Hu').
  rewrite Hl', Hl, Hu', Hu, <- app_assoc. split; reflexivity.
Qed.

(** * Bucket bounds that cannot be read *)

(** X20.  [calcBucketBound] panics exactly when the index is not 0,
    neither linear nor exponential buckets are set, explicit buckets are
    set, and the index is negative or not below the number of bounds.  With
    none of the three set it returns ["0"] at every index. *)
Theorem calcBucketBound_panics (formatG : math.float64 -> string)
  (bucketOptions : cloudMonitoringBucketOptions) (n : Z) :
  ((exists msg, calcBucketBound formatG bucketOptions n = Panic msg)
   <-> n <> 0 /\ LinearBuckets bucketOptions = None
       /\ ExponentialBuckets bucketOptions = None
       /\ exists xb, ExplicitBuckets bucketOptions = Some xb
                     /\ (n < 0 \/ Z.of_nat (length (Bounds xb)) <= n))
  /\ (LinearBuckets bucketOptions = None ->
      ExponentialBuckets bucketOptions = None ->
      ExplicitBuckets bucketOptions = None ->
      calcBucketBound formatG bucketOptions n = Ret "0").
Proof.
  unfold calcBucketBound. split.
  - destruct (Z.eqb_spec n 0) as [->|Hn].
    { split; [intros [msg H]; discriminate H | intros [H _]; contradiction]. }
    destruct (LinearBuckets bucketOptions) as [lb|].
    { split; [intros [msg H]; discriminate H | intros (_ & H & _); discriminate H]. }
    destruct (ExponentialBuckets bucketOptions) as [eb|].
    { split; [intros [msg H]; discriminate H | intros (_ & _ & H & _); discriminate H]. }
    destruct (ExplicitBuckets bucketOptions) as [xb|].
    2:{ split; [intros [msg H]; discriminate H
               | intros (_ & _ & _ & xb & H & _); discriminate H]. }
    destruct (Z.ltb_spec n 0) as [Hneg|Hpos].
    { split; [|eauto]. intros _. repeat split; try assumption.
      exists xb. split; [reflexivity | now left]. }
    destruct (Bounds xb !! Z.to_nat n) as [b|] eqn:Hb.
    + apply lookup_lt_Some in Hb.
      split; [intros [msg H]; discriminate H|].
      intros (_ & _ & _ & xb' & [= <-] & [H|H]); lia.
    + apply lookup_ge_None in Hb. split; [|eauto]. intros _.
      repeat split; try assumption. exists xb. split; [reflexivity|]. right. lia.
  - intros -> -> ->. now destruct (n =? 0).
Qed.

(** * Templates without placeholders, metric types outside the convention *)

Lemma countFrom_nonneg (sub : string) (skip : nat) (s : string) :
  0 <= strings.countFrom sub skip s.
Proof.
  revert skip. induction s as [|a s IH]; intros skip; [reflexivity|].
  cbn [strings.countFrom]. destruct skip as [|k]; [|apply IH].
  destruct (String.prefix sub (String a s)); [|apply IH].
  pose proof (IH (String.length sub - 1)%nat). lia.
Qed.

Lemma legendKeyFormat_needs_braces (s : string) :
  String.prefix "{{" s = false -> regexp.matchPrefix legendKeyFormat s = None.
Proof.
  intros Hp. unfold regexp.matchPrefix, legendKeyFormat.
  rewrite matchK_Cat. cbn [regexp.literal]. rewrite matchK_Cat.
  destruct s as [|a s]; [reflexivity|]. rewrite matchK_byte.
  rewrite prefix_cons in Hp.
  destruct (Ascii.eqb "{" a); [|reflexivity]. cbn [andb] in Hp.
  destruct s as [|b s]; [reflexivity|]. rewrite matchK_byte.
  rewrite prefix_single in Hp. now rewrite Hp.
Qed.

Lemma ReplaceAllFunc_no_braces (repl : string -> string) (s : string) :
  strings.Contains s "{{" = false ->
  regexp.ReplaceAllFunc legendKeyFormat s repl = s.
Proof.
  unfold strings.Contains, strings.Count, regexp.ReplaceAllFunc.
  induction s as [|a s IH]; [reflexivity|]. intros Hc.
  apply Z.ltb_ge in Hc. cbn [strings.countFrom] in Hc.
  cbn [regexp.replaceAllFrom].
  destruct (String.prefix "{{" (String a s)) eqn:Hp.
  - pose proof (countFrom_nonneg "{{" (String.length "{{" - 1) s). lia.
  - rewrite (legendKeyFormat_needs_braces _ Hp). f_equal. apply IH.
    apply Z.ltb_ge. exact Hc.
Qed.

(** X21.  An alias template that is not empty and does not contain two
    opening braces in a row is the legend, unchanged. *)
Theorem formatLegendKeys_plain_text (metricType defaultMetricName : string)
  (labels additionalLabels : gmap string string)
  (query : cloudMonitoringTimeSeriesFilter) :
  tsf_AliasBy query <> EmptyString ->
  strings.Contains (tsf_AliasBy query) "{{" = false ->
  formatLegendKeys metricType defaultMetricName labels additionalLabels query
  = tsf_AliasBy query.
Proof.
  intros Hne Hc. unfold formatLegendKeys.
  destruct (String.eqb_spec (tsf_AliasBy query) EmptyString); [contradiction|].
  now apply ReplaceAllFunc_no_braces.
Qed.

Lemma suffixOf_refl (s : string) : suffixOf s s.
Proof. now exists EmptyString. Qed.

Lemma suffixOf_tail (a : ascii) (s : string) : suffixOf s (String a s).
Proof. now exists (String a EmptyString). Qed.

Lemma suffixOf_trans (s1 s2 s3 : string) :
  suffixOf s1 s2 -> suffixOf s2 s3 -> suffixOf s1 s3.
Proof.
  intros [u ->] [v ->]. exists (v ++ u). now rewrite append_assoc.
Qed.

Section Failing.
Context {R : Type}.

(** A pattern followed by something that fails on everything left of the
    text fails. *)
Lemma matchK_fails (r : regexp.regex) (s : string) (c : regexp.captures)
  (k : string -> regexp.captures -> option R) :
  (forall s' c', suffixOf s' s -> k s' c' = None) ->
  regexp.matchK r s c k = None.
Proof.
  revert s c k. induction r as [p|r1 IH1 r2 IH2|r1 IH1 r2 IH2|greedy r1 IH1|n r1 IH1];
    intros s c k Hk.
  - cbn [regexp.matchK]. destruct s as [|a s]; [reflexivity|].
    destruct (p a); [|reflexivity]. apply Hk, suffixOf_tail.
  - rewrite matchK_Cat. apply IH1. intros s' c' Hs'. apply IH2.
    intros s'' c'' Hs''. apply Hk. now apply (suffixOf_trans _ s').
  - cbn [regexp.matchK]. rewrite IH1 by assumption. now apply IH2.
  - rewrite matchK_Star. generalize (S (String.length s)). intros fuel.
    assert (Hloop : forall s' c', suffixOf s' s ->
              regexp.starLoop greedy (regexp.matchK r1) k fuel s' c' = None).
    { induction fuel as [|fuel IHf]; intros s' c' Hs'; cbn [regexp.starLoop].
      - now apply Hk.
      - rewrite (Hk s' c' Hs').
        rewrite IH1.
        + now destruct greedy.
        + intros s'' c'' Hs''.
          destruct (String.length s'' <? String.length s')%nat; [|reflexivity].
          apply IHf. now apply (suffixOf_trans _ s'). }
    apply Hloop, suffixOf_refl.
  - rewrite matchK_Group. apply IH1. intros s' c' Hs'. now apply Hk.
Qed.

End Failing.

Lemma notSlash_suffix (s' s : string) :
  suffixOf s' s -> allBytes notSlash s = true -> allBytes notSlash s' = true.
Proof.
  intros [u ->]. rewrite allBytes_app. now intros [_ H]%andb_true_iff.
Qed.

Lemma metricNameFormat_needs_slash (s : string) :
  allBytes notSlash s = true ->
  regexp.FindStringSubmatch metricNameFormat 3 s = [].
Proof.
  intros Hs.
  assert (Hnone : forall s', suffixOf s' s ->
            regexp.matchPrefix metricNameFormat s' = None).
  { intros s' Hs'. unfold regexp.matchPrefix, metricNameFormat.
    rewrite matchK_Cat. apply matchK_fails. intros s1 c1 H1.
    rewrite matchK_Cat. apply matchK_fails. intros s2 c2 H2.
    rewrite matchK_Cat. apply matchK_fails. intros s3 c3 H3.
    rewrite matchK_Cat.
    assert (H3s : allBytes notSlash s3 = true).
    { apply (notSlash_suffix s3 s); [|assumption].
      eauto using suffixOf_trans. }
    destruct s3 as [|a s3]; [reflexivity|]. rewrite matchK_byte.
    cbn [allBytes] in H3s. apply andb_true_iff in H3s as [Ha _].
    unfold notSlash in Ha. apply negb_true_iff in Ha. now rewrite Ha. }
  clear Hs. induction s as [|a s IH]; cbn [regexp.FindStringSubmatch].
  - now rewrite (Hnone EmptyString (suffixOf_refl _)).
  - rewrite (Hnone _ (suffixOf_refl _)). apply IH.
    intros s' Hs'. apply Hnone. apply (suffixOf_trans _ s); [assumption|].
    apply suffixOf_tail.
Qed.

(** X22.  For a metric type without slash [replaceWithMetricPart] returns
    nothing for every name, so the template [{{metric.name}}] becomes the
    label [metric.name], else the additional label of that name, else it
    stays as it is. *)
Theorem formatLegendKeys_unparsed_metric_type
  (metricType defaultMetricName : string)
  (labels additionalLabels : gmap string string)
  (query : cloudMonitoringTimeSeriesFilter) :
  allBytes notSlash metricType = true ->
  (forall name, replaceWithMetricPart name metricType = None)
  /\ (tsf_AliasBy query = "{{metric.name}}" ->
      formatLegendKeys metricType defaultMetricName labels additionalLabels query
      = match labels !! "metric.name" with
        | Some val => val
        | None =>
            match additionalLabels !! "metric.name" with
            | Some val => val
            | None => "{{metric.name}}"
            end
        end).
Proof.
  intros Hs.
  assert (Hpart : forall name, replaceWithMetricPart name metricType = None).
  { intros name. unfold replaceWithMetricPart.
    rewrite (metricNameFormat_needs_slash _ Hs). cbn [length Nat.ltb Nat.leb].
    now rewrite !andb_false_r. }
  split; [exact Hpart|]. intros Ha. unfold formatLegendKeys. rewrite Ha.
  change (String.eqb "{{metric.name}}" EmptyString) with false. cbv iota.
  pose proof (ReplaceAllFunc_placeholder
                (legendReplacement metricType labels additionalLabels query)
                EmptyString EmptyString EmptyString "m"%char "etric.name"
                EmptyString eq_refl eq_refl eq_refl eq_refl eq_refl) as Hr.
  change (EmptyString ++ ("{{" ++ EmptyString ++ "metric.name" ++ EmptyString ++ "}}")
          ++ EmptyString) with "{{metric.name}}" in Hr.
  rewrite Hr. clear Hr.
  change ("{{" ++ EmptyString ++ "metric.name" ++ EmptyString ++ "}}")
    with "{{metric.name}}".
  change (regexp.ReplaceAllFunc legendKeyFormat EmptyString
            (legendReplacement metricType labels additionalLabels query))
    with EmptyString.
  rewrite append_nil_l, append_nil_r.
  unfold legendReplacement.
  change (metaPartNameOf "{{metric.name}}") with "metric.name".
  rewrite Hpart.
  change (String.eqb "metric.name" "metric.type") with false. cbv iota.
  destruct (labels !! "metric.name"); [reflexivity|].
  destruct (additionalLabels !! "metric.name"); reflexivity.
Qed.

(** * Instance settings *)

Section InstanceSettings.
Context {httpOptions httpClient : Type}.
Variable HTTPClientOptions : DataSourceInstanceSettings -> string + httpOptions.
Variable newHTTPClient :
  instanceInfo httpClient -> httpOptions -> string + httpClient.

Lemma stringSetting_panics (jsonData : gmap string jsonValue) (key : string) :
  (exists msg, stringSetting jsonData key = Panic msg)
  <-> jsonData !! key = Some JSONOther.
Proof.
  unfold stringSetting, jsonIndex.
  destruct (jsonData !! key) as [[|s|]|]; cbn;
    split; try discriminate; try (intros [msg H]; discriminate H); eauto.
Qed.

(** X23.  When [newInstanceSettings] returns an instance, the JSON
    settings decoded and the authentication type of the instance is not
    empty: it is the [authenticationType] of the settings when that is a
    string and not empty, and it is [jwt] unless the settings hold it as a
    string. *)
Theorem newInstanceSettings_authentication (settings : DataSourceInstanceSettings)
  (info : instanceInfo httpClient) :
  newInstanceSettings HTTPClientOptions newHTTPClient settings = Ret (inr info) ->
  exists jsonData,
    dsis_JSONData settings = inr jsonData
    /\ dsi_authenticationType (ii_dsInfo info) <> EmptyString
    /\ (forall authTypeOverride,
          jsonData !! "authenticationType" = Some (JSONString authTypeOverride) ->
          authTypeOverride <> EmptyString ->
          dsi_authenticationType (ii_dsInfo info) = authTypeOverride)
    /\ (dsi_authenticationType (ii_dsInfo info) <> jwtAuthentication ->
        jsonData !! "authenticationType"
        = Some (JSONString (dsi_authenticationType (ii_dsInfo info)))).
Proof.
  unfold newInstanceSettings.
  destruct (dsis_JSONData settings) as [err|jsonData]; [discriminate|].
  destruct (stringSetting jsonData "defaultProject") as [defaultProject|];
    [|discriminate].
  destruct (stringSetting jsonData "clientEmail") as [clientEmail|];
    [|discriminate].
  destruct (stringSetting jsonData "tokenUri") as [tokenUri|]; [|discriminate].
  cbn [obind].
  destruct (HTTPClientOptions settings) as [err|opts]; [discriminate|].
  destruct (newHTTPClient _ opts) as [err|client]; [discriminate|].
  intros [= <-]. exists jsonData. split; [reflexivity|].
  cbn [ii_dsInfo dsi_authenticationType]. unfold jsonIndex.
  assert (Hjwt : forall o : option jsonValue,
            jwtAuthentication <> EmptyString
            /\ (jwtAuthentication <> jwtAuthentication ->
                o = Some (JSONString jwtAuthentication))).
  { intros o. split; [discriminate|]. intros H. now contradiction H. }
  destruct (jsonData !! "authenticationType") as [[|s|]|] eqn:Hauth;
    cbn [default from_option id].
  - destruct (Hjwt (Some JSONNull)) as (H1 & H2).
    split; [exact H1|]. split; [discriminate | exact H2].
  - destruct (String.eqb_spec s EmptyString) as [->|Hs]; cbn [negb].
    + destruct (Hjwt (Some (JSONString EmptyString))) as (H1 & H2).
      split; [exact H1|]. split; [|exact H2].
      intros o [= <-] Hne. now contradiction Hne.
    + split; [exact Hs|]. split; [now intros o [= <-] | reflexivity].
  - destruct (Hjwt (Some JSONOther)) as (H1 & H2).
    split; [exact H1|]. split; [discriminate | exact H2].
  - destruct (Hjwt (@None jsonValue)) as (H1 & H2).
    split; [exact H1|]. split; [discriminate | exact H2].
Qed.

(** X24.  [newInstanceSettings] panics exactly when the JSON settings
    decode and one of [defaultProject], [clientEmail] and [tokenUri] holds a
    value that is neither null nor a string. *)
Theorem newInstanceSettings_panics (settings : DataSourceInstanceSettings) :
  (exists msg,
      newInstanceSettings HTTPClientOptions newHTTPClient settings = Panic msg)
  <-> exists jsonData,
        dsis_JSONData settings = inr jsonData
        /\ (jsonData !! "defaultProject" = Some JSONOther
            \/ jsonData !! "clientEmail" = Some JSONOther
            \/ jsonData !! "tokenUri" = Some JSONOther).
Proof.
  unfold newInstanceSettings.
  destruct (dsis_JSONData settings) as [err|jsonData].
  { split; [intros [msg H]; discriminate H | intros (j & H & _); discriminate H]. }
  pose proof (stringSetting_panics jsonData "defaultProject") as H1.
  pose proof (stringSetting_panics jsonData "clientEmail") as H2.
  pose proof (stringSetting_panics jsonData "tokenUri") as H3.
  destruct (stringSetting jsonData "defaultProject") as [defaultProject|m1];
    cbn [obind].
  2:{ split; [|eauto]. intros _. exists jsonData. split; [reflexivity|].
      left. apply H1. eauto. }
  destruct (stringSetting jsonData "clientEmail") as [clientEmail|m2];
    cbn [obind].
  2:{ split; [|eauto]. intros _. exists jsonData. split; [reflexivity|].
      right. left. apply H2. eauto. }
  destruct (stringSetting jsonData "tokenUri") as [tokenUri|m3]; cbn [obind].
  2:{ split; [|eauto]. intros _. exists jsonData. split; [reflexivity|].
      right. right. apply H3. eauto. }
  split.
  - intros [msg H]. destruct (HTTPClientOptions settings) as [err|opts];
      [discriminate H|].
    destruct (newHTTPClient _ opts); discriminate H.
  - intros (j & [= <-] & [H|[H|H]]);
      [apply H1 in H | apply H2 in H | apply H3 in H];
      destruct H as [msg H]; discriminate H.
Qed.

End InstanceSettings.

(** * Requests *)

Section RequestsBuilt.
Context {parsedURL made body : Type}.
Variable urlParse : string -> string + parsedURL.
Variable NewRequest : string -> string -> option body -> string + Request made.
Variable cloudMonitoringRoute_url : string.

(** X25.  [createRequest] parses the URL of the data source and does not
    use it: for two data sources whose URLs parse it returns the same
    request or the same error, and a request it returns has the path
    [proxyPass] and the content type [application/json]. *)
Theorem createRequest_ignores_url (dsInfo dsInfo' : datasourceInfo)
  (proxyPass : string) (body_ : option body) (u u' : parsedURL) :
  urlParse (dsi_url dsInfo) = inr u ->
  urlParse (dsi_url dsInfo') = inr u' ->
  createRequest urlParse NewRequest cloudMonitoringRoute_url dsInfo proxyPass body_
  = createRequest urlParse NewRequest cloudMonitoringRoute_url dsInfo' proxyPass body_
  /\ forall req,
       createRequest urlParse NewRequest cloudMonitoringRoute_url dsInfo
         proxyPass body_ = inr req ->
       rq_URLPath req = proxyPass
       /\ rq_Header req !! "Content-Type" = Some ["application/json"].
Proof.
  intros Hu Hu'. unfold createRequest. rewrite Hu, Hu'. split; [reflexivity|].
  intros req. destruct (NewRequest _ _ _) as [err|r]; [discriminate|].
  intros [= <-]. split; [reflexivity|]. apply lookup_insert_eq.
Qed.

End RequestsBuilt.

(** * Further instances *)

(** [buildFilterString_conditions] on the three conditions of the
    example. *)
Lemma buildFilterString_conditions_example :
  buildFilterString "m" exampleFilterParts
  = Ret ("metric.type=" ++ dquote ++ "m" ++ dquote
         ++ " zone=monitoring.regex.full_match(" ++ dquote ++ "us-*" ++ dquote
         ++ ") name=has_substring(" ++ dquote ++ "east" ++ dquote
         ++ ") id!=" ++ dquote ++ "42" ++ dquote).
Proof.
  refine (buildFilterString_conditions "m" exampleConditions _).
  repeat (constructor; [repeat split; discriminate|]). constructor.
Defined.

(** [interpolateFilterWildcards_unchanged] on a zone. *)
Lemma interpolateFilterWildcards_unchanged_example :
  interpolateFilterWildcards "us-east1-b" = "us-east1-b".
Proof.
  exact (proj2 (interpolateFilterWildcards_unchanged "us-east1-b") eq_refl).
Defined.

(** [buildQueryExecutor_slo] on the SLO query of the example, in a batch
    whose first query covers an earlier hour. *)
Lemma buildQueryExecutor_slo_example :
  exists params,
    buildQueryExecutor exampleRFC3339 exampleEncode examplePreprocessorType
      exampleQuote
      (exampleDataQuery "A" (structuredPayload "timeSeriesQuery" "metrics" plainQuery))
      (laterDataQuery "B" sloPayload)
    = Ret (inr (FilterExecutor
        {| tsf_Target := exampleEncode params; tsf_Params := params;
           tsf_RefID := "B"; tsf_GroupBys := [];
           tsf_Selector := "select_slo_health"; tsf_Service := "svc";
           tsf_Slo := "availability"; tsf_ProjectName := "proj";
           tsf_AliasBy := EmptyString |}))
    /\ valuesOf params "filter"
       = ["select_slo_health(" ++ dquote
          ++ "projects/proj/services/svc/serviceLevelObjectives/availability"
          ++ dquote ++ ")"]
    /\ valuesOf params "aggregation.perSeriesAligner" = ["ALIGN_MEAN"]
    /\ valuesOf params "aggregation.alignmentPeriod" = ["+120s"]
    /\ valuesOf params "interval.endTime" = ["3600"]
    /\ valuesOf params "aggregation.crossSeriesReducer" = [].
Proof.
  destruct (buildQueryExecutor_slo exampleRFC3339 exampleEncode
              examplePreprocessorType exampleQuote
              (exampleDataQuery "A"
                 (structuredPayload "timeSeriesQuery" "metrics" plainQuery))
              (laterDataQuery "B" sloPayload)
              {| QueryType := "slo"; MetricQuery := zeroMetricQuery;
                 SloQuery := exampleSlo |} eq_refl eq_refl)
    as (params & Hbuild & Hvalues).
  exists params. split; [exact Hbuild|]. rewrite !Hvalues.
  repeat split.
Defined.

(** [buildQueryExecutor_metric] on a query without selections. *)
Lemma buildQueryExecutor_metric_example :
  exists params,
    buildQueryExecutor exampleRFC3339 exampleEncode examplePreprocessorType
      exampleQuote
      (exampleDataQuery "A" (structuredPayload "timeSeriesQuery" "metrics" plainQuery))
      (exampleDataQuery "A" (structuredPayload "timeSeriesQuery" "metrics" plainQuery))
    = Ret (inr (FilterExecutor
        {| tsf_Target := exampleEncode params; tsf_Params := params;
           tsf_RefID := "A"; tsf_GroupBys := [];
           tsf_Selector := EmptyString; tsf_Service := EmptyString;
           tsf_Slo := EmptyString; tsf_ProjectName := "proj";
           tsf_AliasBy := EmptyString |}))
    /\ valuesOf params "filter" = ["metric.type=" ++ dquote ++ "m" ++ dquote]
    /\ valuesOf params "view" = ["FULL"]
    /\ valuesOf params "aggregation.crossSeriesReducer" = ["REDUCE_NONE"]
    /\ valuesOf params "aggregation.perSeriesAligner" = ["ALIGN_MEAN"].
Proof.
  destruct (proj2 (buildQueryExecutor_metric exampleRFC3339 exampleEncode
              examplePreprocessorType exampleQuote
              (exampleDataQuery "A"
                 (structuredPayload "timeSeriesQuery" "metrics" plainQuery))
              (exampleDataQuery "A"
                 (structuredPayload "timeSeriesQuery" "metrics" plainQuery))
              {| QueryType := "metrics"; MetricQuery := plainQuery;
                 SloQuery := zeroSloQuery |} eq_refl eq_refl)
              ltac:(discriminate))
    as (filter & params & Hfilter & Hbuild & Hvalues).
  injection Hfilter as <-.
  exists params. split; [exact Hbuild|]. rewrite !Hvalues.
  repeat split.
Defined.

(** [buildQueryExecutors_one_per_query] on two queries of the same
    reference id. *)
Lemma buildQueryExecutors_one_per_query_example :
  map getRefID (exampleBuilt sameRefID) = ["A"; "A"].
Proof.
  refine (buildQueryExecutors_one_per_query exampleRFC3339 exampleEncode
            examplePreprocessorType exampleQuote sameRefID
            (exampleBuilt sameRefID) _).
  vm_compute. reflexivity.
Defined.

(** [buildQueryExecutors_first_time_range] on a batch whose second query
    covers a later hour. *)
Lemma buildQueryExecutors_first_time_range_example :
  Forall (builtFor exampleRFC3339 {| tr_From := 0; tr_To := 3600 * 1000000000 |})
    (exampleBuilt sameRefID).
Proof.
  apply Forall_forall.
  refine (buildQueryExecutors_first_time_range exampleRFC3339 exampleEncode
            examplePreprocessorType exampleQuote sameRefID
            (exampleDataQuery "A"
               (structuredPayload "timeSeriesQuery" "metrics" plainQuery))
            (exampleBuilt sameRefID) _ eq_refl).
  vm_compute. reflexivity.
Defined.

(** [legacy_query_is_metrics] on a legacy payload that declares the type
    [bogus]. *)
Lemma legacy_query_is_metrics_example :
  (exists q,
      queryModel (exampleDataQuery "A" (legacyPayload "nonsense" "bogus" cpuQuery))
      = inr q
      /\ QueryType q = metricQueryType /\ MetricQuery q = cpuQuery)
  /\ exists e,
       buildQueryExecutor exampleRFC3339 exampleEncode examplePreprocessorType
         exampleQuote
         (exampleDataQuery "A" (legacyPayload "nonsense" "bogus" cpuQuery))
         (exampleDataQuery "A" (legacyPayload "nonsense" "bogus" cpuQuery))
       = Ret (inr e)
       /\ getRefID e = "A".
Proof.
  exact (legacy_query_is_metrics exampleRFC3339 exampleEncode
           examplePreprocessorType exampleQuote
           (exampleDataQuery "A" (legacyPayload "nonsense" "bogus" cpuQuery))
           (exampleDataQuery "A" (legacyPayload "nonsense" "bogus" cpuQuery))
           cpuQuery eq_refl eq_refl).
Defined.

(** [executeTimeSeriesQuery_run_error] on a batch whose second executor
    fails to run: the first query keeps its slot, the third has none, and
    the batch has the error. *)
Lemma executeTimeSeriesQuery_run_error_example :
  exists resp,
    exampleBatch true metricThenSlo = Ret (resp, Some "context canceled")
    /\ forall k, is_Some (resp !! k) <-> k ∈ ["A"].
Proof.
  refine (executeTimeSeriesQuery_run_error (exampleRun true) exampleParse
            exampleRFC3339 exampleEncode examplePreprocessorType exampleQuote
            metricThenSlo
            (take 1 (exampleBuilt metricThenSlo))
            (drop 2 (exampleBuilt metricThenSlo))
            (nth 1 (exampleBuilt metricThenSlo) noExecutor)
            "context canceled" _ _ _).
  - vm_compute. reflexivity.
  - apply (bool_decide_unpack _). vm_compute. exact I.
  - vm_compute. reflexivity.
Defined.

(** [executeTimeSeriesQuery_slots] on two queries of the same reference
    id: the slot holds the response of the second. *)
Lemma executeTimeSeriesQuery_slots_example :
  exists resp,
    exampleBatch false sameRefID = Ret (resp, None)
    /\ resp !! "A"
       = Some {| Frames := [ {| frm_Name := "select_slo_health"; Fields := [];
                                Custom := None |} ];
                 Error := None |}.
Proof.
  destruct (executeTimeSeriesQuery_slots (exampleRun false) exampleParse
              exampleRFC3339 exampleEncode examplePreprocessorType exampleQuote
              sameRefID (exampleBuilt sameRefID))
    as (resp & Hexec & _ & Hlast).
  - vm_compute. reflexivity.
  - apply (bool_decide_unpack _). vm_compute. exact I.
  - exists resp. split; [exact Hexec|].
    refine (Hlast (take 1 (exampleBuilt sameRefID))
                  (nth 1 (exampleBuilt sameRefID) noExecutor) [] _ _).
    + vm_compute. reflexivity.
    + apply not_elem_of_nil.
Defined.

(** [executeTimeSeriesQuery_decode_error] on a batch whose second query is
    not JSON. *)
Lemma executeTimeSeriesQuery_decode_error_example :
  exampleBuild brokenSecond
  = Ret ([], Some ("could not unmarshal CloudMonitoringQuery json: "
                   ++ "unexpected end of JSON input"))
  /\ exampleBatch false brokenSecond
     = Ret (NewQueryDataResponse,
            Some ("could not unmarshal CloudMonitoringQuery json: "
                  ++ "unexpected end of JSON input")).
Proof.
  refine (executeTimeSeriesQuery_decode_error (exampleRun false) exampleParse
            exampleRFC3339 exampleEncode examplePreprocessorType exampleQuote
            brokenSecond
            [exampleDataQuery "A"
               (structuredPayload "timeSeriesQuery" "metrics" plainQuery)]
            [exampleDataQuery "C" sloPayload]
            (exampleDataQuery "B" brokenPayload)
            "unexpected end of JSON input" eq_refl _ eq_refl).
  repeat constructor. eexists. split; [reflexivity|]. left. reflexivity.
Defined.

(** [QueryData_panics] on the batch whose second query has the type
    [bogus]. *)
Lemma QueryData_panics_example :
  exists query queryType,
    query ∈ Queries bogusSecond /\ unrecognized query queryType
    /\ "Unrecognized query type " ++ exampleQuote "bogus"
       = "Unrecognized query type " ++ exampleQuote queryType.
Proof.
  assert (H : exampleQueryData bogusSecond
              = Panic ("Unrecognized query type " ++ exampleQuote "bogus"))
    by (vm_compute; reflexivity).
  unfold exampleQueryData in H.
  destruct (QueryData_panics _ _ _ _ _ _ _ _ _ _ _ H) as [Hlookup|Hquery];
    [discriminate Hlookup | exact Hquery].
Defined.

(** [QueryData_default_project] on a data source that does not use the
    credentials of the environment. *)
Lemma QueryData_default_project_example :
  exampleQueryData defaultProjectRequest
  = Ret (Some {[ "A" := {| Frames := [defaultProjectFrame "proj"];
                           Error := None |} ]}, None).
Proof.
  exact (QueryData_default_project _ _ exampleRFC3339 exampleEncode
           examplePreprocessorType exampleQuote _ _ _ defaultProjectRequest
           (exampleDataQuery "A"
              (structuredPayload "getGCEDefaultProject" "metrics" plainQuery))
           {| dsi_url := EmptyString; dsi_authenticationType := jwtAuthentication;
              dsi_defaultProject := "proj" |}
           eq_refl eq_refl eq_refl).
Defined.

(** [unmarshalResponse_status] on a reply of status 500 whose body is
    JSON. *)
Lemma unmarshalResponse_status_example :
  unmarshalResponse exampleUnmarshal
    {| StatusCode := 500; Status := "500 Internal Server Error";
       Body := inr "{}" |}
  = inl "query failed: {}".
Proof.
  refine (proj1 (proj2 (unmarshalResponse_status exampleUnmarshal
            {| StatusCode := 500; Status := "500 Internal Server Error";
               Body := inr "{}" |})) "{}" eq_refl _).
  cbn [StatusCode]. lia.
Defined.

(** [addConfigData_panics] on a frame that has only its time field. *)
Lemma addConfigData_panics_example :
  addConfigData [exampleFrame; timeOnlyFrame] "https://console.example/metrics" "By"
  = Panic "index out of range".
Proof.
  refine (proj1 (addConfigData_panics [exampleFrame; timeOnlyFrame]
                   "https://console.example/metrics" "By") _).
  apply Exists_cons_tl, Exists_cons_hd. unfold hasValueField. cbn. lia.
Defined.

(** [addConfigData_twice] on a frame: two links, and the unit of the first
    call, the second unit not being in the table. *)
Lemma addConfigData_twice_example :
  exists frames1 frames2 frame2 value2,
    addConfigData [exampleFrame] "https://console.example/a" "By" = Ret frames1
    /\ addConfigData frames1 "https://console.example/b" "furlong" = Ret frames2
    /\ frames2 !! 0%nat = Some frame2
    /\ Fields frame2 !! 1%nat = Some value2
    /\ Links (configOf value2)
       = [deepLinkTo "https://console.example/a";
          deepLinkTo "https://console.example/b"]
    /\ Unit (configOf value2) = "bytes".
Proof.
  destruct (addConfigData_twice [exampleFrame] "https://console.example/a" "By"
              "https://console.example/b" "furlong")
    as (frames1 & frames2 & H1 & H2 & Hall).
  - repeat constructor.
  - destruct (Hall 0%nat exampleFrame {| fld_Name := "Value"; Config := None |}
                eq_refl eq_refl)
      as (frame2 & value2 & Hf & Hv & Hl & Hu).
    exists frames1, frames2, frame2, value2.
    repeat split; assumption.
Defined.

(** [calcBucketBound_panics] on a negative index of explicit buckets. *)
Lemma calcBucketBound_panics_example :
  exists msg, calcBucketBound formatWhole explicitExample (-1) = Panic msg.
Proof.
  refine (proj2 (proj1 (calcBucketBound_panics formatWhole explicitExample (-1))) _).
  split; [discriminate|]. split; [reflexivity|]. split; [reflexivity|].
  exists {| Bounds := [1%Q; 5%Q; 10%Q] |}. split; [reflexivity|]. left. lia.
Defined.

(** [formatLegendKeys_plain_text] on a template with single braces. *)
Lemma formatLegendKeys_plain_text_example :
  formatLegendKeys "custom.googleapis.com/my_metric" "default" ∅ ∅
    (plainAliasQuery "cpu {zone}")
  = "cpu {zone}".
Proof.
  refine (formatLegendKeys_plain_text "custom.googleapis.com/my_metric" "default"
            ∅ ∅ (plainAliasQuery "cpu {zone}") _ eq_refl).
  discriminate.
Defined.

(** [formatLegendKeys_unparsed_metric_type] on a metric type without
    slash and a label named [metric.name]. *)
Lemma formatLegendKeys_unparsed_metric_type_example :
  formatLegendKeys "my_metric" "default" {[ "metric.name" := "from a label" ]} ∅
    (plainAliasQuery "{{metric.name}}")
  = "from a label".
Proof.
  exact (proj2 (formatLegendKeys_unparsed_metric_type "my_metric" "default"
                  {[ "metric.name" := "from a label" ]} ∅
                  (plainAliasQuery "{{metric.name}}") eq_refl) eq_refl).
Defined.

(** [newInstanceSettings_authentication] on settings that select the
    credentials of the environment. *)
Lemma newInstanceSettings_authentication_example :
  exists jsonData,
    dsis_JSONData
      (exampleSettings {[ "authenticationType" := JSONString "gce" ]})
    = inr jsonData
    /\ "gce" <> EmptyString
    /\ (forall authTypeOverride,
          jsonData !! "authenticationType" = Some (JSONString authTypeOverride) ->
          authTypeOverride <> EmptyString ->
          "gce" = authTypeOverride)
    /\ ("gce" <> jwtAuthentication ->
        jsonData !! "authenticationType" = Some (JSONString "gce")).
Proof.
  exact (newInstanceSettings_authentication (fun _ => inr tt) (fun _ _ => inr tt)
           (exampleSettings {[ "authenticationType" := JSONString "gce" ]})
           {| ii_dsInfo :=
                {| dsi_url := "https://monitoring.example";
                   dsi_authenticationType := "gce";
                   dsi_defaultProject := EmptyString |};
              ii_id := 1; ii_updated := 0; ii_clientEmail := EmptyString;
              ii_tokenUri := EmptyString; ii_client := Some tt;
              ii_decryptedSecureJSONData := ∅ |}
           eq_refl).
Defined.

(** [newInstanceSettings_panics] on a default project given as a
    number. *)
Lemma newInstanceSettings_panics_example :
  exists msg, exampleInstance {[ "defaultProject" := JSONOther ]} = Panic msg.
Proof.
  refine (proj2 (newInstanceSettings_panics (fun _ => inr tt) (fun _ _ => inr tt)
                   (exampleSettings {[ "defaultProject" := JSONOther ]})) _).
  exists {[ "defaultProject" := JSONOther ]}. split; [reflexivity|].
  left. reflexivity.
Defined.

(** [createRequest_ignores_url] on two data sources. *)
Lemma createRequest_ignores_url_example :
  exampleCreateRequest "https://a.example" = exampleCreateRequest "http://b.example/x".
Proof.
  exact (proj1 (createRequest_ignores_url exampleParseURL exampleNewRequest
                  "https://monitoring.googleapis.com"
                  {| dsi_url := "https://a.example";
                     dsi_authenticationType := jwtAuthentication;
                     dsi_defaultProject := "proj" |}
                  {| dsi_url := "http://b.example/x";
                     dsi_authenticationType := jwtAuthentication;
                     dsi_defaultProject := "proj" |}
                  "/v3/projects/proj/timeSeries" None
                  "https://a.example" "http://b.example/x" eq_refl eq_refl)).
Defined.


(** [buildFilterString_clauses] on the last token of the example. *)
Lemma buildFilterString_clauses_example :
  exists rest,
    buildFilterString "m" exampleFilterParts
    = Ret ("metric.type=" ++ dquote ++ "m" ++ dquote
           ++ " zone=monitoring.regex.full_match(" ++ dquote ++ "us-*" ++ dquote
           ++ ") name=has_substring(" ++ dquote ++ "east" ++ dquote
           ++ ") id!=" ++ dquote ++ "42" ++ dquote ++ rest).
Proof.
  destruct (proj2 (proj2 (buildFilterString_clauses "m" exampleFilterParts))
              10%nat "!=" "42" eq_refl eq_refl ltac:(discriminate) eq_refl
              ltac:(discriminate) ltac:(discriminate) eq_refl)
    as (upToOperator & spaces & rest & Hi & _ & Hnone & Hall).
  exists rest. rewrite Hall.
  rewrite (Hnone ltac:(discriminate) ltac:(discriminate) eq_refl).
  assert (Hval : buildFilterString "m" (take 10 exampleFilterParts)
                 = Ret ("metric.type=" ++ dquote ++ "m" ++ dquote
                        ++ " zone=monitoring.regex.full_match(" ++ dquote
                        ++ "us-*" ++ dquote ++ ") name=has_substring(" ++ dquote
                        ++ "east" ++ dquote ++ ") id!=")) by reflexivity.
  rewrite Hval in Hi. injection Hi as <-. now rewrite !append_assoc.
Defined.

(** [calculateAlignmentPeriod_cases] on an interval of a minute and a
    half. *)
Lemma calculateAlignmentPeriod_cases_example :
  calculateAlignmentPeriod "grafana-auto" 90500 3600 = "+90s".
Proof.
  refine (proj1 (calculateAlignmentPeriod_cases "grafana-auto" 90500 3600 _ _));
    vm_compute; discriminate.
Defined.
